(** * Session store, session manager, authentication engine, commands
      and step handlers of the Mutasiku Telegram bot (src/index.js,
      src/lib/authHandler.js, src/lib/sessionUtils.js,
      src/lib/transferHandlers.js, src/lib/utils.js).

    The JavaScript code is embedded shallowly:
    - the SQLite table [sessions] (PRIMARY KEY id) is a finite map from the
      id to the remaining columns;
    - the TEXT column [data] holds a JSON document, represented by the
      object it denotes, so that JSON.stringify followed by JSON.parse is
      the removal of the properties whose value is undefined;
    - asynchronous functions are computations in a state-and-exception
      monad over the table and the clock; a handler runs at one reading of
      the clock, and the environment advances the clock between handlers
      (the handlers of one chat run one after the other);
    - timestamps and counters are integers; the Number that parseInt reads
      from a text is NaN, an infinity or the nearest double, which is an
      integer; strings are the bytes of their UTF-8 encoding, with the
      white space of ECMAScript and the upper-case mapping of Unicode;
    - the chat transport and the financial API are outside: messages sent
      to the user are collected in a list, or are the value the handler
      returns (type [answer]), and the outcome of an API call is an
      argument. *)

From Stdlib Require Import ZArith Lia Ascii String.
From stdpp Require Import gmap strings list fin_maps pretty.

Local Open Scope Z_scope.

(** ** JavaScript values and objects *)

(** JSON-serialisable values. *)
#[warnings="-register-all"]
Inductive json : Type :=
  | JNull
  | JBool (b : bool)
  | JNum (n : Z)
  | JStr (s : string)
  | JArr (l : list json)
  | JObj (l : list (string * json)).

(** A property value of an object in memory: a JSON value or undefined. *)
Inductive jsval : Type :=
  | JUndefined
  | JVal (j : json).

(** An object in memory maps its own property names to values; a stored
    document maps them to JSON values. *)
Abbreviation object := (gmap string jsval).
Abbreviation document := (gmap string json).

(** [obj.k]: reading a property that is not there gives undefined. *)
Definition js_get (o : object) (k : string) : jsval :=
  default JUndefined (o !! k).

(** [{ ...a, ...b }]: the own properties of [b] override those of [a],
    also when the value in [b] is undefined. *)
Definition spread (a b : object) : object := b ∪ a.

Definition defined (v : jsval) : option json :=
  match v with
  | JUndefined => None
  | JVal j => Some j
  end.

(** [JSON.stringify] of an object leaves out the properties whose value is
    undefined. *)
Definition JSON_stringify (o : object) : document := omap defined o.

Definition JSON_parse (d : document) : object := JVal <$> d.

(** Truthiness of a value, as tested by [if (v)], [v || d] and [a && v]. *)
Definition truthy (v : jsval) : bool :=
  match v with
  | JUndefined => false
  | JVal JNull => false
  | JVal (JBool b) => b
  | JVal (JNum n) => negb (n =? 0)
  | JVal (JStr s) => negb (String.eqb s "")
  | JVal (JArr _) => true
  | JVal (JObj _) => true
  end.

(** [Math.ceil(x / y)] for integers [x] and [y > 0]. *)
Definition Math_ceil_div (x y : Z) : Z := - ((- x) / y).

(** ** Strings *)

(** A string is the sequence of the bytes of its UTF-8 encoding: the text
    of a Telegram message is well-formed Unicode, and the tokens, prefixes
    and names the program compares it with are ASCII. [char_code] is the
    value of a byte. *)
Definition char_code (c : ascii) : Z := Z.of_nat (nat_of_ascii c).
Definition char_of (n : Z) : ascii := ascii_of_nat (Z.to_nat n).

(** The white space of ECMAScript (WhiteSpace and LineTerminator) that
    [trim] and [parseInt] skip: U+0009 to U+000D and U+0020, of one byte;
    U+00A0, of two bytes; U+1680, U+2000 to U+200A, U+2028, U+2029, U+202F,
    U+205F, U+3000 and U+FEFF, of three bytes. *)
Definition is_whitespace (c : ascii) : bool :=
  let n := nat_of_ascii c in
  ((9 <=? n) && (n <=? 13))%nat || (n =? 32)%nat.

Definition is_whitespace2 (a b : ascii) : bool :=
  (char_code a =? 194) && (char_code b =? 160).

Definition is_whitespace3 (a b c : ascii) : bool :=
  let x := char_code a in
  let y := char_code b in
  let z := char_code c in
  (x =? 225) && (y =? 154) && (z =? 128)
  || (x =? 226) && (y =? 128)
     && ((128 <=? z) && (z <=? 138) || (z =? 168) || (z =? 169) || (z =? 175))
  || (x =? 226) && (y =? 129) && (z =? 159)
  || (x =? 227) && (y =? 128) && (z =? 128)
  || (x =? 239) && (y =? 187) && (z =? 191).

(** The bytes 128 to 191 continue a character, and the white space
    starts with one of the bytes below, none of which continues one. *)
Definition is_continuation (c : ascii) : bool :=
  (128 <=? char_code c) && (char_code c <? 192).

Definition starts_whitespace (c : ascii) : bool :=
  let x := char_code c in
  is_whitespace c
  || (x =? 194) || (x =? 225) || (x =? 226) || (x =? 227) || (x =? 239).

(** What follows the white space character at the start of [s], when [s]
    starts with one. *)
Definition after_whitespace (s : string) : option string :=
  match s with
  | EmptyString => None
  | String a s1 =>
      if is_whitespace a then Some s1
      else
        match s1 with
        | EmptyString => None
        | String b s2 =>
            if is_whitespace2 a b then Some s2
            else
              match s2 with
              | EmptyString => None
              | String c s3 => if is_whitespace3 a b c then Some s3 else None
              end
        end
  end.

Fixpoint trimStart (s : string) : string :=
  match s with
  | EmptyString => EmptyString
  | String a s1 =>
      if is_whitespace a then trimStart s1
      else
        match s1 with
        | EmptyString => s
        | String b s2 =>
            if is_whitespace2 a b then trimStart s2
            else
              match s2 with
              | EmptyString => s
              | String c s3 => if is_whitespace3 a b c then trimStart s3 else s
              end
        end
  end.

(** The white space at the end goes: a byte stays as long as what starts
    with it is not white space only. *)
Fixpoint trimEnd (s : string) : string :=
  match s with
  | EmptyString => EmptyString
  | String c s' =>
      if String.eqb (trimStart s) "" then EmptyString else String c (trimEnd s')
  end.

Definition trim (s : string) : string := trimEnd (trimStart s).


(** The UTF-8 encoding of a code point. *)
Definition utf8 (cp : Z) : string :=
  if cp <? 128 then String (char_of cp) ""
  else if cp <? 2048 then
    String (char_of (192 + cp / 64)) (String (char_of (128 + cp mod 64)) "")
  else if cp <? 65536 then
    String (char_of (224 + cp / 4096))
      (String (char_of (128 + (cp / 64) mod 64))
         (String (char_of (128 + cp mod 64)) ""))
  else
    String (char_of (240 + cp / 262144))
      (String (char_of (128 + (cp / 4096) mod 64))
         (String (char_of (128 + (cp / 64) mod 64))
            (String (char_of (128 + cp mod 64)) ""))).

(** The upper-case mapping of Unicode 14.0 that [toUpperCase] applies,
    whatever the locale. [upper_simple] lists the code points that map to
    one code point, as (first, last, step, delta): every step-th code point
    from first to last maps to itself plus delta. [upper_special] lists the
    code points that map to several (SpecialCasing.txt, unconditional). *)
Definition upper_simple : list (Z * Z * Z * Z) :=
  [(97, 122, 1, (-32)); (181, 181, 1, 743); (224, 246, 1, (-32));
   (248, 254, 1, (-32)); (255, 255, 1, 121); (257, 303, 2, (-1));
   (305, 305, 1, (-232)); (307, 311, 2, (-1)); (314, 328, 2, (-1));
   (331, 375, 2, (-1)); (378, 382, 2, (-1)); (383, 383, 1, (-300));
   (384, 384, 1, 195); (387, 389, 2, (-1)); (392, 392, 1, (-1));
   (396, 396, 1, (-1)); (402, 402, 1, (-1)); (405, 405, 1, 97);
   (409, 409, 1, (-1)); (410, 410, 1, 163); (414, 414, 1, 130);
   (417, 421, 2, (-1)); (424, 424, 1, (-1)); (429, 429, 1, (-1));
   (432, 432, 1, (-1)); (436, 438, 2, (-1)); (441, 441, 1, (-1));
   (445, 445, 1, (-1)); (447, 447, 1, 56); (453, 453, 1, (-1));
   (454, 454, 1, (-2)); (456, 456, 1, (-1)); (457, 457, 1, (-2));
   (459, 459, 1, (-1)); (460, 460, 1, (-2)); (462, 476, 2, (-1));
   (477, 477, 1, (-79)); (479, 495, 2, (-1)); (498, 498, 1, (-1));
   (499, 499, 1, (-2)); (501, 501, 1, (-1)); (505, 543, 2, (-1));
   (547, 563, 2, (-1)); (572, 572, 1, (-1)); (575, 576, 1, 10815);
   (578, 578, 1, (-1)); (583, 591, 2, (-1)); (592, 592, 1, 10783);
   (593, 593, 1, 10780); (594, 594, 1, 10782); (595, 595, 1, (-210));
   (596, 596, 1, (-206)); (598, 599, 1, (-205)); (601, 601, 1, (-202));
   (603, 603, 1, (-203)); (604, 604, 1, 42319); (608, 608, 1, (-205));
   (609, 609, 1, 42315); (611, 611, 1, (-207)); (613, 613, 1, 42280);
   (614, 614, 1, 42308); (616, 616, 1, (-209)); (617, 617, 1, (-211));
   (618, 618, 1, 42308); (619, 619, 1, 10743); (620, 620, 1, 42305);
   (623, 623, 1, (-211)); (625, 625, 1, 10749); (626, 626, 1, (-213));
   (629, 629, 1, (-214)); (637, 637, 1, 10727); (640, 640, 1, (-218));
   (642, 642, 1, 42307); (643, 643, 1, (-218)); (647, 647, 1, 42282);
   (648, 648, 1, (-218)); (649, 649, 1, (-69)); (650, 651, 1, (-217));
   (652, 652, 1, (-71)); (658, 658, 1, (-219)); (669, 669, 1, 42261);
   (670, 670, 1, 42258); (837, 837, 1, 84); (881, 883, 2, (-1));
   (887, 887, 1, (-1)); (891, 893, 1, 130); (940, 940, 1, (-38));
   (941, 943, 1, (-37)); (945, 961, 1, (-32)); (962, 962, 1, (-31));
   (963, 971, 1, (-32)); (972, 972, 1, (-64)); (973, 974, 1, (-63));
   (976, 976, 1, (-62)); (977, 977, 1, (-57)); (981, 981, 1, (-47));
   (982, 982, 1, (-54)); (983, 983, 1, (-8)); (985, 1007, 2, (-1));
   (1008, 1008, 1, (-86)); (1009, 1009, 1, (-80)); (1010, 1010, 1, 7);
   (1011, 1011, 1, (-116)); (1013, 1013, 1, (-96)); (1016, 1016, 1, (-1));
   (1019, 1019, 1, (-1)); (1072, 1103, 1, (-32)); (1104, 1119, 1, (-80));
   (1121, 1153, 2, (-1)); (1163, 1215, 2, (-1)); (1218, 1230, 2, (-1));
   (1231, 1231, 1, (-15)); (1233, 1327, 2, (-1)); (1377, 1414, 1, (-48));
   (4304, 4346, 1, 3008); (4349, 4351, 1, 3008); (5112, 5117, 1, (-8));
   (7296, 7296, 1, (-6254)); (7297, 7297, 1, (-6253));
   (7298, 7298, 1, (-6244)); (7299, 7300, 1, (-6242));
   (7301, 7301, 1, (-6243)); (7302, 7302, 1, (-6236));
   (7303, 7303, 1, (-6181)); (7304, 7304, 1, 35266); (7545, 7545, 1, 35332);
   (7549, 7549, 1, 3814); (7566, 7566, 1, 35384); (7681, 7829, 2, (-1));
   (7835, 7835, 1, (-59)); (7841, 7935, 2, (-1)); (7936, 7943, 1, 8);
   (7952, 7957, 1, 8); (7968, 7975, 1, 8); (7984, 7991, 1, 8);
   (8000, 8005, 1, 8); (8017, 8023, 2, 8); (8032, 8039, 1, 8);
   (8048, 8049, 1, 74); (8050, 8053, 1, 86); (8054, 8055, 1, 100);
   (8056, 8057, 1, 128); (8058, 8059, 1, 112); (8060, 8061, 1, 126);
   (8112, 8113, 1, 8); (8126, 8126, 1, (-7205)); (8144, 8145, 1, 8);
   (8160, 8161, 1, 8); (8165, 8165, 1, 7); (8526, 8526, 1, (-28));
   (8560, 8575, 1, (-16)); (8580, 8580, 1, (-1)); (9424, 9449, 1, (-26));
   (11312, 11359, 1, (-48)); (11361, 11361, 1, (-1));
   (11365, 11365, 1, (-10795)); (11366, 11366, 1, (-10792));
   (11368, 11372, 2, (-1)); (11379, 11379, 1, (-1)); (11382, 11382, 1, (-1));
   (11393, 11491, 2, (-1)); (11500, 11502, 2, (-1)); (11507, 11507, 1, (-1));
   (11520, 11557, 1, (-7264)); (11559, 11559, 1, (-7264));
   (11565, 11565, 1, (-7264)); (42561, 42605, 2, (-1));
   (42625, 42651, 2, (-1)); (42787, 42799, 2, (-1)); (42803, 42863, 2, (-1));
   (42874, 42876, 2, (-1)); (42879, 42887, 2, (-1)); (42892, 42892, 1, (-1));
   (42897, 42899, 2, (-1)); (42900, 42900, 1, 48); (42903, 42921, 2, (-1));
   (42933, 42947, 2, (-1)); (42952, 42954, 2, (-1)); (42961, 42961, 1, (-1));
   (42967, 42969, 2, (-1)); (42998, 42998, 1, (-1));
   (43859, 43859, 1, (-928)); (43888, 43967, 1, (-38864));
   (65345, 65370, 1, (-32)); (66600, 66639, 1, (-40));
   (66776, 66811, 1, (-40)); (66967, 67003, 2, (-39));
   (66968, 66977, 1, (-39)); (66980, 66993, 1, (-39));
   (66996, 67001, 1, (-39)); (67004, 67004, 1, (-39));
   (68800, 68850, 1, (-64)); (71872, 71903, 1, (-32));
   (93792, 93823, 1, (-32)); (125218, 125251, 1, (-34))].

Definition upper_special : list (Z * list Z) :=
  [(223, [83; 83]); (329, [700; 78]); (496, [74; 780]);
   (912, [921; 776; 769]); (944, [933; 776; 769]); (1415, [1333; 1362]);
   (7830, [72; 817]); (7831, [84; 776]); (7832, [87; 778]);
   (7833, [89; 778]); (7834, [65; 702]); (8016, [933; 787]);
   (8018, [933; 787; 768]); (8020, [933; 787; 769]); (8022, [933; 787; 834]);
   (8064, [7944; 921]); (8065, [7945; 921]); (8066, [7946; 921]);
   (8067, [7947; 921]); (8068, [7948; 921]); (8069, [7949; 921]);
   (8070, [7950; 921]); (8071, [7951; 921]); (8072, [7944; 921]);
   (8073, [7945; 921]); (8074, [7946; 921]); (8075, [7947; 921]);
   (8076, [7948; 921]); (8077, [7949; 921]); (8078, [7950; 921]);
   (8079, [7951; 921]); (8080, [7976; 921]); (8081, [7977; 921]);
   (8082, [7978; 921]); (8083, [7979; 921]); (8084, [7980; 921]);
   (8085, [7981; 921]); (8086, [7982; 921]); (8087, [7983; 921]);
   (8088, [7976; 921]); (8089, [7977; 921]); (8090, [7978; 921]);
   (8091, [7979; 921]); (8092, [7980; 921]); (8093, [7981; 921]);
   (8094, [7982; 921]); (8095, [7983; 921]); (8096, [8040; 921]);
   (8097, [8041; 921]); (8098, [8042; 921]); (8099, [8043; 921]);
   (8100, [8044; 921]); (8101, [8045; 921]); (8102, [8046; 921]);
   (8103, [8047; 921]); (8104, [8040; 921]); (8105, [8041; 921]);
   (8106, [8042; 921]); (8107, [8043; 921]); (8108, [8044; 921]);
   (8109, [8045; 921]); (8110, [8046; 921]); (8111, [8047; 921]);
   (8114, [8122; 921]); (8115, [913; 921]); (8116, [902; 921]);
   (8118, [913; 834]); (8119, [913; 834; 921]); (8124, [913; 921]);
   (8130, [8138; 921]); (8131, [919; 921]); (8132, [905; 921]);
   (8134, [919; 834]); (8135, [919; 834; 921]); (8140, [919; 921]);
   (8146, [921; 776; 768]); (8147, [921; 776; 769]); (8150, [921; 834]);
   (8151, [921; 776; 834]); (8162, [933; 776; 768]); (8163, [933; 776; 769]);
   (8164, [929; 787]); (8166, [933; 834]); (8167, [933; 776; 834]);
   (8178, [8186; 921]); (8179, [937; 921]); (8180, [911; 921]);
   (8182, [937; 834]); (8183, [937; 834; 921]); (8188, [937; 921]);
   (64256, [70; 70]); (64257, [70; 73]); (64258, [70; 76]);
   (64259, [70; 70; 73]); (64260, [70; 70; 76]); (64261, [83; 84]);
   (64262, [83; 84]); (64275, [1348; 1350]); (64276, [1348; 1333]);
   (64277, [1348; 1339]); (64278, [1358; 1350]); (64279, [1348; 1341])].

Definition upper_code_points (cp : Z) : list Z :=
  match List.find (λ e, e.1 =? cp) upper_special with
  | Some e => e.2
  | None =>
      match List.find
              (λ '(first, last, step, _),
                 (first <=? cp) && (cp <=? last) && ((cp - first) mod step =? 0))
              upper_simple with
      | Some (_, _, _, delta) => [cp + delta]
      | None => [cp]
      end
  end.

Definition upper_utf8 (cp : Z) : string :=
  fold_right (λ u r, utf8 u +:+ r) "" (upper_code_points cp).

(** [s.toUpperCase()]: character after character; a byte that starts no
    character of a well-formed text is kept. *)
Fixpoint toUpperCase (s : string) : string :=
  match s with
  | EmptyString => EmptyString
  | String a s1 =>
      let x := char_code a in
      if x <? 128 then upper_utf8 x +:+ toUpperCase s1
      else if (192 <=? x) && (x <? 224) then
        match s1 with
        | String b s2 =>
            upper_utf8 ((x - 192) * 64 + (char_code b - 128)) +:+ toUpperCase s2
        | _ => s
        end
      else if (224 <=? x) && (x <? 240) then
        match s1 with
        | String b (String c s3) =>
            upper_utf8 ((x - 224) * 4096 + (char_code b - 128) * 64
                        + (char_code c - 128))
            +:+ toUpperCase s3
        | _ => s
        end
      else if (240 <=? x) && (x <? 248) then
        match s1 with
        | String b (String c (String d s4)) =>
            upper_utf8 ((x - 240) * 262144 + (char_code b - 128) * 4096
                        + (char_code c - 128) * 64 + (char_code d - 128))
            +:+ toUpperCase s4
        | _ => s
        end
      else String a (toUpperCase s1)
  end.

Definition startsWith (s p : string) : bool := String.prefix p s.


(** ** The table [sessions] *)

(** The columns of a row other than the primary key [id]. *)
Record row : Type := mkRow {
  r_chatId : string;
  r_type : string;
  r_state : string;
  r_data : document;
  r_expires : Z;
  r_createdAt : Z
}.

(** The session object the manager hands out. *)
Record session : Type := mkSession {
  s_id : string;
  s_chatId : string;
  s_type : string;
  s_state : string;
  s_data : object;
  s_expires : Z;
  s_createdAt : Z
}.

(** What the bot tells the user (ctx.reply and editMessageText); the texts
    are named after what they say. *)
Inductive reply : Type :=
  | AskConfirmOrCancel              (* Silakan ketik KONFIRMASI ... atau BATAL *)
  | ProcessingTransfer              (* Memproses transfer ... *)
  | TransferSucceeded               (* Transfer Berhasil! *)
  | TransferFailed (m : string)     (* Transfer gagal: m *)
  | TransferCancelled               (* Transfer dibatalkan. *)
  | CommandNotRecognised            (* Perintah tidak dikenali. *)
  | InvalidPasswordInput            (* Input tidak valid. Silakan masukkan password. *)
  | BlockedFor (minutes : Z)        (* Terlalu banyak percobaan login gagal ... *)
  | VerifyingPassword               (* Memverifikasi password... *)
  | LoginSucceeded                  (* Login berhasil! *)
  | LoginFailed (m : string) (left : option Z) (minutes : option Z)
  | LoginError                      (* Terjadi kesalahan saat login. *)
  | AccessRestricted                (* Akses Terbatas ... /login *)
  | ProcessInProgress               (* Anda memiliki proses yang sedang berlangsung. *)
  | ChooseWallet                    (* Pilih e-wallet yang ingin ditambahkan: *)
  | AddFailed                       (* Gagal memulai proses penambahan akun. *)
  | Cancelled                       (* Tindakan dibatalkan. *)
  | NothingToCancel.                (* Tidak ada tindakan yang sedang berlangsung. *)

Record world : Type := mkWorld {
  sessions : gmap string row;
  clock : Z;
  sent : list reply
}.

(** The environment lets time pass between two handlers. *)
Definition advance (d : Z) (w : world) : world :=
  mkWorld (sessions w) (clock w + d) (sent w).

(** ** Computations: state and exceptions *)

Inductive error : Type :=
  | SQLITE_CONSTRAINT        (* INSERT of an id that is already there *)
  | HandlerError (m : string) (* new Error(m) thrown by a handler *)
  | NotANumber.              (* an implicit conversion of a value that is
                                not a number: outside this model *)

Inductive result (A : Type) : Type :=
  | Ok (a : A)
  | Throw (e : error).
Arguments Ok {A} a.
Arguments Throw {A} e.

Definition M (A : Type) : Type := world → result A * world.

Definition ret {A} (a : A) : M A := λ w, (Ok a, w).

Definition bind {A B} (m : M A) (k : A → M B) : M B :=
  λ w, match m w with
       | (Ok a, w') => k a w'
       | (Throw e, w') => (Throw e, w')
       end.

Definition throw {A} (e : error) : M A := λ w, (Throw e, w).

(** [try { m } catch (error) { h error }] *)
Definition try_catch {A} (m : M A) (h : error → M A) : M A :=
  λ w, match m w with
       | (Ok a, w') => (Ok a, w')
       | (Throw e, w') => h e w'
       end.

Notation "'do' x <- m ; k" := (bind m (λ x, k))
  (at level 10, x name, m at level 100, k at level 200,
   format "'[v' 'do'  x  <-  m ; '/' k ']'").
Notation "m ;; k" := (bind m (λ _, k))
  (at level 100, k at level 200, right associativity,
   format "'[v' m ;; '/' k ']'").

Definition Date_now : M Z := λ w, (Ok (clock w), w).

Definition get_table : M (gmap string row) := λ w, (Ok (sessions w), w).

Definition put_table (t : gmap string row) : M unit :=
  λ w, (Ok tt, mkWorld t (clock w) (sent w)).

Definition ctx_reply (r : reply) : M unit :=
  λ w, (Ok tt, mkWorld (sessions w) (clock w) (sent w ++ [r])).

(** ** SQL statements used by the manager *)

(** The row with the greatest [createdAt] of a list of rows; SQL leaves the
    choice among equal [createdAt] open, the first one met is kept here. *)
Definition newer (x : string * row) (acc : option (string * row)) : option (string * row) :=
  match acc with
  | None => Some x
  | Some y => if r_createdAt y.2 <? r_createdAt x.2 then Some x else Some y
  end.

Definition newest (l : list (string * row)) : option (string * row) :=
  foldr newer None l.

(** [WHERE chatId = ? AND expires > ? (AND type = ?)] *)
Definition active_for (chat : string) (now : Z) (ty : option string) (kr : string * row) : Prop :=
  r_chatId kr.2 = chat ∧ now < r_expires kr.2 ∧
  match ty with Some t => r_type kr.2 = t | None => True end.

Global Instance active_for_dec chat now ty kr : Decision (active_for chat now ty kr).
Proof. unfold active_for. destruct ty; apply _. Defined.

(** [SELECT * FROM sessions WHERE ... ORDER BY createdAt DESC LIMIT 1] *)
Definition select_latest (chat : string) (now : Z) (ty : option string) : M (option (string * row)) :=
  do t <- get_table;
  ret (newest (filter (active_for chat now ty) (map_to_list t))).

(** [SELECT * FROM sessions WHERE id = ?] *)
Definition select_by_id (id : string) : M (option row) :=
  do t <- get_table;
  ret (t !! id).

(** [INSERT INTO sessions ...]: the primary key rejects a second row with
    the same id. *)
Definition insert_row (id : string) (r : row) : M unit :=
  do t <- get_table;
  match t !! id with
  | Some _ => throw SQLITE_CONSTRAINT
  | None => put_table (<[id := r]> t)
  end.

(** [UPDATE sessions SET state = ?, data = ? WHERE id = ?] *)
Definition update_state_data (id : string) (st : string) (d : document) : M unit :=
  do t <- get_table;
  put_table (alter (λ r, mkRow (r_chatId r) (r_type r) st d (r_expires r) (r_createdAt r)) id t).

(** [UPDATE sessions SET expires = ? WHERE id = ?], giving [changes > 0]. *)
Definition update_expires (id : string) (e : Z) : M bool :=
  do t <- get_table;
  put_table (alter (λ r, mkRow (r_chatId r) (r_type r) (r_state r) (r_data r) e (r_createdAt r)) id t);;
  ret (bool_decide (is_Some (t !! id))).

(** [DELETE FROM sessions WHERE id = ?], giving [changes > 0]. *)
Definition delete_by_id (id : string) : M bool :=
  do t <- get_table;
  put_table (delete id t);;
  ret (bool_decide (is_Some (t !! id))).

Definition of_chat_type (chat ty : string) (kr : string * row) : Prop :=
  r_chatId kr.2 = chat ∧ r_type kr.2 = ty.

Global Instance of_chat_type_dec chat ty kr : Decision (of_chat_type chat ty kr).
Proof. unfold of_chat_type. apply _. Defined.

(** [DELETE FROM sessions WHERE chatId = ? AND type = ?], giving
    [changes > 0]. *)
Definition delete_by_chat_type (chat ty : string) : M bool :=
  do t <- get_table;
  put_table (filter (λ kr, ¬ of_chat_type chat ty kr) t);;
  ret (bool_decide (filter (of_chat_type chat ty) t ≠ ∅)).

(** [DELETE FROM sessions WHERE expires < ?], giving [changes]. *)
Definition delete_expired_before (now : Z) : M nat :=
  do t <- get_table;
  put_table (filter (λ kr, ¬ (r_expires kr.2 < now)) t);;
  ret (size (filter (λ kr : string * row, r_expires kr.2 < now) t)).

(** ** The session manager (index.js, initializeSessionManager) *)

Definition session_of_row (id : string) (r : row) : session :=
  mkSession id (r_chatId r) (r_type r) (r_state r) (JSON_parse (r_data r))
            (r_expires r) (r_createdAt r).

(** The id [`${chatId}_${type}_${Date.now()}`]. *)
Definition session_id (chat ty : string) (t : Z) : string :=
  chat +:+ "_" +:+ ty +:+ "_" +:+ pretty t.

Definition createSession (chat ty : string) (data : object) : M session :=
  do t0 <- Date_now;
  let sessionId := session_id chat ty t0 in
  do now <- Date_now;
  let expires := now + 15 * 60 * 1000 in
  insert_row sessionId (mkRow chat ty "" (JSON_stringify data) expires now);;
  ret (mkSession sessionId chat ty "" data expires now).

(** [if (type)]: null and the empty string add no condition. *)
Definition type_filter (ty : option string) : option string :=
  match ty with
  | Some t => if String.eqb t "" then None else Some t
  | None => None
  end.

Definition getSession (chat : string) (ty : option string) : M (option session) :=
  do now <- Date_now;
  do row <- select_latest chat now (type_filter ty);
  match row with
  | None => ret None
  | Some kr => ret (Some (session_of_row kr.1 kr.2))
  end.

(** The argument [updates]: [state] and [data] may each be left out. *)
Record updates : Type := mkUpdates {
  u_state : option string;
  u_data : option object
}.

Definition updateSession (sessionId : string) (u : updates) : M (option session) :=
  do row <- select_by_id sessionId;
  match row with
  | None => ret None
  | Some r =>
      let session := session_of_row sessionId r in
      let st := match u_state u with Some s => s | None => s_state session end in
      let dt := match u_data u with
                | Some d => spread (s_data session) d
                | None => s_data session
                end in
      let updatedSession :=
        mkSession (s_id session) (s_chatId session) (s_type session) st dt
                  (s_expires session) (s_createdAt session) in
      update_state_data sessionId st (JSON_stringify dt);;
      ret (Some updatedSession)
  end.

Definition deleteSession (sessionId : string) : M bool := delete_by_id sessionId.

Definition deleteSessionsByType (chat ty : string) : M bool :=
  delete_by_chat_type chat ty.

Definition extendSession (sessionId : string) (minutes : Z) : M bool :=
  do now <- Date_now;
  let expires := now + minutes * 60 * 1000 in
  update_expires sessionId expires.

(** The body of the interval job of setupSessionCleanup. *)
Definition sessionCleanup : M nat :=
  do now <- Date_now;
  delete_expired_before now.

(** The object returned by initializeSessionManager. *)
Record manager : Type := mkManager {
  m_createSession : string → string → object → M session;
  m_getSession : string → option string → M (option session);
  m_updateSession : string → updates → M (option session);
  m_deleteSession : string → M bool;
  m_deleteSessionsByType : string → string → M bool;
  m_extendSession : string → Z → M bool
}.

Definition initializeSessionManager : manager :=
  mkManager createSession getSession updateSession deleteSession
            deleteSessionsByType extendSession.

(** ** lib/sessionUtils.js *)

(** The helpers probe the manager they are given; [None] stands for a
    missing manager (or one without the method). *)
Definition getSessionData (chat : string) (sessionManager : option manager) : M (option session) :=
  match sessionManager with
  | Some m => m_getSession m chat None
  | None => ret None
  end.

Definition updateSessionData (s : session) (sessionUpdater : option manager) (u : updates) : M (option session) :=
  match sessionUpdater with
  | Some m => m_updateSession m (s_id s) u
  | None =>
      let st := match u_state u with
                | Some x => if String.eqb x "" then s_state s else x
                | None => s_state s
                end in
      let dt := match u_data u with
                | Some d => spread (s_data s) d
                | None => s_data s
                end in
      ret (Some (mkSession (s_id s) (s_chatId s) (s_type s) st dt (s_expires s) (s_createdAt s)))
  end.

Definition deleteSessionData (sessionId : string) (sessionManager : option manager) : M bool :=
  match sessionManager with
  | Some m => m_deleteSession m sessionId
  | None => ret false
  end.

Definition createSessionData (chat ty : string) (data : object) (sessionManager : option manager) : M (option session) :=
  match sessionManager with
  | Some m => do s <- m_createSession m chat ty data; ret (Some s)
  | None => ret None
  end.

(** ** lib/authHandler.js *)

(** [process.env]: the password, and what [parseInt] makes of the two
    numeric settings ([None] for NaN, also when the variable is not set). *)
Record env : Type := mkEnv {
  BOT_PASSWORD : option string;
  MAX_LOGIN_ATTEMPTS : option Z;
  LOGIN_TIMEOUT_MINUTES : option Z
}.

(** [parseInt(x) || d] *)
Definition or_default (x : option Z) (d : Z) : Z :=
  match x with
  | Some n => if n =? 0 then d else n
  | None => d
  end.

Definition maxAttempts (e : env) : Z := or_default (MAX_LOGIN_ATTEMPTS e) 3.
Definition timeoutMinutes (e : env) : Z := or_default (LOGIN_TIMEOUT_MINUTES e) 30.

Definition isUserAuthenticated (chat : string) (sm : manager) : M bool :=
  try_catch
    (do s <- m_getSession sm chat (Some "authenticated");
     match s with
     | None => ret false
     | Some session =>
         match js_get (s_data session) "authenticated" with
         | JVal (JBool true) => ret true
         | _ => ret false
         end
     end)
    (λ _, ret false).

(** A number read from session data; other values would be converted by
    JavaScript, which is outside this model. *)
Definition as_number (v : jsval) : M Z :=
  match v with
  | JVal (JNum n) => ret n
  | _ => throw NotANumber
  end.

Definition trackFailedAttempt (e : env) (chat : string) (sm : manager) : M unit :=
  let maxAttempts := maxAttempts e in
  let timeoutMinutes := timeoutMinutes e in
  do s <- m_getSession sm chat (Some "auth_attempts");
  match s with
  | None =>
      do now <- Date_now;
      m_createSession sm chat "auth_attempts"
        {[ "attempts" := JVal (JNum 1); "lastAttempt" := JVal (JNum now) ]};;
      ret tt
  | Some session =>
      let old := js_get (s_data session) "attempts" in
      do prev <- (if truthy old then as_number old else ret 0);
      let attempts := prev + 1 in
      do now <- Date_now;
      do now' <- Date_now;
      m_updateSession sm (s_id session)
        (mkUpdates None (Some
          {[ "attempts" := JVal (JNum attempts);
             "lastAttempt" := JVal (JNum now);
             "blockedUntil" :=
               if maxAttempts <=? attempts
               then JVal (JNum (now' + timeoutMinutes * 60 * 1000))
               else JUndefined ]}));;
      ret tt
  end.

Definition clearFailedAttempts (chat : string) (sm : manager) : M unit :=
  m_deleteSessionsByType sm chat "auth_attempts";;
  ret tt.

(** The result of isUserBlocked: [{ blocked, remainingMinutes, message }],
    [{ blocked }] or [{ blocked, attemptsLeft }]; the message is made of
    [remainingMinutes] and is not kept apart. *)
Record blockStatus : Type := mkBlockStatus {
  blocked : bool;
  remainingMinutes : option Z;
  attemptsLeft : option Z
}.

Definition isUserBlocked (e : env) (chat : string) (sm : manager) : M blockStatus :=
  do s <- m_getSession sm chat (Some "auth_attempts");
  match s with
  | None => ret (mkBlockStatus false None None)
  | Some session =>
      let blockedUntil := js_get (s_data session) "blockedUntil" in
      do attempts <- match js_get (s_data session) "attempts" with
                     | JUndefined => ret 0
                     | v => as_number v
                     end;
      let maxAttempts := maxAttempts e in
      if (maxAttempts <=? attempts) && truthy blockedUntil then
        do until <- as_number blockedUntil;
        do now <- Date_now;
        if now <? until then
          do now' <- Date_now;
          let remainingTime := Math_ceil_div (until - now') (60 * 1000) in
          ret (mkBlockStatus true (Some remainingTime) None)
        else
          m_deleteSessionsByType sm chat "auth_attempts";;
          ret (mkBlockStatus false None None)
      else
        ret (mkBlockStatus false None (Some (maxAttempts - attempts)))
  end.

Definition createAuthenticatedSession (chat : string) (sm : manager) : M session :=
  try_catch
    (m_deleteSessionsByType sm chat "authenticated";;
     do now <- Date_now;
     do session <- m_createSession sm chat "authenticated"
       {[ "authenticated" := JVal (JBool true); "loginTime" := JVal (JNum now) ]};
     m_extendSession sm (s_id session) (24 * 60);;
     ret session)
    (λ error, throw error).

(** The result [{ success, message }] of authenticateUser. *)
Record authResult : Type := mkAuthResult {
  success : bool;
  message : string
}.

Definition authenticateUser (e : env) (chat password : string) (sm : manager) : M authResult :=
  match BOT_PASSWORD e with
  | None => ret (mkAuthResult false "Konfigurasi autentikasi tidak valid")
  | Some correctPassword =>
      if String.eqb correctPassword "" then
        ret (mkAuthResult false "Konfigurasi autentikasi tidak valid")
      else if negb (String.eqb password correctPassword) then
        trackFailedAttempt e chat sm;;
        ret (mkAuthResult false "Password salah")
      else
        clearFailedAttempts chat sm;;
        createAuthenticatedSession chat sm;;
        ret (mkAuthResult true "Autentikasi berhasil")
  end.

Definition logoutUser (chat : string) (sm : manager) : M bool :=
  try_catch
    (do s <- m_getSession sm chat (Some "authenticated");
     match s with
     | Some session =>
         if truthy (js_get (s_data session) "authenticated") then
           m_deleteSession sm (s_id session);;
           ret true
         else ret false
     | None => ret false
     end)
    (λ _, ret false).

(** ** lib/transferHandlers.js *)

(** What [sdk.transferDanaBankCreate] brings back: success, or a failure
    (a response without [success], or an exception) with its message. *)
Inductive api_outcome : Type :=
  | ApiSuccess
  | ApiFailure (m : string).

Definition completeDANABankTransfer (s : session) (sdk : api_outcome) (sm : option manager) : M unit :=
  try_catch
    (ctx_reply ProcessingTransfer;;
     match sdk with
     | ApiFailure m => throw (HandlerError m)
     | ApiSuccess =>
         ctx_reply TransferSucceeded;;
         deleteSessionData (s_id s) sm;;
         ret tt
     end)
    (λ error, throw error).

(** ** The handlers of index.js *)

Definition error_message (e : error) : string :=
  match e with
  | HandlerError m => m
  | SQLITE_CONSTRAINT => "SQLITE_CONSTRAINT"
  | NotANumber => "NotANumber"
  end.

Definition handleTransferConfirmation (text : string) (s : session) (sdk : api_outcome) (sm : option manager) : M unit :=
  if String.eqb text "" then ctx_reply AskConfirmOrCancel
  else
    let confirmation := toUpperCase (trim text) in
    if String.eqb confirmation "KONFIRMASI" then
      ctx_reply ProcessingTransfer;;
      try_catch
        (completeDANABankTransfer s sdk sm)
        (λ error,
           ctx_reply (TransferFailed (error_message error));;
           deleteSessionData (s_id s) sm;;
           ret tt)
    else if String.eqb confirmation "BATAL" then
      deleteSessionData (s_id s) sm;;
      ctx_reply TransferCancelled
    else
      ctx_reply CommandNotRecognised.

Definition handlePasswordInput (e : env) (chat text : string) (s : session) (sm : manager) : M unit :=
  if String.eqb text "" then ctx_reply InvalidPasswordInput
  else
    let password := trim text in
    do blockStatus <- isUserBlocked e chat sm;
    if blocked blockStatus then
      m_deleteSession sm (s_id s);;
      ctx_reply (BlockedFor (default 0 (remainingMinutes blockStatus)))
    else
      ctx_reply VerifyingPassword;;
      try_catch
        (do result <- authenticateUser e chat password sm;
         if success result then
           ctx_reply LoginSucceeded;;
           m_deleteSession sm (s_id s);;
           m_getSession sm chat (Some "authenticated");;
           ret tt
         else
           do newBlockStatus <- isUserBlocked e chat sm;
           match attemptsLeft newBlockStatus with
           | Some n =>
               if negb (n =? 0) && (0 <? n) then
                 ctx_reply (LoginFailed (message result) (Some n) None)
               else if blocked newBlockStatus then
                 m_deleteSession sm (s_id s);;
                 ctx_reply (LoginFailed (message result) None (remainingMinutes newBlockStatus))
               else ctx_reply (LoginFailed (message result) None None)
           | None =>
               if blocked newBlockStatus then
                 m_deleteSession sm (s_id s);;
                 ctx_reply (LoginFailed (message result) None (remainingMinutes newBlockStatus))
               else ctx_reply (LoginFailed (message result) None None)
           end)
        (λ _, ctx_reply LoginError).

(** The handlers the text dispatcher chooses from. *)
Inductive text_handler : Type :=
  | PasswordInput | PhoneInput | PinInput | OtpInput | NameInput
  | BankAmountInput | QRISAmountInput | AccountNumberInput
  | TransferConfirmation | BankSearch.

(** The [switch (session.state)] of setupTextMessageHandler. *)
Definition handler_of_state (st : string) : option text_handler :=
  if String.eqb st "awaiting_password" then Some PasswordInput
  else if String.eqb st "awaiting_phone" then Some PhoneInput
  else if String.eqb st "awaiting_pin" then Some PinInput
  else if String.eqb st "awaiting_otp" then Some OtpInput
  else if String.eqb st "awaiting_name" then Some NameInput
  else if String.eqb st "awaiting_bank_amount" then Some BankAmountInput
  else if String.eqb st "awaiting_qris_amount" then Some QRISAmountInput
  else if String.eqb st "awaiting_account_number" then Some AccountNumberInput
  else if String.eqb st "awaiting_transfer_confirmation" then Some TransferConfirmation
  else if String.eqb st "searching_bank" then Some BankSearch
  else None.

(** The text dispatcher up to the call of the step handler: the session it
    finds for the chat and the handler it hands it to. *)
Definition textDispatch (chat text : string) (sm : option manager) : M (option (session * option text_handler)) :=
  if String.eqb text "" || startsWith text "/" then ret None
  else
    do s <- getSessionData chat sm;
    match s with
    | None => ret None
    | Some session => ret (Some (session, handler_of_state (s_state session)))
    end.

(** [/add]: the check of the login, then handleAddCommand, which refuses to
    start while a session is found and else shows the three supported
    wallets to choose from. *)
Definition handleAddCommand (chat : string) (sm : option manager) : M unit :=
  try_catch
    (do existingSession <- getSessionData chat sm;
     match existingSession with
     | Some _ => ctx_reply ProcessInProgress
     | None => ctx_reply ChooseWallet
     end)
    (λ _, ctx_reply AddFailed).

Definition command_add (chat : string) (sm : manager) : M unit :=
  do isAuthenticated <- isUserAuthenticated chat sm;
  if negb isAuthenticated then ctx_reply AccessRestricted
  else handleAddCommand chat (Some sm).

(** [/cancel] *)
Definition command_cancel (chat : string) (sm : manager) : M unit :=
  do isAuthenticated <- isUserAuthenticated chat sm;
  if negb isAuthenticated then ctx_reply AccessRestricted
  else
    do s <- getSessionData chat (Some sm);
    match s with
    | Some session =>
        deleteSessionData (s_id session) (Some sm);;
        ctx_reply Cancelled
    | None => ctx_reply NothingToCancel
    end.

(** ** The bot as a transition system *)

(** The session types given at the createSession calls of index.js; the
    types [auth_attempts] and [authenticated] are created by
    lib/authHandler.js only. *)
Inductive flow_type : Type := Login | AddWallet | DanaTransfer.

Definition type_name (f : flow_type) : string :=
  match f with
  | Login => "login"
  | AddWallet => "add_wallet"
  | DanaTransfer => "dana_transfer"
  end.

(** What can happen to the table: the calls the handlers make on the
    manager, the entry points of the authentication engine, the handlers
    above, the cleanup job, and the passing of time. *)
Inductive operation : Type :=
  | CreateSession (chat : string) (ty : flow_type) (data : object)
  | GetSession (chat : string) (ty : option string)
  | UpdateSession (id : string) (u : updates)
  | DeleteSession (id : string)
  | DeleteSessionsByType (chat ty : string)
  | ExtendSession (id : string) (minutes : Z)
  | Cleanup
  | IsAuthenticated (chat : string)
  | IsBlocked (chat : string)
  | Authenticate (chat password : string)
  | Logout (chat : string)
  | PasswordText (chat text : string) (s : session)
  | ConfirmationText (text : string) (s : session) (sdk : api_outcome)
  | AddCommand (chat : string)
  | CancelCommand (chat : string)
  | TimePasses (d : Z).

(** The world a computation leaves behind, whether it returns or throws. *)
Definition after {A} (m : M A) (w : world) : world := (m w).2.

Definition exec (e : env) (op : operation) (w : world) : world :=
  let sm := initializeSessionManager in
  match op with
  | CreateSession chat ty data => after (createSession chat (type_name ty) data) w
  | GetSession chat ty => after (getSession chat ty) w
  | UpdateSession id u => after (updateSession id u) w
  | DeleteSession id => after (deleteSession id) w
  | DeleteSessionsByType chat ty => after (deleteSessionsByType chat ty) w
  | ExtendSession id minutes => after (extendSession id minutes) w
  | Cleanup => after sessionCleanup w
  | IsAuthenticated chat => after (isUserAuthenticated chat sm) w
  | IsBlocked chat => after (isUserBlocked e chat sm) w
  | Authenticate chat password => after (authenticateUser e chat password sm) w
  | Logout chat => after (logoutUser chat sm) w
  | PasswordText chat text s => after (handlePasswordInput e chat text s sm) w
  | ConfirmationText text s sdk => after (handleTransferConfirmation text s sdk (Some sm)) w
  | AddCommand chat => after (command_add chat sm) w
  | CancelCommand chat => after (command_cancel chat sm) w
  | TimePasses d => advance d w
  end.

(** The worlds the bot can be in: it starts on an empty table. *)
Inductive reachable (e : env) : world → Prop :=
  | reachable_start (t : Z) : reachable e (mkWorld ∅ t [])
  | reachable_step (w : world) (op : operation) :
      reachable e w → reachable e (exec e op w).

(** At most one row of type [authenticated] per chat. *)
Definition one_authenticated (t : gmap string row) : Prop :=
  ∀ i j r q,
    t !! i = Some r → t !! j = Some q →
    r_type r = "authenticated" → r_type q = "authenticated" →
    r_chatId r = r_chatId q → i = j.

(** The unexpired sessions of a type of a chat, as the lookup sees them. *)
Definition valid_sessions (w : world) (chat ty : string) : list (string * row) :=
  filter (active_for chat (clock w) (Some ty)) (map_to_list (sessions w)).

(** A computation keeps a property of the world when the world it leaves
    behind has the property whenever the world it starts in has it. *)
Definition keeps {A} (I : world → Prop) (m : M A) : Prop :=
  ∀ w, I w → I (after m w).

(** The property only looks at the table. *)
Definition on_table (P : gmap string row → Prop) (w : world) : Prop := P (sessions w).

Abbreviation single := (on_table one_authenticated).

(** The counter a session of type auth_attempts holds: [attempts], and 0
    when the key is missing. *)
Definition stored_attempts (s : session) (a : Z) : Prop :=
  js_get (s_data s) "attempts" = JVal (JNum a)
  ∨ (js_get (s_data s) "attempts" = JUndefined ∧ a = 0).

(** ** The words of the specification, for comparison *)






(** [m] is the least integer with [x <= m * y]: the ceiling of [x / y]. *)
Definition is_ceiling (x y m : Z) : Prop :=
  x <= m * y ∧ (m - 1) * y < x.

(** ** Worlds to run the code on *)

(** A wallet flow of chat 42 that waits for the PIN. *)
Definition row_flow : row :=
  mkRow "42" "add_wallet" "awaiting_pin"
        {[ "phoneNumber" := JStr "81234567890"; "walletCode" := JStr "DANA" ]}
        901000 1000.

Definition w_flow : world :=
  mkWorld {[ "42_add_wallet_1000" := row_flow ]} 2000 [].

(** The same table an hour later: the row is expired and not yet swept. *)
Definition w_expired : world :=
  mkWorld {[ "42_add_wallet_1000" := row_flow ]} 3600000 [].

Definition env0 : env := mkEnv (Some "s3cret") None None.

(** Chat 42 one minute after its login at time 1000: the table holds the
    authenticated session and nothing else. *)
Definition row_authenticated : row :=
  mkRow "42" "authenticated" ""
        {[ "authenticated" := JBool true; "loginTime" := JNum 1000 ]}
        86401000 1000.

Definition w_logged_in : world :=
  mkWorld {[ "42_authenticated_1000" := row_authenticated ]} 61000 [].



(** Chat 42 logs in again at time 61000: the table has its authenticated
    session of time 1000, a counter of one failed attempt, and the
    authenticated session of chat 7. *)
Definition w_relogin : world :=
  mkWorld
    {[ "42_authenticated_1000" := row_authenticated;
       "42_auth_attempts_60000" :=
         mkRow "42" "auth_attempts" ""
               {[ "attempts" := JNum 1; "lastAttempt" := JNum 60000 ]} 960000 60000;
       "7_authenticated_2000" :=
         mkRow "7" "authenticated" ""
               {[ "authenticated" := JBool true; "loginTime" := JNum 2000 ]}
               86402000 2000 ]}
    61000 [].

Definition w_relogged : world :=
  mkWorld
    {[ "42_authenticated_61000" :=
         mkRow "42" "authenticated" ""
               {[ "authenticated" := JBool true; "loginTime" := JNum 61000 ]}
               86461000 61000;
       "7_authenticated_2000" :=
         mkRow "7" "authenticated" ""
               {[ "authenticated" := JBool true; "loginTime" := JNum 2000 ]}
               86402000 2000 ]}
    61000 [].

(** Chat 42 is locked out: three failed attempts, the last one at time
    3000, and a login session that waits for the password. *)
Definition row_locked : row :=
  mkRow "42" "auth_attempts" ""
        {[ "attempts" := JNum 3; "lastAttempt" := JNum 3000;
           "blockedUntil" := JNum 1803000 ]}
        901000 1000.

Definition session_login : session :=
  mkSession "42_login_4000" "42" "login" "awaiting_password" ∅ 904000 4000.

Definition w_locked : world :=
  mkWorld
    {[ "42_auth_attempts_1000" := row_locked;
       "42_login_4000" := mkRow "42" "login" "awaiting_password" ∅ 904000 4000 ]}
    5000 [].

(** A lockout of one minute that is over while its session is still
    there (LOGIN_TIMEOUT_MINUTES=1). *)
Definition row_stale : row :=
  mkRow "42" "auth_attempts" ""
        {[ "attempts" := JNum 3; "lastAttempt" := JNum 3000;
           "blockedUntil" := JNum 63000 ]}
        901000 1000.

Definition w_stale : world :=
  mkWorld {[ "42_auth_attempts_1000" := row_stale ]} 70000 [].

(** Texts with characters outside ASCII, for the examples: a no-break
    space (U+00A0), and the word konfirmasi after a no-break space with a
    dotless i (U+0131) for its first i. *)
Definition NBSP : string := utf8 160.


(** ** The commands and the remaining step handlers of index.js *)

(** A Number that parseInt returns: NaN, an infinity, or a double that is
    an integer. *)
Inductive number : Type :=
  | NaN
  | NegInfinity
  | Num (n : Z)
  | PosInfinity.

(** What a handler below tells the user in the end (its last ctx.reply or
    editMessageText), named after what the text says; status messages sent
    on the way are left out. *)
Inductive answer : Type :=
  | AlreadyLoggedIn                   (* Anda sudah login! *)
  | StillBlocked (minutes : option Z) (* Terlalu banyak percobaan login gagal ... *)
  | AskPassword (left : option Z)     (* Silakan masukkan password (Sisa percobaan) *)
  | LoggedOut                         (* Anda telah logout. *)
  | NotLoggedIn                       (* Anda belum login. *)
  | Restricted                        (* Akses Terbatas: Anda harus login ... *)
  | InProgress                        (* Anda memiliki proses yang sedang berlangsung. *)
  | AccountsUnavailable               (* Gagal mengambil daftar akun. *)
  | NoActiveAccount                   (* Anda tidak memiliki akun DANA aktif. *)
  | ChooseAccount (accounts : list json) (* Pilih akun DANA untuk transfer: *)
  | LoadFailed                        (* Gagal memuat akun. *)
  | PrepareFailed                     (* Gagal mempersiapkan transfer. *)
  | InvalidInput                      (* Input tidak valid. ... *)
  | FormatRejected                    (* the format or amount is not valid: try again *)
  | PhoneSaved (phone : string)       (* Nomor telepon disimpan: ... masukkan PIN *)
  | ChooseVerification                (* Silakan pilih metode verifikasi ... *)
  | AskName                           (* Silakan masukkan nama untuk akun DANA ini *)
  | AccountAdded                      (* Akun DANA Anda telah berhasil ditambahkan! *)
  | StepFailed (message : string)     (* Error: message. Silakan coba lagi nanti. *)
  | AskQrisPhoto (amount : number)    (* Jumlah pembayaran: ... kirimkan foto QR code *)
  | BanksUnavailable                  (* Gagal memuat daftar bank. *)
  | AmountFailed                      (* Gagal memproses jumlah. *)
  | ChooseBankMethod (amount : number) (banks : nat). (* Cara pilih bank tujuan ... *)

(** [/login] *)
Definition command_login (e : env) (chat : string) (sm : manager) : M answer :=
  do isAuthenticated <- isUserAuthenticated chat sm;
  if isAuthenticated then ret AlreadyLoggedIn
  else
    do blockStatus <- isUserBlocked e chat sm;
    if blocked blockStatus then ret (StillBlocked (remainingMinutes blockStatus))
    else
      do existingSession <- m_getSession sm chat None;
      match existingSession with
      | Some s =>
          if negb (String.eqb (s_type s) "auth_attempts")
          then m_deleteSession sm (s_id s);; ret tt
          else ret tt
      | None => ret tt
      end;;
      do session <- m_createSession sm chat "login" ∅;
      m_updateSession sm (s_id session) (mkUpdates (Some "awaiting_password") None);;
      ret (AskPassword
             match attemptsLeft blockStatus with
             | Some n => if n =? 0 then None else Some n
             | None => None
             end).

(** [/logout] *)
Definition command_logout (chat : string) (sm : manager) : M answer :=
  do success <- logoutUser chat sm;
  if success then ret LoggedOut else ret NotLoggedIn.

(** ** lib/utils.js and the input checks of the step handlers *)

Definition is_digit (c : ascii) : bool :=
  let n := nat_of_ascii c in
  ((48 <=? n) && (n <=? 57))%nat.

Fixpoint all_digits (s : string) : bool :=
  match s with
  | EmptyString => true
  | String c s' => is_digit c && all_digits s'
  end.

(** [/^\d{lo,hi}$/.test(s)], and the same with [[0-9]] *)
Definition digits_test (lo hi : nat) (s : string) : bool :=
  all_digits s && (lo <=? String.length s)%nat && (String.length s <=? hi)%nat.

(** What is left of [s] after the prefix [p], when [s] starts with [p]. *)
Fixpoint after_prefix (p s : string) : option string :=
  match p, s with
  | EmptyString, _ => Some s
  | String a p', String b s' => if Ascii.eqb a b then after_prefix p' s' else None
  | String _ _, EmptyString => None
  end.

(** [/^(08|628|\+628)[0-9]{8,11}$/.test(phoneNumber)] *)
Definition isValidPhoneNumber (phoneNumber : string) : bool :=
  existsb (λ p, match after_prefix p phoneNumber with
                | Some rest => digits_test 8 11 rest
                | None => false
                end)
          ["08"; "628"; "+628"]%string.

(** [phoneNumber.replace(/^\+?62|^0/, '')] *)
Definition formatPhoneNumber (phoneNumber : string) : string :=
  match after_prefix "+62" phoneNumber with
  | Some rest => rest
  | None =>
      match after_prefix "62" phoneNumber with
      | Some rest => rest
      | None =>
          match after_prefix "0" phoneNumber with
          | Some rest => rest
          | None => phoneNumber
          end
      end
  end.

(** [s.replace(/[.,]/g, '')] *)
Fixpoint remove_separators (s : string) : string :=
  match s with
  | EmptyString => EmptyString
  | String c s' =>
      if Ascii.eqb c "." || Ascii.eqb c ","
      then remove_separators s'
      else String c (remove_separators s')
  end.

(** The value of a character as a digit of the radix [R] (at most 36). *)
Definition digit_value (R : Z) (c : ascii) : option Z :=
  let n := Z.of_nat (nat_of_ascii c) in
  let v := if (48 <=? n) && (n <=? 57) then Some (n - 48)
           else if (97 <=? n) && (n <=? 122) then Some (n - 87)
           else if (65 <=? n) && (n <=? 90) then Some (n - 55)
           else None in
  match v with
  | Some d => if d <? R then Some d else None
  | None => None
  end.

(** The digits at the start of [s], up to the first character that is not
    a digit of the radix. *)
Fixpoint digit_prefix (R : Z) (s : string) : list Z :=
  match s with
  | EmptyString => []
  | String c s' =>
      match digit_value R c with
      | Some d => d :: digit_prefix R s'
      | None => []
      end
  end.

Definition number_of (R : Z) (ds : list Z) : Z :=
  fold_left (λ acc d, R * acc + d) ds 0.

(** The double nearest to the natural number [m], the even significand of
    53 bits when two are as near; [None] beyond the largest double. *)
Definition nearest_double (m : Z) : option Z :=
  if m <? 2 ^ 53 then Some m
  else
    let e := Z.log2 m - 52 in
    let q := m / 2 ^ e in
    let r := m mod 2 ^ e in
    let half := 2 ^ (e - 1) in
    let significand :=
      if r <? half then q
      else if half <? r then q + 1
      else if Z.even q then q else q + 1 in
    let v := significand * 2 ^ e in
    if v <? 2 ^ 1024 then Some v else None.

(** The Number for the integer [sign * m], where [m] is natural. *)
Definition to_number (sign m : Z) : number :=
  match nearest_double m with
  | Some v => Num (sign * v)
  | None => if sign <? 0 then NegInfinity else PosInfinity
  end.

Definition isNaN (a : number) : bool :=
  match a with
  | NaN => true
  | _ => false
  end.

(** [a < z] for an integer [z] *)
Definition number_lt (a : number) (z : Z) : bool :=
  match a with
  | NaN => false
  | NegInfinity => true
  | Num n => n <? z
  | PosInfinity => false
  end.

(** The value of a Number as a property of a document: JSON.stringify
    writes null for NaN and the infinities. The data a handler passes to
    an update holds the amount in this form; the object in memory, which
    would still hold the infinity, is not read again. *)
Definition json_of_number (a : number) : json :=
  match a with
  | Num n => JNum n
  | _ => JNull
  end.

(** [parseInt(s)] without a radix: leading white space, a sign, [0x] or
    [0X] for radix 16, then the digits up to the first character that is
    none; NaN without a digit. The result is the double nearest to the
    integer the digits denote, as Node computes it. *)
Definition parseInt (s : string) : number :=
  let inputString := trimStart s in
  let sign := if startsWith inputString "-" then -1 else 1 in
  let unsigned := match after_prefix "+" inputString with
                  | Some r => r
                  | None => match after_prefix "-" inputString with
                            | Some r => r
                            | None => inputString
                            end
                  end in
  let radix := match after_prefix "0x" unsigned with
               | Some _ => 16
               | None => match after_prefix "0X" unsigned with
                         | Some _ => 16
                         | None => 10
                         end
               end in
  let digits := match after_prefix "0x" unsigned with
                | Some r => r
                | None => match after_prefix "0X" unsigned with
                          | Some r => r
                          | None => unsigned
                          end
                end in
  match digit_prefix radix digits with
  | [] => NaN
  | ds => to_number sign (number_of radix ds)
  end.

(** handlePhoneInput *)
Definition handlePhoneInput (text : string) (s : session) (sm : option manager) : M answer :=
  if String.eqb text "" then ret InvalidInput
  else
    let phoneNumber := trim text in
    if negb (isValidPhoneNumber phoneNumber) then ret FormatRejected
    else
      let formattedPhone := formatPhoneNumber phoneNumber in
      updateSessionData s sm
        (mkUpdates (Some "awaiting_pin")
                   (Some {[ "phoneNumber" := JVal (JStr formattedPhone) ]}));;
      ret (PhoneSaved formattedPhone).

(** handlePinInput *)
Definition handlePinInput (text : string) (s : session) (sm : option manager) : M answer :=
  if String.eqb text "" then ret InvalidInput
  else
    let pin := trim text in
    if negb (digits_test 6 6 pin) then ret FormatRejected
    else
      updateSessionData s sm (mkUpdates None (Some {[ "pin" := JVal (JStr pin) ]}));;
      ret ChooseVerification.

(** handleQRISAmountInput *)
Definition handleQRISAmountInput (text : string) (s : session) (sm : option manager) : M answer :=
  if String.eqb text "" then ret InvalidInput
  else
    let amountText := remove_separators (trim text) in
    let amount := parseInt amountText in
    if isNaN amount || number_lt amount 1000 then ret FormatRejected
    else
      updateSessionData s sm
        (mkUpdates (Some "awaiting_qris_photo")
                   (Some {[ "amount" := JVal (json_of_number amount) ]}));;
      ret (AskQrisPhoto amount).

(** What [sdk.getDanaBanks] brings back: an exception, or a response with
    its properties [success] and [data]. *)
Inductive banks_outcome : Type :=
  | BanksThrow
  | BanksResponse (success data : jsval).

(** handleBankAmountInput *)
Definition handleBankAmountInput (text : string) (s : session) (sdk : banks_outcome) (sm : option manager) : M answer :=
  if String.eqb text "" then ret InvalidInput
  else
    let amountText := remove_separators (trim text) in
    let amount := parseInt amountText in
    if isNaN amount || number_lt amount 10000 then ret FormatRejected
    else
      try_catch
        (match sdk with
         | BanksThrow => throw (HandlerError "getDanaBanks")
         | BanksResponse success data =>
             match data with
             | JVal (JArr banks) =>
                 if negb (truthy success) || (length banks =? 0)%nat
                 then ret BanksUnavailable
                 else
                   updateSessionData s sm
                     (mkUpdates (Some "selecting_bank_method")
                                (Some {[ "amount" := JVal (json_of_number amount);
                                         "availableBanks" := data ]}));;
                   ret (ChooseBankMethod amount (length banks))
             | _ => ret BanksUnavailable
             end
         end)
        (λ _, ret AmountFailed).

(** ** [/transfer] *)

(** The property [k] of a parsed object: JSON.parse keeps the last one of
    a name. *)
Fixpoint property (l : list (string * json)) (k : string) : jsval :=
  match l with
  | [] => JUndefined
  | (k', v) :: l' =>
      match property l' k with
      | JUndefined => if String.eqb k' k then JVal v else JUndefined
      | found => found
      end
  end.

(** [j.k] for a parsed JSON value and the property names read below: the
    property of an object, undefined on a value that is no object, a
    TypeError on null. *)
Definition js_prop (j : json) (k : string) : M jsval :=
  match j with
  | JNull => throw (HandlerError "Cannot read properties of null")
  | JObj l => ret (property l k)
  | _ => ret JUndefined
  end.

(** [v === s] for a string literal [s] *)
Definition is_string (v : jsval) (s : string) : bool :=
  match v with
  | JVal (JStr x) => String.eqb x s
  | _ => false
  end.

(** [account.type === 'ewallet' && account.isActive === true &&
    account.provider.code === 'DANA'] *)
Definition isActiveDANA (account : json) : M bool :=
  do type <- js_prop account "type";
  if negb (is_string type "ewallet") then ret false
  else
    do isActive <- js_prop account "isActive";
    match isActive with
    | JVal (JBool true) =>
        do provider <- js_prop account "provider";
        match provider with
        | JUndefined => throw (HandlerError "Cannot read properties of undefined")
        | JVal p => do code <- js_prop p "code"; ret (is_string code "DANA")
        end
    | _ => ret false
    end.

(** [l.filter(f)] for a callback that may throw *)
Fixpoint filterM {A} (f : A → M bool) (l : list A) : M (list A) :=
  match l with
  | [] => ret []
  | x :: l' =>
      do keep <- f x;
      do rest <- filterM f l';
      ret (if keep then x :: rest else rest)
  end.

(** What [sdk.getAccounts] brings back: an exception, or a response with
    its properties [status] and [data]. *)
Inductive accounts_outcome : Type :=
  | AccountsThrow
  | AccountsResponse (status data : jsval).

Definition handleTransferCommand (chat : string) (sdk : accounts_outcome) (sm : option manager) : M answer :=
  try_catch
    (do existingSession <- getSessionData chat sm;
     match existingSession with
     | Some _ => ret InProgress
     | None =>
         try_catch
           (match sdk with
            | AccountsThrow => throw (HandlerError "getAccounts")
            | AccountsResponse status data =>
                if negb (is_string status "success") || negb (truthy data)
                then ret AccountsUnavailable
                else
                  match data with
                  | JVal (JArr accounts) =>
                      do danaAccounts <- filterM isActiveDANA accounts;
                      if (length danaAccounts =? 0)%nat then ret NoActiveAccount
                      else ret (ChooseAccount danaAccounts)
                  | _ => throw (HandlerError "accountsResponse.data.filter is not a function")
                  end
            end)
           (λ _, ret LoadFailed)
     end)
    (λ _, ret PrepareFailed).

(** [/transfer] *)
Definition command_transfer (chat : string) (sdk : accounts_outcome) (sm : manager) : M answer :=
  do isAuthenticated <- isUserAuthenticated chat sm;
  if negb isAuthenticated then ret Restricted
  else handleTransferCommand chat sdk (Some sm).

(** ** lib/walletHandlers.js and the steps that call it *)










(** ** Pages of banks *)

(** [l.indexOf(x)]: the objects of the arrays are compared by identity,
    which is the equality of [B]. *)
Fixpoint indexOf_from {B} `{EqDecision B} (l : list B) (x : B) (i : Z) : Z :=
  match l with
  | [] => -1
  | y :: l' => if decide (y = x) then i else indexOf_from l' x (i + 1)
  end.

Definition indexOf {B} `{EqDecision B} (l : list B) (x : B) : Z := indexOf_from l x 0.

(** [l.slice(a, b)] for indices that are not negative *)
Definition slice {B} (l : list B) (a b : nat) : list B := take (b - a) (drop a l).

(** What showBankPage puts on the screen: a button for each bank of the
    page with the index it selects, the buttons to the previous and to the
    next page with the page they lead to, and the numbers of the line
    "Halaman p dari t, Bank a-b dari n". *)
Record page_view (B : Type) : Type := mkPageView {
  bankButtons : list (B * Z);
  previousPage : option nat;
  nextPage : option nat;
  pageShown : nat;
  totalPages : nat;
  firstShown : nat;
  lastShown : nat;
  banksTotal : nat
}.
Arguments mkPageView {B}.
Arguments bankButtons {B}.
Arguments previousPage {B}.
Arguments nextPage {B}.
Arguments pageShown {B}.
Arguments totalPages {B}.
Arguments firstShown {B}.
Arguments lastShown {B}.
Arguments banksTotal {B}.

Definition showBankPage {B} `{EqDecision B} (availableBanks banks : list B) (page : nat) : page_view B :=
  let BANKS_PER_PAGE := 15%nat in
  let startIndex := (page * BANKS_PER_PAGE)%nat in
  let endIndex := Nat.min (startIndex + BANKS_PER_PAGE) (length banks) in
  let banksOnPage := slice banks startIndex endIndex in
  mkPageView
    (map (λ bank, (bank, indexOf availableBanks bank)) banksOnPage)
    (if (0 <? page)%nat then Some (page - 1)%nat else None)
    (if (endIndex <? length banks)%nat then Some (page + 1)%nat else None)
    (page + 1)
    (Z.to_nat (Math_ceil_div (Z.of_nat (length banks)) (Z.of_nat BANKS_PER_PAGE)))
    (startIndex + 1)
    endIndex
    (length banks).

(** The row an update through the manager leaves behind. *)
Definition updated_row (u : updates) (r : row) : row :=
  mkRow (r_chatId r) (r_type r) (default (r_state r) (u_state u))
        (match u_data u with
         | Some d => JSON_stringify (spread (JSON_parse (r_data r)) d)
         | None => r_data r
         end)
        (r_expires r) (r_createdAt r).

(** * Properties *)

(** ** Objects and documents *)

Lemma lookup_JSON_stringify (o : object) (k : string) :
  JSON_stringify o !! k = o !! k ≫= defined.
Proof. unfold JSON_stringify. apply lookup_omap. Qed.

Lemma lookup_JSON_parse (d : document) (k : string) :
  JSON_parse d !! k = JVal <$> d !! k.
Proof. unfold JSON_parse. apply lookup_fmap. Qed.

Lemma lookup_spread (a b : object) (k : string) :
  spread a b !! k = match b !! k with Some v => Some v | None => a !! k end.
Proof.
  unfold spread. rewrite lookup_union.
  destruct (b !! k), (a !! k); reflexivity.
Qed.

(** Writing a document and reading it back gives the document. *)
Lemma JSON_stringify_parse (d : document) : JSON_stringify (JSON_parse d) = d.
Proof.
  apply map_eq. intros k.
  rewrite lookup_JSON_stringify, lookup_JSON_parse.
  destruct (d !! k); reflexivity.
Qed.

Lemma js_get_parse (d : document) (k : string) :
  js_get (JSON_parse d) k = from_option JVal JUndefined (d !! k).
Proof.
  unfold js_get. rewrite lookup_JSON_parse. destruct (d !! k); reflexivity.
Qed.

(** ** The manager, statement by statement *)

Lemma updateSession_missing (w : world) (id : string) (u : updates) :
  sessions w !! id = None → updateSession id u w = (Ok None, w).
Proof.
  intros Hid. unfold updateSession, bind, select_by_id, get_table, ret.
  simpl. rewrite Hid. reflexivity.
Qed.

Lemma updateSession_found (w : world) (id : string) (r : row) (u : updates) :
  sessions w !! id = Some r →
  ∃ s,
    updateSession id u w =
      (Ok (Some s),
       mkWorld (<[id := mkRow (r_chatId r) (r_type r) (s_state s)
                          (JSON_stringify (s_data s)) (r_expires r) (r_createdAt r)]>
                  (sessions w))
               (clock w) (sent w))
    ∧ s_id s = id
    ∧ s_chatId s = r_chatId r
    ∧ s_type s = r_type r
    ∧ s_state s = default (r_state r) (u_state u)
    ∧ s_data s = match u_data u with
                 | Some d => spread (JSON_parse (r_data r)) d
                 | None => JSON_parse (r_data r)
                 end
    ∧ s_expires s = r_expires r
    ∧ s_createdAt s = r_createdAt r.
Proof.
  intros Hid. unfold updateSession, bind, select_by_id, get_table, ret.
  simpl. rewrite Hid. simpl.
  eexists. split.
  - unfold update_state_data, bind, get_table, put_table. simpl.
    f_equal. f_equal.
    apply map_eq. intros j.
    destruct (decide (id = j)) as [<-|Hne].
    + rewrite lookup_alter_eq, lookup_insert_eq, Hid. reflexivity.
    + rewrite lookup_alter_ne, lookup_insert_ne by done. reflexivity.
  - simpl. repeat split; destruct (u_state u); reflexivity.
Qed.

(** C7. Session data updates are shallow merges: after
    [updateSession(id, {data: U})] on an existing session with data [D], the
    stored data has, for every key of [U], the value [U] gives it (a key
    bound to undefined reads as undefined, a JSON value is stored as it
    is), and every key of [D] that is not in [U] keeps its value; the other
    rows are not touched. *)
Theorem updateSession_merges_data (w : world) (id : string) (r : row)
    (st : option string) (U : object) :
  sessions w !! id = Some r →
  ∃ r',
    sessions (after (updateSession id (mkUpdates st (Some U))) w) !! id = Some r'
    ∧ (∀ k v, U !! k = Some v → js_get (JSON_parse (r_data r')) k = v)
    ∧ (∀ k j, U !! k = Some (JVal j) → r_data r' !! k = Some j)
    ∧ (∀ k, U !! k = None → r_data r' !! k = r_data r !! k)
    ∧ (∀ j, j ≠ id →
         sessions (after (updateSession id (mkUpdates st (Some U))) w) !! j
         = sessions w !! j).
Proof.
  intros Hid.
  destruct (updateSession_found w id r (mkUpdates st (Some U)) Hid)
    as (s & Hrun & _ & _ & _ & _ & Hdata & _).
  unfold after. rewrite Hrun. simpl in *.
  eexists. split; [apply lookup_insert_eq|]. simpl. rewrite Hdata.
  repeat split.
  - intros k v Hk. rewrite js_get_parse, lookup_JSON_stringify, lookup_spread, Hk.
    destruct v; reflexivity.
  - intros k j Hk. rewrite lookup_JSON_stringify, lookup_spread, Hk. reflexivity.
  - intros k Hk. rewrite lookup_JSON_stringify, lookup_spread, Hk, lookup_JSON_parse.
    destruct (r_data r !! k); reflexivity.
  - intros j Hne. apply lookup_insert_ne. congruence.
Qed.

Lemma updateSession_merges_data_witness :
  sessions w_flow !! "42_add_wallet_1000" = Some row_flow
  ∧ ∃ r',
      sessions (after (updateSession "42_add_wallet_1000"
                         (mkUpdates None (Some {[ "pin" := JVal (JStr "123456") ]})))
                      w_flow) !! "42_add_wallet_1000" = Some r'
      ∧ r_data r' !! "pin" = Some (JStr "123456")
      ∧ r_data r' !! "phoneNumber" = Some (JStr "81234567890")
      ∧ r_data r' !! "walletCode" = Some (JStr "DANA").
Proof.
  split; [reflexivity|].
  destruct (updateSession_merges_data w_flow "42_add_wallet_1000" row_flow None
              {[ "pin" := JVal (JStr "123456") ]} eq_refl)
    as (r' & Hrow & _ & Hnew & Hold & _).
  exists r'. split; [exact Hrow|]. split; [|split].
  - apply Hnew. reflexivity.
  - rewrite Hold; reflexivity.
  - rewrite Hold; reflexivity.
Defined.

(** C2, as the code has it. updateSession gives null exactly when the table
    has no row with the id (the session was deleted or swept); the expiry
    time is not looked at, so a row that is expired and not yet swept is
    updated like any other: the state is replaced when given, the data are
    merged, the row is written back, and the updated session is returned. *)
Theorem updateSession_null_iff_no_row (w : world) (id : string) (u : updates) :
  ((updateSession id u w).1 = Ok None ↔ sessions w !! id = None)
  ∧ (sessions w !! id = None → after (updateSession id u) w = w)
  ∧ (∀ r, sessions w !! id = Some r →
       ∃ s, (updateSession id u w).1 = Ok (Some s)
            ∧ s_state s = default (r_state r) (u_state u)
            ∧ s_data s = match u_data u with
                         | Some d => spread (JSON_parse (r_data r)) d
                         | None => JSON_parse (r_data r)
                         end
            ∧ sessions (after (updateSession id u) w) !! id
              = Some (mkRow (r_chatId r) (r_type r) (s_state s)
                            (JSON_stringify (s_data s)) (r_expires r) (r_createdAt r))).
Proof.
  split; [|split].
  - split.
    + intros Hres. destruct (sessions w !! id) as [r|] eqn:Hid; [|reflexivity].
      destruct (updateSession_found w id r u Hid) as (s & Hrun & _).
      rewrite Hrun in Hres. discriminate.
    + intros Hid. rewrite updateSession_missing by exact Hid. reflexivity.
  - intros Hid. unfold after. rewrite updateSession_missing by exact Hid. reflexivity.
  - intros r Hid.
    destruct (updateSession_found w id r u Hid)
      as (s & Hrun & _ & _ & _ & Hst & Hdata & _).
    exists s. unfold after. rewrite Hrun. simpl.
    repeat split; [exact Hst | exact Hdata | apply lookup_insert_eq].
Qed.

Lemma updateSession_null_iff_no_row_witness :
  sessions w_expired !! "42_add_wallet_1000" = Some row_flow
  ∧ ∃ s, (updateSession "42_add_wallet_1000"
            (mkUpdates (Some "awaiting_otp") None) w_expired).1 = Ok (Some s)
         ∧ s_state s = "awaiting_otp".
Proof.
  split; [reflexivity|].
  destruct (updateSession_null_iff_no_row w_expired "42_add_wallet_1000"
              (mkUpdates (Some "awaiting_otp") None)) as (_ & _ & Hfound).
  destruct (Hfound row_flow eq_refl) as (s & Hres & Hst & _).
  exists s. split; [exact Hres | exact Hst].
Defined.

(** C2, as stated, fails: the row of [w_expired] expired long ago and is
    still in the table, and updateSession updates it and returns it. *)
Lemma updateSession_expired_row_succeeds :
  sessions w_expired !! "42_add_wallet_1000" = Some row_flow
  ∧ r_expires row_flow < clock w_expired
  ∧ (getSession "42" None w_expired).1 = Ok None
  ∧ (updateSession "42_add_wallet_1000" (mkUpdates (Some "awaiting_otp") None) w_expired).1
    ≠ Ok None
  ∧ r_state <$> sessions (after (updateSession "42_add_wallet_1000"
                                    (mkUpdates (Some "awaiting_otp") None)) w_expired)
                  !! "42_add_wallet_1000"
    = Some "awaiting_otp".
Proof.
  split; [reflexivity|]. split; [reflexivity|]. split; [reflexivity|].
  split; [vm_compute; discriminate | reflexivity].
Qed.

(** ** The lookup of the most recent active session *)

Lemma newest_nil (l : list (string * row)) : newest l = None ↔ l = [].
Proof.
  destruct l as [|x l]; simpl; [tauto|].
  split; [|discriminate].
  unfold newer. destruct (newest l) as [y|]; [|discriminate].
  destruct (r_createdAt y.2 <? r_createdAt x.2); discriminate.
Qed.

Lemma newest_elem (l : list (string * row)) (x : string * row) :
  newest l = Some x → x ∈ l.
Proof.
  revert x. induction l as [|y l IH]; intros x; simpl; [discriminate|].
  unfold newer. destruct (newest l) as [z|] eqn:Hl.
  - destruct (r_createdAt z.2 <? r_createdAt y.2); intros [= <-].
    + apply list_elem_of_here.
    + apply list_elem_of_further, IH. reflexivity.
  - intros [= <-]. apply list_elem_of_here.
Qed.

Lemma newest_greatest (l : list (string * row)) (x y : string * row) :
  newest l = Some x → y ∈ l → r_createdAt y.2 <= r_createdAt x.2.
Proof.
  revert x. induction l as [|z l IH]; intros x Hx Hy; [inversion Hy|].
  simpl in Hx. unfold newer in Hx.
  apply elem_of_cons in Hy.
  destruct (newest l) as [m|] eqn:Hl.
  - destruct (Z.ltb_spec (r_createdAt m.2) (r_createdAt z.2)) as [Hlt|Hge];
      injection Hx as Hx; subst x.
    + destruct Hy as [->|Hy]; [lia|].
      specialize (IH m eq_refl Hy). lia.
    + destruct Hy as [->|Hy]; [lia|].
      apply (IH m eq_refl Hy).
  - injection Hx as Hx; subst x. apply newest_nil in Hl. subst l.
    destruct Hy as [->|Hy]; [lia | inversion Hy].
Qed.

Lemma newest_singleton (x : string * row) : newest [x] = Some x.
Proof. reflexivity. Qed.

Lemma getSession_run (chat : string) (ty : option string) (w : world) :
  getSession chat ty w =
    (Ok ((λ kr : string * row, session_of_row kr.1 kr.2) <$>
           newest (filter (active_for chat (clock w) (type_filter ty))
                          (map_to_list (sessions w)))),
     w).
Proof.
  unfold getSession, bind, Date_now, select_latest, get_table, ret. simpl.
  destruct (newest _); reflexivity.
Qed.

Lemma elem_of_active (chat : string) (now : Z) (ty : option string)
    (t : gmap string row) (id : string) (r : row) :
  (id, r) ∈ filter (active_for chat now ty) (map_to_list t)
  ↔ t !! id = Some r ∧ r_chatId r = chat ∧ now < r_expires r
    ∧ match ty with Some x => r_type r = x | None => True end.
Proof.
  rewrite list_elem_of_filter, elem_of_map_to_list. unfold active_for. simpl. tauto.
Qed.

(** C8. The lookup never returns a session whose expiry time has been
    reached: what it returns is a row of the chat with [expires] after the
    current time, a row with [expires] at or before the current time is
    not returned although it is still in the table, and when every row of
    the chat is such a row the lookup returns null. The lookup changes
    nothing. *)
Theorem getSession_excludes_expired (w : world) (chat : string) (ty : option string) :
  (∀ s, (getSession chat ty w).1 = Ok (Some s) →
     ∃ r, sessions w !! s_id s = Some r
          ∧ s = session_of_row (s_id s) r
          ∧ r_chatId r = chat
          ∧ clock w < r_expires r
          ∧ s_expires s = r_expires r)
  ∧ (∀ id r, sessions w !! id = Some r → r_expires r <= clock w →
       (getSession chat ty w).1 ≠ Ok (Some (session_of_row id r)))
  ∧ ((∀ id r, sessions w !! id = Some r → r_chatId r = chat → r_expires r <= clock w) →
     getSession chat ty w = (Ok None, w))
  ∧ after (getSession chat ty) w = w.
Proof.
  unfold after. rewrite getSession_run. simpl. split; [|split; [|split; [|reflexivity]]].
  - intros s Hs.
    destruct (newest _) as [[id r]|] eqn:Hn; [|discriminate].
    injection Hs as <-. simpl.
    apply newest_elem, elem_of_active in Hn as (Hid & Hchat & Hexp & _).
    exists r. repeat split; assumption.
  - intros id r Hid Hexpired Hs.
    destruct (newest _) as [[j q]|] eqn:Hn; [|discriminate].
    assert (j = id) as ->.
    { apply (f_equal (λ x, match x with Ok (Some s) => s_id s | _ => "" end)) in Hs.
      exact Hs. }
    apply newest_elem, elem_of_active in Hn as (Hj & _ & Hlive & _).
    rewrite Hid in Hj. injection Hj as <-. lia.
  - intros Hall.
    destruct (newest _) as [[id r]|] eqn:Hn; [|reflexivity].
    apply newest_elem, elem_of_active in Hn as (Hid & Hchat & Hexp & _).
    specialize (Hall id r Hid Hchat). lia.
Qed.

Lemma getSession_excludes_expired_witness :
  (∀ id r, sessions w_expired !! id = Some r → r_chatId r = "42" →
           r_expires r <= clock w_expired)
  ∧ sessions w_expired !! "42_add_wallet_1000" = Some row_flow
  ∧ getSession "42" None w_expired = (Ok None, w_expired).
Proof.
  assert (Hall : ∀ id r, sessions w_expired !! id = Some r → r_chatId r = "42" →
                         r_expires r <= clock w_expired).
  { intros id r Hid _. unfold w_expired in Hid. simpl in Hid.
    apply lookup_singleton_Some in Hid as [_ <-]. simpl. lia. }
  split; [exact Hall|]. split; [reflexivity|].
  apply (getSession_excludes_expired w_expired "42" None). exact Hall.
Defined.

Lemma filter_none {A} (P : A → Prop) `{!∀ x, Decision (P x)} (l : list A) :
  (∀ y, y ∈ l → ¬ P y) → filter P l = [].
Proof.
  induction l as [|z l IH]; intros Hnone; [reflexivity|].
  rewrite filter_cons_False by (apply Hnone, list_elem_of_here).
  apply IH. intros y Hy. apply Hnone, list_elem_of_further, Hy.
Qed.

Lemma filter_unique {A} (P : A → Prop) `{!∀ x, Decision (P x)} (l : list A) (x : A) :
  NoDup l → x ∈ l → P x → (∀ y, y ∈ l → P y → y = x) → filter P l = [x].
Proof.
  induction l as [|z l IH]; intros Hnd Hx HP Huniq; [inversion Hx|].
  apply NoDup_cons in Hnd as [Hz Hnd].
  destruct (decide (P z)) as [HPz|HPz].
  - assert (z = x) as -> by (apply Huniq; [apply list_elem_of_here | exact HPz]).
    rewrite filter_cons_True by exact HPz.
    f_equal. apply filter_none. intros y Hy HPy.
    assert (y = x) as -> by (apply Huniq; [apply list_elem_of_further, Hy | exact HPy]).
    contradiction.
  - rewrite filter_cons_False by exact HPz.
    apply elem_of_cons in Hx as [->|Hx]; [contradiction|].
    apply IH; [exact Hnd | exact Hx | exact HP |].
    intros y Hy. apply Huniq, list_elem_of_further, Hy.
Qed.

Lemma active_unique (chat : string) (now : Z) (ty : option string)
    (t : gmap string row) (id : string) (r : row) :
  t !! id = Some r →
  active_for chat now ty (id, r) →
  (∀ j q, t !! j = Some q → active_for chat now ty (j, q) → j = id) →
  filter (active_for chat now ty) (map_to_list t) = [(id, r)].
Proof.
  intros Hid Hact Huniq. apply filter_unique.
  - apply NoDup_map_to_list.
  - apply elem_of_map_to_list, Hid.
  - exact Hact.
  - intros [j q] Hj Hq. apply elem_of_map_to_list in Hj.
    assert (j = id) as -> by (apply (Huniq j q); assumption).
    congruence.
Qed.

Lemma active_none (chat : string) (now : Z) (ty : option string) (t : gmap string row) :
  (∀ j q, t !! j = Some q → ¬ active_for chat now ty (j, q)) →
  filter (active_for chat now ty) (map_to_list t) = [].
Proof.
  intros Hnone. apply filter_none.
  intros [j q] Hj. apply Hnone, elem_of_map_to_list, Hj.
Qed.

(** C1, what the code does. getSessionData calls getSession without a type,
    which puts no condition on the type: when the only unexpired session
    of a chat is its authenticated session, the lookup returns that
    session, not null. *)
Theorem getSessionData_returns_authenticated (w : world) (chat id : string) (r : row) :
  sessions w !! id = Some r →
  r_chatId r = chat →
  r_type r = "authenticated" →
  clock w < r_expires r →
  (∀ j q, sessions w !! j = Some q → r_chatId q = chat → clock w < r_expires q → j = id) →
  getSessionData chat (Some initializeSessionManager) w
  = (Ok (Some (session_of_row id r)), w).
Proof.
  intros Hid Hchat Hty Hexp Honly.
  unfold getSessionData. simpl. rewrite getSession_run. simpl.
  rewrite (active_unique chat (clock w) None (sessions w) id r); [reflexivity|exact Hid| |].
  - unfold active_for. simpl. tauto.
  - intros j q Hj (Hc & He & _). apply (Honly j q); assumption.
Qed.

Lemma getSessionData_returns_authenticated_witness :
  sessions w_logged_in !! "42_authenticated_1000" = Some row_authenticated
  ∧ r_type row_authenticated = "authenticated"
  ∧ clock w_logged_in < r_expires row_authenticated
  ∧ getSessionData "42" (Some initializeSessionManager) w_logged_in
    = (Ok (Some (session_of_row "42_authenticated_1000" row_authenticated)), w_logged_in).
Proof.
  split; [reflexivity|]. split; [reflexivity|]. split; [reflexivity|].
  apply getSessionData_returns_authenticated; try reflexivity.
  intros j q Hj _ _. unfold w_logged_in in Hj. simpl in Hj.
  apply lookup_singleton_Some in Hj as [<- _]. reflexivity.
Defined.

(** What follows from it for a chat that has just logged in: the text
    dispatcher finds the authenticated session, /add refuses to start a
    flow, and /cancel deletes the authenticated session. *)
Lemma logged_in_chat_has_a_flow :
  (authenticateUser env0 "42" "s3cret" initializeSessionManager (mkWorld ∅ 1000 [])).1
  = Ok (mkAuthResult true "Autentikasi berhasil")
  ∧ advance 60000 (after (authenticateUser env0 "42" "s3cret" initializeSessionManager)
                         (mkWorld ∅ 1000 []))
    = w_logged_in
  ∧ (textDispatch "42" "halo" (Some initializeSessionManager) w_logged_in).1
    = Ok (Some (session_of_row "42_authenticated_1000" row_authenticated, None))
  ∧ sent (after (command_add "42" initializeSessionManager) w_logged_in)
    = [ProcessInProgress]
  ∧ after (command_cancel "42" initializeSessionManager) w_logged_in
    = mkWorld ∅ 61000 [Cancelled].
Proof. repeat split; vm_compute; reflexivity. Qed.

(** ** The confirmation of a transfer *)


Lemma string_app_cons (a : ascii) (s t : string) :
  String a s +:+ t = String a (s +:+ t).
Proof. reflexivity. Qed.






(** ** The authentication engine, statement by statement *)

(** Unfolds the plumbing of the monad and the SQL statements. *)
Ltac run_monad :=
  cbv beta iota zeta delta
    [bind ret throw try_catch Date_now get_table put_table ctx_reply
     insert_row select_by_id select_latest update_state_data update_expires
     delete_by_id delete_by_chat_type delete_expired_before];
  simpl.

Lemma createSession_run (chat ty : string) (data : object) (w : world) :
  createSession chat ty data w =
    match sessions w !! session_id chat ty (clock w) with
    | Some _ => (Throw SQLITE_CONSTRAINT, w)
    | None =>
        (Ok (mkSession (session_id chat ty (clock w)) chat ty "" data
                       (clock w + 15 * 60 * 1000) (clock w)),
         mkWorld (<[session_id chat ty (clock w) :=
                      mkRow chat ty "" (JSON_stringify data)
                            (clock w + 15 * 60 * 1000) (clock w)]> (sessions w))
                 (clock w) (sent w))
    end.
Proof.
  unfold createSession. run_monad.
  destruct (sessions w !! session_id chat ty (clock w)); reflexivity.
Qed.

Lemma deleteSessionsByType_run (chat ty : string) (w : world) :
  deleteSessionsByType chat ty w =
    (Ok (bool_decide (filter (of_chat_type chat ty) (sessions w) ≠ ∅)),
     mkWorld (filter (λ kr, ¬ of_chat_type chat ty kr) (sessions w)) (clock w) (sent w)).
Proof. reflexivity. Qed.

Lemma deleteSession_run (id : string) (w : world) :
  deleteSession id w =
    (Ok (bool_decide (is_Some (sessions w !! id))),
     mkWorld (delete id (sessions w)) (clock w) (sent w)).
Proof. reflexivity. Qed.

Lemma extendSession_run (id : string) (minutes : Z) (w : world) :
  extendSession id minutes w =
    (Ok (bool_decide (is_Some (sessions w !! id))),
     mkWorld (alter (λ r, mkRow (r_chatId r) (r_type r) (r_state r) (r_data r)
                                (clock w + minutes * 60 * 1000) (r_createdAt r))
                    id (sessions w))
             (clock w) (sent w)).
Proof. reflexivity. Qed.

Lemma createAuthenticatedSession_run (chat : string) (w : world) :
  let t := filter (λ kr, ¬ of_chat_type chat "authenticated" kr) (sessions w) in
  let id := session_id chat "authenticated" (clock w) in
  let data : object :=
    {[ "authenticated" := JVal (JBool true); "loginTime" := JVal (JNum (clock w)) ]} in
  createAuthenticatedSession chat initializeSessionManager w =
    match t !! id with
    | Some _ => (Throw SQLITE_CONSTRAINT, mkWorld t (clock w) (sent w))
    | None =>
        (Ok (mkSession id chat "authenticated" "" data (clock w + 15 * 60 * 1000) (clock w)),
         mkWorld (<[id := mkRow chat "authenticated" "" (JSON_stringify data)
                                (clock w + 24 * 60 * 60 * 1000) (clock w)]> t)
                 (clock w) (sent w))
    end.
Proof.
  intros t id data.
  unfold createAuthenticatedSession, try_catch, bind. simpl.
  rewrite createSession_run. simpl. fold t id.
  destruct (t !! id) eqn:Hid; simpl; [reflexivity|].
  unfold update_expires, bind, get_table, put_table, ret. simpl.
  rewrite alter_insert_eq. reflexivity.
Qed.

Lemma authenticateUser_run (e : env) (chat password : string) (w : world) :
  authenticateUser e chat password initializeSessionManager w =
    match BOT_PASSWORD e with
    | None => (Ok (mkAuthResult false "Konfigurasi autentikasi tidak valid"), w)
    | Some correctPassword =>
        if String.eqb correctPassword "" then
          (Ok (mkAuthResult false "Konfigurasi autentikasi tidak valid"), w)
        else if String.eqb password correctPassword then
          match createAuthenticatedSession chat initializeSessionManager
                  (after (deleteSessionsByType chat "auth_attempts") w) with
          | (Ok _, w') => (Ok (mkAuthResult true "Autentikasi berhasil"), w')
          | (Throw err, w') => (Throw err, w')
          end
        else
          match trackFailedAttempt e chat initializeSessionManager w with
          | (Ok _, w') => (Ok (mkAuthResult false "Password salah"), w')
          | (Throw err, w') => (Throw err, w')
          end
    end.
Proof.
  unfold authenticateUser. destruct (BOT_PASSWORD e) as [c|]; [|reflexivity].
  destruct (String.eqb c ""); [reflexivity|].
  destruct (String.eqb password c); simpl.
  - unfold bind, clearFailedAttempts, bind, after. simpl.
    destruct (createAuthenticatedSession _ _ _) as [[?|?] ?]; reflexivity.
  - unfold bind. destruct (trackFailedAttempt _ _ _ _) as [[?|?] ?]; reflexivity.
Qed.

(** The table a successful login leaves behind. *)
Lemma authenticateUser_success (e : env) (chat password : string) (w w' : world)
    (res : authResult) :
  authenticateUser e chat password initializeSessionManager w = (Ok res, w') →
  success res = true →
  let t := filter (λ kr, ¬ of_chat_type chat "authenticated" kr)
             (filter (λ kr, ¬ of_chat_type chat "auth_attempts" kr) (sessions w)) in
  let id := session_id chat "authenticated" (clock w) in
  BOT_PASSWORD e = Some password
  ∧ t !! id = None
  ∧ w' = mkWorld
           (<[id := mkRow chat "authenticated" ""
                          {[ "authenticated" := JBool true; "loginTime" := JNum (clock w) ]}
                          (clock w + 24 * 60 * 60 * 1000) (clock w)]> t)
           (clock w) (sent w).
Proof.
  intros Hrun Hok t id. rewrite authenticateUser_run in Hrun.
  destruct (BOT_PASSWORD e) as [c|]; [|injection Hrun as <- _; discriminate].
  destruct (String.eqb c ""); [injection Hrun as <- _; discriminate|].
  destruct (String.eqb_spec password c) as [->|Hne].
  - rewrite createAuthenticatedSession_run in Hrun. unfold after in Hrun.
    rewrite deleteSessionsByType_run in Hrun. simpl in Hrun. fold t id in Hrun.
    destruct (t !! id) eqn:Hid; [discriminate|].
    injection Hrun as _ <-. repeat split.
  - destruct (trackFailedAttempt _ _ _ _) as [[?|?] ?]; [|discriminate].
    injection Hrun as <- _. discriminate.
Qed.

(** A login with the configured password goes through when the id of the
    new session is not taken by a row that stays in the table. *)
Lemma authenticateUser_correct_password (e : env) (chat password : string) (w : world) :
  BOT_PASSWORD e = Some password →
  password ≠ "" →
  let t := filter (λ kr, ¬ of_chat_type chat "authenticated" kr)
             (filter (λ kr, ¬ of_chat_type chat "auth_attempts" kr) (sessions w)) in
  let id := session_id chat "authenticated" (clock w) in
  t !! id = None →
  authenticateUser e chat password initializeSessionManager w =
    (Ok (mkAuthResult true "Autentikasi berhasil"),
     mkWorld
       (<[id := mkRow chat "authenticated" ""
                      {[ "authenticated" := JBool true; "loginTime" := JNum (clock w) ]}
                      (clock w + 24 * 60 * 60 * 1000) (clock w)]> t)
       (clock w) (sent w)).
Proof.
  intros Hpw Hne t id Hid. rewrite authenticateUser_run, Hpw.
  apply String.eqb_neq in Hne. rewrite Hne, String.eqb_refl.
  rewrite createAuthenticatedSession_run. unfold after.
  rewrite deleteSessionsByType_run. simpl. fold t id. rewrite Hid. reflexivity.
Qed.

(** ** One authenticated session per chat *)

Section Keeps.
Variable I : world → Prop.

Lemma keeps_ret {A} (a : A) : keeps I (ret a).
Proof. intros w Hw. exact Hw. Qed.

Lemma keeps_throw {A} (err : error) : keeps I (throw (A := A) err).
Proof. intros w Hw. exact Hw. Qed.

Lemma keeps_bind {A B} (m : M A) (k : A → M B) :
  keeps I m → (∀ a, keeps I (k a)) → keeps I (bind m k).
Proof.
  intros Hm Hk w Hw. specialize (Hm w Hw). unfold after, bind in *.
  destruct (m w) as [[a|err] w']; simpl in *; [apply Hk, Hm | exact Hm].
Qed.

Lemma keeps_try_catch {A} (m : M A) (h : error → M A) :
  keeps I m → (∀ err, keeps I (h err)) → keeps I (try_catch m h).
Proof.
  intros Hm Hh w Hw. specialize (Hm w Hw). unfold after, try_catch in *.
  destruct (m w) as [[a|err] w']; simpl in *; [exact Hm | apply Hh, Hm].
Qed.
End Keeps.

Lemma keeps_Date_now (P : gmap string row → Prop) : keeps (on_table P) Date_now.
Proof. intros w Hw. exact Hw. Qed.

Lemma keeps_get_table (P : gmap string row → Prop) : keeps (on_table P) get_table.
Proof. intros w Hw. exact Hw. Qed.

Lemma keeps_ctx_reply (P : gmap string row → Prop) (r : reply) :
  keeps (on_table P) (ctx_reply r).
Proof. intros w Hw. exact Hw. Qed.

Lemma keeps_as_number (P : gmap string row → Prop) (v : jsval) :
  keeps (on_table P) (as_number v).
Proof. intros w Hw. destruct v as [|[]]; exact Hw. Qed.

Lemma one_authenticated_subseteq (t t' : gmap string row) :
  t' ⊆ t → one_authenticated t → one_authenticated t'.
Proof.
  intros Hsub Hone i j r q Hi Hj. apply (Hone i j r q).
  - eapply lookup_weaken; eassumption.
  - eapply lookup_weaken; eassumption.
Qed.

Lemma one_authenticated_alter (t : gmap string row) (f : row → row) (id : string) :
  (∀ r, r_chatId (f r) = r_chatId r ∧ r_type (f r) = r_type r) →
  one_authenticated t → one_authenticated (alter f id t).
Proof.
  intros Hf Hone i j r q Hi Hj Hr Hq Hc.
  assert (Hsame : ∀ k x, alter f id t !! k = Some x →
            ∃ y, t !! k = Some y ∧ r_chatId x = r_chatId y ∧ r_type x = r_type y).
  { intros k x Hk. destruct (decide (id = k)) as [<-|Hne].
    - rewrite lookup_alter_eq in Hk. destruct (t !! id) as [y|]; [|discriminate].
      injection Hk as <-. exists y. destruct (Hf y). auto.
    - rewrite lookup_alter_ne in Hk by exact Hne. exists x. auto. }
  destruct (Hsame i r Hi) as (r0 & Hi0 & Hc1 & Ht1).
  destruct (Hsame j q Hj) as (q0 & Hj0 & Hc2 & Ht2).
  apply (Hone i j r0 q0); congruence.
Qed.

Lemma one_authenticated_insert_other (t : gmap string row) (id : string) (r : row) :
  r_type r ≠ "authenticated" →
  t !! id = None →
  one_authenticated t → one_authenticated (<[id := r]> t).
Proof.
  intros Hty Hfresh Hone i j x y Hi Hj Hx Hy Hc.
  apply lookup_insert_Some in Hi as [[-> ->]|[Hni Hi]]; [contradiction|].
  apply lookup_insert_Some in Hj as [[-> ->]|[Hnj Hj]]; [contradiction|].
  apply (Hone i j x y); assumption.
Qed.

Lemma one_authenticated_insert_new (t : gmap string row) (id : string) (r : row) :
  (∀ j q, t !! j = Some q → r_type q = "authenticated" → r_chatId q ≠ r_chatId r) →
  one_authenticated t → one_authenticated (<[id := r]> t).
Proof.
  intros Hnone Hone i j x y Hi Hj Hx Hy Hc.
  apply lookup_insert_Some in Hi as [[-> ->]|[Hni Hi]];
    apply lookup_insert_Some in Hj as [[-> ->]|[Hnj Hj]].
  - reflexivity.
  - exfalso. apply (Hnone j y Hj Hy). congruence.
  - exfalso. apply (Hnone i x Hi Hx). congruence.
  - apply (Hone i j x y); assumption.
Qed.

Lemma keeps_getSession chat ty : keeps single (getSession chat ty).
Proof. intros w Hw. unfold after. rewrite getSession_run. exact Hw. Qed.

Lemma keeps_updateSession id u : keeps single (updateSession id u).
Proof.
  intros w Hw. unfold after, updateSession. run_monad.
  destruct (sessions w !! id); simpl; [|exact Hw].
  apply one_authenticated_alter; [auto | exact Hw].
Qed.

Lemma keeps_deleteSession id : keeps single (deleteSession id).
Proof.
  intros w Hw. unfold after. rewrite deleteSession_run. simpl.
  eapply one_authenticated_subseteq; [apply delete_subseteq | exact Hw].
Qed.

Lemma keeps_deleteSessionsByType chat ty : keeps single (deleteSessionsByType chat ty).
Proof.
  intros w Hw. unfold after. rewrite deleteSessionsByType_run. simpl.
  eapply one_authenticated_subseteq; [apply map_filter_subseteq | exact Hw].
Qed.

Lemma keeps_extendSession id minutes : keeps single (extendSession id minutes).
Proof.
  intros w Hw. unfold after. rewrite extendSession_run. simpl.
  apply one_authenticated_alter; [auto | exact Hw].
Qed.

Lemma keeps_sessionCleanup : keeps single sessionCleanup.
Proof.
  intros w Hw. unfold after, sessionCleanup. run_monad.
  eapply one_authenticated_subseteq; [apply map_filter_subseteq | exact Hw].
Qed.

Lemma keeps_createSession chat ty data :
  ty ≠ "authenticated" → keeps single (createSession chat ty data).
Proof.
  intros Hty w Hw. unfold after. rewrite createSession_run.
  destruct (sessions w !! _) eqn:Hid; simpl; [exact Hw|].
  apply one_authenticated_insert_other; [exact Hty | exact Hid | exact Hw].
Qed.

Lemma keeps_createAuthenticatedSession chat :
  keeps single (createAuthenticatedSession chat initializeSessionManager).
Proof.
  intros w Hw. unfold after. rewrite createAuthenticatedSession_run.
  assert (Hsub : one_authenticated
            (filter (λ kr, ¬ of_chat_type chat "authenticated" kr) (sessions w))).
  { eapply one_authenticated_subseteq; [apply map_filter_subseteq | exact Hw]. }
  destruct (_ !! _); simpl; [exact Hsub|].
  apply one_authenticated_insert_new; [|exact Hsub].
  intros j q Hj Hq Hc. simpl in Hc.
  apply map_lookup_filter_Some in Hj as [_ Hnot]. apply Hnot.
  split; assumption.
Qed.

Lemma keeps_getSessionData chat :
  keeps single (getSessionData chat (Some initializeSessionManager)).
Proof. apply keeps_getSession. Qed.

Lemma keeps_deleteSessionData id :
  keeps single (deleteSessionData id (Some initializeSessionManager)).
Proof. apply keeps_deleteSession. Qed.

Create HintDb keeps.

#[local] Hint Resolve keeps_ret keeps_throw keeps_Date_now keeps_get_table
  keeps_ctx_reply keeps_as_number keeps_getSession keeps_updateSession
  keeps_deleteSession keeps_deleteSessionsByType keeps_extendSession
  keeps_sessionCleanup keeps_createAuthenticatedSession
  keeps_getSessionData keeps_deleteSessionData : keeps.

(** Splits a computation along its binds, handlers and case distinctions
    and closes the leaves with the lemmas above. *)
Ltac keeps_tac :=
  repeat first
    [ progress (simpl m_createSession; simpl m_getSession; simpl m_updateSession;
                simpl m_deleteSession; simpl m_deleteSessionsByType;
                simpl m_extendSession)
    | solve [auto with keeps]
    | solve [apply keeps_createSession; discriminate]
    | match goal with
      | |- keeps _ (try_catch _ _) => apply keeps_try_catch; [|intros ?]
      | |- keeps _ (bind _ _) => apply keeps_bind; [|intros ?]
      | |- keeps _ (if ?b then _ else _) => destruct b
      | |- keeps _ (match ?x with _ => _ end) => destruct x
      end ].

Lemma keeps_isUserAuthenticated chat :
  keeps single (isUserAuthenticated chat initializeSessionManager).
Proof. unfold isUserAuthenticated. keeps_tac. Qed.

Lemma keeps_trackFailedAttempt e chat :
  keeps single (trackFailedAttempt e chat initializeSessionManager).
Proof. unfold trackFailedAttempt. keeps_tac. Qed.

Lemma keeps_isUserBlocked e chat :
  keeps single (isUserBlocked e chat initializeSessionManager).
Proof. unfold isUserBlocked. keeps_tac. Qed.

Lemma keeps_authenticateUser e chat password :
  keeps single (authenticateUser e chat password initializeSessionManager).
Proof.
  pose proof (keeps_trackFailedAttempt e chat).
  unfold authenticateUser, clearFailedAttempts. keeps_tac.
Qed.

Lemma keeps_logoutUser chat :
  keeps single (logoutUser chat initializeSessionManager).
Proof. unfold logoutUser. keeps_tac. Qed.

Lemma keeps_handlePasswordInput e chat text s :
  keeps single (handlePasswordInput e chat text s initializeSessionManager).
Proof.
  pose proof (keeps_isUserBlocked e chat).
  pose proof (keeps_authenticateUser e chat (trim text)).
  unfold handlePasswordInput. keeps_tac.
Qed.

Lemma keeps_handleTransferConfirmation text s sdk :
  keeps single (handleTransferConfirmation text s sdk (Some initializeSessionManager)).
Proof.
  unfold handleTransferConfirmation, completeDANABankTransfer. keeps_tac.
Qed.

Lemma keeps_command_add chat : keeps single (command_add chat initializeSessionManager).
Proof.
  pose proof (keeps_isUserAuthenticated chat).
  unfold command_add, handleAddCommand. keeps_tac.
Qed.

Lemma keeps_command_cancel chat : keeps single (command_cancel chat initializeSessionManager).
Proof.
  pose proof (keeps_isUserAuthenticated chat).
  unfold command_cancel. keeps_tac.
Qed.

(** Every operation of the bot keeps the table at one authenticated row
    per chat. *)
Lemma exec_keeps_single (e : env) (op : operation) (w : world) :
  one_authenticated (sessions w) → one_authenticated (sessions (exec e op w)).
Proof.
  intros Hw. destruct op; simpl.
  - apply keeps_createSession; [destruct ty; discriminate | exact Hw].
  - apply keeps_getSession, Hw.
  - apply keeps_updateSession, Hw.
  - apply keeps_deleteSession, Hw.
  - apply keeps_deleteSessionsByType, Hw.
  - apply keeps_extendSession, Hw.
  - apply keeps_sessionCleanup, Hw.
  - apply keeps_isUserAuthenticated, Hw.
  - apply keeps_isUserBlocked, Hw.
  - apply keeps_authenticateUser, Hw.
  - apply keeps_logoutUser, Hw.
  - apply keeps_handlePasswordInput, Hw.
  - apply keeps_handleTransferConfirmation, Hw.
  - apply keeps_command_add, Hw.
  - apply keeps_command_cancel, Hw.
  - exact Hw.
Qed.

Lemma reachable_single (e : env) (w : world) :
  reachable e w → one_authenticated (sessions w).
Proof.
  induction 1 as [t|w op _ IH].
  - intros i j r q Hi. simpl in Hi. rewrite lookup_empty in Hi. discriminate.
  - apply exec_keeps_single, IH.
Qed.

(** With one authenticated row per chat, the lookup sees at most one
    authenticated session of a chat. *)
Lemma single_valid (w : world) (chat : string) :
  one_authenticated (sessions w) →
  (length (valid_sessions w chat "authenticated") ≤ 1)%nat.
Proof.
  intros Hone. unfold valid_sessions.
  assert (Hnd : NoDup (filter (active_for chat (clock w) (Some "authenticated"))
                              (map_to_list (sessions w)))).
  { apply NoDup_filter, NoDup_map_to_list. }
  assert (Hsame : ∀ x y,
            x ∈ filter (active_for chat (clock w) (Some "authenticated"))
                       (map_to_list (sessions w)) →
            y ∈ filter (active_for chat (clock w) (Some "authenticated"))
                       (map_to_list (sessions w)) →
            x = y).
  { intros [i r] [j q] Hx Hy.
    apply elem_of_active in Hx as (Hi & Hci & _ & Hti).
    apply elem_of_active in Hy as (Hj & Hcj & _ & Htj).
    assert (i = j) as -> by (apply (Hone i j r q); congruence).
    congruence. }
  destruct (filter _ _) as [|x [|y l]]; simpl; [lia | lia |].
  exfalso. apply NoDup_cons in Hnd as [Hx _]. apply Hx.
  rewrite (Hsame x y); [apply list_elem_of_here | apply list_elem_of_here |].
  apply list_elem_of_further, list_elem_of_here.
Qed.

Lemma authenticateUser_success_clears (e : env) (chat password : string) (w w' : world)
    (res : authResult) :
  authenticateUser e chat password initializeSessionManager w = (Ok res, w') →
  success res = true →
  ∀ j q, sessions w' !! j = Some q → r_chatId q = chat → r_type q ≠ "auth_attempts".
Proof.
  intros Hrun Hok j q Hj Hc Hq.
  destruct (authenticateUser_success e chat password w w' res Hrun Hok) as (_ & _ & ->).
  simpl in Hj.
  apply lookup_insert_Some in Hj as [[_ <-]|[_ Hj]]; [discriminate|].
  apply map_lookup_filter_Some in Hj as [Hj _].
  apply map_lookup_filter_Some in Hj as [_ Hnot].
  apply Hnot. split; assumption.
Qed.

(** C5. A successful authenticateUser (which takes the configured
    password) leaves the table without the rows of type auth_attempts and
    authenticated the chat had, and with one new row of type authenticated
    for the chat whose expiry is 24 hours after the login; it is the only
    authenticated session of the chat the lookup sees. With the configured
    password the login does succeed, as long as the id of the new session
    is free. Every operation of the bot keeps the table at one
    authenticated row per chat, so in every world the bot can reach, the
    lookup sees at most one authenticated session of a chat. *)
Theorem authenticateUser_single_session (e : env) (chat password : string) (w : world) :
  let sm := initializeSessionManager in
  let t := filter (λ kr, ¬ of_chat_type chat "authenticated" kr)
             (filter (λ kr, ¬ of_chat_type chat "auth_attempts" kr) (sessions w)) in
  let id := session_id chat "authenticated" (clock w) in
  let fresh := mkRow chat "authenticated" ""
                     {[ "authenticated" := JBool true; "loginTime" := JNum (clock w) ]}
                     (clock w + 24 * 60 * 60 * 1000) (clock w) in
  (∀ res w',
     authenticateUser e chat password sm w = (Ok res, w') → success res = true →
     BOT_PASSWORD e = Some password
     ∧ sessions w' = <[id := fresh]> t
     ∧ clock w' = clock w
     ∧ (∀ j q, sessions w' !! j = Some q → r_chatId q = chat → r_type q ≠ "auth_attempts")
     ∧ (∀ j q, sessions w' !! j = Some q → r_chatId q = chat →
               r_type q = "authenticated" → j = id ∧ q = fresh)
     ∧ valid_sessions w' chat "authenticated" = [(id, fresh)])
  ∧ (BOT_PASSWORD e = Some password → password ≠ "" → t !! id = None →
     ∃ w', authenticateUser e chat password sm w
           = (Ok (mkAuthResult true "Autentikasi berhasil"), w'))
  ∧ (∀ op, one_authenticated (sessions w) → one_authenticated (sessions (exec e op w)))
  ∧ (reachable e w → ∀ c, (length (valid_sessions w c "authenticated") ≤ 1)%nat).
Proof.
  intros sm t id fresh. split; [|split; [|split]].
  - intros res w' Hrun Hok.
    destruct (authenticateUser_success e chat password w w' res Hrun Hok)
      as (Hpw & Hid & ->).
    fold t id fresh in Hid |- *. simpl.
    assert (Hnone : ∀ j q ty, t !! j = Some q → r_chatId q = chat →
                      ty = "authenticated" ∨ ty = "auth_attempts" → r_type q ≠ ty).
    { intros j q ty Hj Hc Hty Hq. unfold t in Hj.
      apply map_lookup_filter_Some in Hj as [Hj Hn1].
      apply map_lookup_filter_Some in Hj as [_ Hn2].
      destruct Hty as [->| ->]; [apply Hn1 | apply Hn2]; split; assumption. }
    assert (Hauth : ∀ j q, <[id := fresh]> t !! j = Some q → r_chatId q = chat →
                      r_type q = "authenticated" → j = id ∧ q = fresh).
    { intros j q Hj Hc Hq.
      apply lookup_insert_Some in Hj as [[<- <-]|[_ Hj]]; [split; reflexivity|].
      exfalso. apply (Hnone j q "authenticated" Hj Hc); auto. }
    split; [exact Hpw|]. split; [reflexivity|]. split; [reflexivity|].
    split; [|split; [exact Hauth|]].
    + intros j q Hj Hc Hq.
      apply lookup_insert_Some in Hj as [[_ <-]|[_ Hj]]; [discriminate|].
      apply (Hnone j q "auth_attempts" Hj Hc); auto.
    + unfold valid_sessions. simpl. apply active_unique.
      * apply lookup_insert_eq.
      * unfold active_for. simpl. repeat split. lia.
      * intros j q Hj (Hc & _ & Hq). apply (Hauth j q); assumption.
  - intros Hpw Hne Hid. eexists.
    apply authenticateUser_correct_password; assumption.
  - intros op. apply exec_keeps_single.
  - intros Hreach c. apply single_valid. apply (reachable_single e), Hreach.
Qed.

Lemma authenticateUser_single_session_witness :
  authenticateUser env0 "42" "s3cret" initializeSessionManager w_relogin
  = (Ok (mkAuthResult true "Autentikasi berhasil"), w_relogged)
  ∧ success (mkAuthResult true "Autentikasi berhasil") = true
  ∧ valid_sessions w_relogged "42" "authenticated"
    = [("42_authenticated_61000",
        mkRow "42" "authenticated" ""
              {[ "authenticated" := JBool true; "loginTime" := JNum 61000 ]}
              (61000 + 24 * 60 * 60 * 1000) 61000)]
  ∧ one_authenticated (sessions (mkWorld ∅ 0 []))
  ∧ one_authenticated (sessions (exec env0 (Authenticate "42" "s3cret") (mkWorld ∅ 0 [])))
  ∧ reachable env0 (exec env0 (Authenticate "42" "s3cret") (mkWorld ∅ 0 []))
  ∧ (length (valid_sessions (exec env0 (Authenticate "42" "s3cret") (mkWorld ∅ 0 []))
                            "42" "authenticated") ≤ 1)%nat.
Proof.
  assert (Hrun : authenticateUser env0 "42" "s3cret" initializeSessionManager w_relogin
                 = (Ok (mkAuthResult true "Autentikasi berhasil"), w_relogged))
    by (vm_compute; reflexivity).
  assert (Hempty : one_authenticated (sessions (mkWorld ∅ 0 []))).
  { intros i j r q Hi. simpl in Hi. rewrite lookup_empty in Hi. discriminate. }
  assert (Hreach : reachable env0 (exec env0 (Authenticate "42" "s3cret") (mkWorld ∅ 0 [])))
    by (apply reachable_step, reachable_start).
  split; [exact Hrun|]. split; [reflexivity|].
  split.
  { destruct (authenticateUser_single_session env0 "42" "s3cret" w_relogin) as (Hs & _).
    destruct (Hs _ _ Hrun eq_refl) as (_ & _ & _ & _ & _ & Hvalid). exact Hvalid. }
  split; [exact Hempty|].
  split.
  { destruct (authenticateUser_single_session env0 "42" "s3cret" (mkWorld ∅ 0 []))
      as (_ & _ & Hop & _).
    apply Hop, Hempty. }
  split; [exact Hreach|].
  destruct (authenticateUser_single_session env0 "42" "s3cret"
              (exec env0 (Authenticate "42" "s3cret") (mkWorld ∅ 0 [])))
    as (_ & _ & _ & Hvalid).
  apply Hvalid, Hreach.
Defined.

(** ** The lockout *)

Lemma Math_ceil_div_is_ceiling (x y : Z) : 0 < y → is_ceiling x y (Math_ceil_div x y).
Proof.
  intros Hy. unfold is_ceiling, Math_ceil_div.
  pose proof (Z.div_mod (- x) y) as Hdiv.
  pose proof (Z.mod_pos_bound (- x) y Hy) as Hmod.
  split; nia.
Qed.

Lemma getSession_world (chat : string) (ty : option string) (w : world) :
  getSession chat ty w = ((getSession chat ty w).1, w).
Proof. rewrite getSession_run. reflexivity. Qed.

Lemma isUserBlocked_no_session (e : env) (chat : string) (w : world) :
  (getSession chat (Some "auth_attempts") w).1 = Ok None →
  isUserBlocked e chat initializeSessionManager w = (Ok (mkBlockStatus false None None), w).
Proof.
  intros Hlook. unfold isUserBlocked, bind. simpl m_getSession.
  rewrite getSession_world, Hlook. reflexivity.
Qed.

Lemma isUserBlocked_session (e : env) (chat : string) (w : world) (s : session) (a : Z) :
  (getSession chat (Some "auth_attempts") w).1 = Ok (Some s) →
  stored_attempts s a →
  isUserBlocked e chat initializeSessionManager w =
    if (maxAttempts e <=? a) && truthy (js_get (s_data s) "blockedUntil") then
      match js_get (s_data s) "blockedUntil" with
      | JVal (JNum b) =>
          if clock w <? b then
            (Ok (mkBlockStatus true (Some (Math_ceil_div (b - clock w) (60 * 1000))) None), w)
          else
            (Ok (mkBlockStatus false None None),
             mkWorld (filter (λ kr, ¬ of_chat_type chat "auth_attempts" kr) (sessions w))
                     (clock w) (sent w))
      | _ => (Throw NotANumber, w)
      end
    else (Ok (mkBlockStatus false None (Some (maxAttempts e - a))), w).
Proof.
  intros Hlook Ha. unfold isUserBlocked. simpl m_getSession.
  unfold bind at 1. rewrite getSession_world, Hlook.
  assert (Hatt : (match js_get (s_data s) "attempts" with
                  | JUndefined => ret 0
                  | v => as_number v
                  end) w = (Ok a, w)).
  { destruct Ha as [->|[-> ->]]; reflexivity. }
  unfold bind at 1. rewrite Hatt.
  destruct ((maxAttempts e <=? a) && truthy (js_get (s_data s) "blockedUntil"));
    [|reflexivity].
  destruct (js_get (s_data s) "blockedUntil") as [|[| | b | | |]]; try reflexivity.
  run_monad. destruct (clock w <? b); reflexivity.
Qed.

(** C3, as the code has it. isUserBlocked reads the auth_attempts session
    the lookup finds for the chat. With [attempts >= maxAttempts] and a
    [blockedUntil] in the future it returns blocked with the ceiling of
    [(blockedUntil - now) / 60000] as the minutes that remain; with such a
    [blockedUntil] in the past it deletes the auth_attempts sessions of the
    chat and returns not blocked; with fewer attempts or no [blockedUntil]
    it returns not blocked with [attemptsLeft = maxAttempts - attempts].
    When the lookup finds no auth_attempts session, as right after a
    successful authenticateUser, it returns not blocked and no
    [attemptsLeft]. *)
Theorem isUserBlocked_cases (e : env) (chat : string) (w : world) :
  let sm := initializeSessionManager in
  let look := (getSession chat (Some "auth_attempts") w).1 in
  (∀ s a b,
     look = Ok (Some s) → stored_attempts s a →
     js_get (s_data s) "blockedUntil" = JVal (JNum b) →
     maxAttempts e <= a → b ≠ 0 → clock w < b →
     ∃ m, isUserBlocked e chat sm w = (Ok (mkBlockStatus true (Some m) None), w)
          ∧ is_ceiling (b - clock w) 60000 m)
  ∧ (∀ s a b,
     look = Ok (Some s) → stored_attempts s a →
     js_get (s_data s) "blockedUntil" = JVal (JNum b) →
     maxAttempts e <= a → b ≠ 0 → b <= clock w →
     isUserBlocked e chat sm w
     = (Ok (mkBlockStatus false None None),
        mkWorld (filter (λ kr, ¬ of_chat_type chat "auth_attempts" kr) (sessions w))
                (clock w) (sent w)))
  ∧ (∀ s a,
     look = Ok (Some s) → stored_attempts s a →
     a < maxAttempts e ∨ truthy (js_get (s_data s) "blockedUntil") = false →
     isUserBlocked e chat sm w
     = (Ok (mkBlockStatus false None (Some (maxAttempts e - a))), w))
  ∧ (look = Ok None →
     isUserBlocked e chat sm w = (Ok (mkBlockStatus false None None), w))
  ∧ (∀ password res w',
     authenticateUser e chat password sm w = (Ok res, w') → success res = true →
     isUserBlocked e chat sm w' = (Ok (mkBlockStatus false None None), w')).
Proof.
  intros sm look. split; [|split; [|split; [|split]]].
  - intros s a b Hlook Ha Hb Hmax Hb0 Hfuture.
    exists (Math_ceil_div (b - clock w) (60 * 1000)). split.
    + unfold sm. rewrite (isUserBlocked_session e chat w s a Hlook Ha), Hb. simpl.
      apply Z.leb_le in Hmax. apply Z.eqb_neq in Hb0. apply Z.ltb_lt in Hfuture.
      rewrite Hmax, Hb0, Hfuture. reflexivity.
    + apply Math_ceil_div_is_ceiling. lia.
  - intros s a b Hlook Ha Hb Hmax Hb0 Hpast.
    unfold sm. rewrite (isUserBlocked_session e chat w s a Hlook Ha), Hb. simpl.
    apply Z.leb_le in Hmax. apply Z.eqb_neq in Hb0. apply Z.ltb_ge in Hpast.
    rewrite Hmax, Hb0, Hpast. reflexivity.
  - intros s a Hlook Ha Hcase.
    unfold sm. rewrite (isUserBlocked_session e chat w s a Hlook Ha).
    destruct Hcase as [Hlt|Hfalsy].
    + apply Z.leb_gt in Hlt. rewrite Hlt. reflexivity.
    + rewrite Hfalsy, andb_false_r. reflexivity.
  - apply isUserBlocked_no_session.
  - intros password res w' Hrun Hok.
    pose proof (authenticateUser_success_clears e chat password w w' res Hrun Hok)
      as Hnone.
    apply isUserBlocked_no_session. rewrite getSession_run. simpl.
    rewrite active_none; [reflexivity|].
    intros j q Hj (Hc & _ & Hq). apply (Hnone j q Hj Hc Hq).
Qed.

Lemma isUserBlocked_cases_witness :
  let sm := initializeSessionManager in
  ((getSession "42" (Some "auth_attempts") w_locked).1
   = Ok (Some (session_of_row "42_auth_attempts_1000" row_locked))
   ∧ stored_attempts (session_of_row "42_auth_attempts_1000" row_locked) 3
   ∧ maxAttempts env0 <= 3 ∧ 1803000 ≠ 0 ∧ clock w_locked < 1803000
   ∧ ∃ m, isUserBlocked env0 "42" sm w_locked = (Ok (mkBlockStatus true (Some m) None), w_locked)
          ∧ is_ceiling (1803000 - clock w_locked) 60000 m)
  ∧ ((getSession "42" (Some "auth_attempts") w_stale).1
     = Ok (Some (session_of_row "42_auth_attempts_1000" row_stale))
     ∧ 63000 <= clock w_stale
     ∧ isUserBlocked env0 "42" sm w_stale
       = (Ok (mkBlockStatus false None None), mkWorld ∅ 70000 []))
  ∧ ((getSession "42" (Some "auth_attempts") w_relogin).1
     = Ok (Some (session_of_row "42_auth_attempts_60000"
                   (mkRow "42" "auth_attempts" ""
                          {[ "attempts" := JNum 1; "lastAttempt" := JNum 60000 ]}
                          960000 60000)))
     ∧ 1 < maxAttempts env0
     ∧ isUserBlocked env0 "42" sm w_relogin
       = (Ok (mkBlockStatus false None (Some (maxAttempts env0 - 1))), w_relogin))
  ∧ ((getSession "42" (Some "auth_attempts") w_logged_in).1 = Ok None
     ∧ isUserBlocked env0 "42" sm w_logged_in
       = (Ok (mkBlockStatus false None None), w_logged_in))
  ∧ (authenticateUser env0 "42" "s3cret" sm w_relogin
     = (Ok (mkAuthResult true "Autentikasi berhasil"), w_relogged)
     ∧ isUserBlocked env0 "42" sm w_relogged
       = (Ok (mkBlockStatus false None None), w_relogged)).
Proof.
  intros sm.
  assert (Hrun : authenticateUser env0 "42" "s3cret" sm w_relogin
                 = (Ok (mkAuthResult true "Autentikasi berhasil"), w_relogged))
    by (vm_compute; reflexivity).
  split; [|split; [|split; [|split]]].
  - split; [vm_compute; reflexivity|]. split; [left; vm_compute; reflexivity|].
    split; [vm_compute; discriminate|]. split; [lia|]. split; [reflexivity|].
    destruct (isUserBlocked_cases env0 "42" w_locked) as (Hblocked & _).
    apply (Hblocked (session_of_row "42_auth_attempts_1000" row_locked) 3 1803000).
    + vm_compute; reflexivity.
    + left; vm_compute; reflexivity.
    + vm_compute; reflexivity.
    + vm_compute; discriminate.
    + lia.
    + reflexivity.
  - split; [vm_compute; reflexivity|]. split; [vm_compute; discriminate|].
    destruct (isUserBlocked_cases env0 "42" w_stale) as (_ & Hstale & _).
    apply (Hstale (session_of_row "42_auth_attempts_1000" row_stale) 3 63000).
    + vm_compute; reflexivity.
    + left; vm_compute; reflexivity.
    + vm_compute; reflexivity.
    + vm_compute; discriminate.
    + lia.
    + vm_compute; discriminate.
  - split; [vm_compute; reflexivity|]. split; [reflexivity|].
    destruct (isUserBlocked_cases env0 "42" w_relogin) as (_ & _ & Hleft & _).
    eapply Hleft.
    + vm_compute; reflexivity.
    + left; vm_compute; reflexivity.
    + left; reflexivity.
  - split; [vm_compute; reflexivity|].
    destruct (isUserBlocked_cases env0 "42" w_logged_in) as (_ & _ & _ & Hnone & _).
    apply Hnone. vm_compute; reflexivity.
  - split; [exact Hrun|].
    destruct (isUserBlocked_cases env0 "42" w_relogin) as (_ & _ & _ & _ & Hafter).
    apply (Hafter "s3cret" _ _ Hrun). reflexivity.
Defined.

(** C3, as stated, fails: right after a successful login isUserBlocked
    returns not blocked and no [attemptsLeft] at all, where the claim has
    [attemptsLeft = maxAttempts]. *)
Lemma isUserBlocked_after_login_no_attemptsLeft :
  authenticateUser env0 "42" "s3cret" initializeSessionManager w_relogin
  = (Ok (mkAuthResult true "Autentikasi berhasil"), w_relogged)
  ∧ isUserBlocked env0 "42" initializeSessionManager w_relogged
    = (Ok (mkBlockStatus false None None), w_relogged)
  ∧ attemptsLeft (mkBlockStatus false None None) ≠ Some (maxAttempts env0).
Proof.
  split; [vm_compute; reflexivity|]. split; [vm_compute; reflexivity|]. discriminate.
Qed.

(** C4, as the code has it. While the chat is locked out (the lookup
    finds an auth_attempts session with [attempts >= maxAttempts] and a
    [blockedUntil] in the future), the password handler does not call
    authenticateUser, whatever the password: it deletes the session it was
    given (the login session), tells the user how long the lockout lasts,
    and leaves every other row as it is, so no authenticated session is
    created and the lockout stays. *)
Theorem handlePasswordInput_locked_out (e : env) (chat text : string)
    (login attempts : session) (a b : Z) (w : world) :
  let sm := initializeSessionManager in
  text ≠ "" →
  (getSession chat (Some "auth_attempts") w).1 = Ok (Some attempts) →
  stored_attempts attempts a →
  js_get (s_data attempts) "blockedUntil" = JVal (JNum b) →
  maxAttempts e <= a → b ≠ 0 → clock w < b →
  ∃ w',
    handlePasswordInput e chat text login sm w = (Ok tt, w')
    ∧ sessions w' = delete (s_id login) (sessions w)
    ∧ sent w' = sent w ++ [BlockedFor (Math_ceil_div (b - clock w) (60 * 1000))]
    ∧ (∀ j q, sessions w' !! j = Some q → sessions w !! j = Some q)
    ∧ (∀ j, j ≠ s_id login → sessions w' !! j = sessions w !! j).
Proof.
  intros sm Htext Hlook Ha Hb Hmax Hb0 Hfuture.
  eexists. split; [|split; [|split; [|split]]].
  - unfold handlePasswordInput. apply String.eqb_neq in Htext. rewrite Htext.
    unfold bind at 1. unfold sm.
    rewrite (isUserBlocked_session e chat w attempts a Hlook Ha), Hb. simpl.
    apply Z.leb_le in Hmax. apply Z.eqb_neq in Hb0. apply Z.ltb_lt in Hfuture.
    rewrite Hmax, Hb0, Hfuture. simpl. reflexivity.
  - reflexivity.
  - reflexivity.
  - simpl. intros j q Hj. apply lookup_delete_Some in Hj as [_ Hj]. exact Hj.
  - simpl. intros j Hne. apply lookup_delete_ne. congruence.
Qed.

Lemma handlePasswordInput_locked_out_witness :
  "s3cret" ≠ ""
  ∧ (getSession "42" (Some "auth_attempts") w_locked).1
    = Ok (Some (session_of_row "42_auth_attempts_1000" row_locked))
  ∧ stored_attempts (session_of_row "42_auth_attempts_1000" row_locked) 3
  ∧ maxAttempts env0 <= 3 ∧ 1803000 ≠ 0 ∧ clock w_locked < 1803000
  ∧ ∃ w',
      handlePasswordInput env0 "42" "s3cret" session_login initializeSessionManager w_locked
      = (Ok tt, w')
      ∧ sessions w' = delete "42_login_4000" (sessions w_locked)
      ∧ sent w' = [BlockedFor 30]
      ∧ sessions w' !! "42_auth_attempts_1000" = Some row_locked.
Proof.
  split; [discriminate|]. split; [vm_compute; reflexivity|].
  split; [left; vm_compute; reflexivity|].
  split; [vm_compute; discriminate|]. split; [lia|]. split; [reflexivity|].
  destruct (handlePasswordInput_locked_out env0 "42" "s3cret" session_login
              (session_of_row "42_auth_attempts_1000" row_locked) 3 1803000 w_locked)
    as (w' & Hrun & Htable & Hsent & _ & Hother).
  - discriminate.
  - vm_compute; reflexivity.
  - left; vm_compute; reflexivity.
  - vm_compute; reflexivity.
  - vm_compute; discriminate.
  - lia.
  - reflexivity.
  - exists w'. split; [exact Hrun|]. split; [exact Htable|]. split; [exact Hsent|].
    rewrite Hother; [reflexivity | discriminate].
Defined.

(** C4, as stated, fails: authenticateUser does not look at the lockout.
    Called with the configured password for the locked-out chat 42, it
    succeeds, deletes the auth_attempts session and creates the
    authenticated session. *)
Lemma authenticateUser_ignores_lockout :
  (∃ m, isUserBlocked env0 "42" initializeSessionManager w_locked
        = (Ok (mkBlockStatus true (Some m) None), w_locked))
  ∧ (authenticateUser env0 "42" "s3cret" initializeSessionManager w_locked).1
    = Ok (mkAuthResult true "Autentikasi berhasil")
  ∧ sessions (after (authenticateUser env0 "42" "s3cret" initializeSessionManager) w_locked)
      !! "42_auth_attempts_1000" = None
  ∧ r_type <$> sessions (after (authenticateUser env0 "42" "s3cret" initializeSessionManager)
                               w_locked) !! "42_authenticated_5000"
    = Some "authenticated"
  ∧ (isUserAuthenticated "42" initializeSessionManager
       (after (authenticateUser env0 "42" "s3cret" initializeSessionManager) w_locked)).1
    = Ok true.
Proof.
  split; [eexists; vm_compute; reflexivity|].
  repeat split; vm_compute; reflexivity.
Qed.

(** ** Counting failed attempts *)

Lemma getSession_attempts_none (chat : string) (w : world) :
  (∀ j q, sessions w !! j = Some q → ¬ of_chat_type chat "auth_attempts" (j, q)) →
  getSession chat (Some "auth_attempts") w = (Ok None, w).
Proof.
  intros Hnone. rewrite getSession_run. simpl.
  rewrite active_none; [reflexivity|].
  intros j q Hj (Hc & _ & Hq). apply (Hnone j q Hj). split; assumption.
Qed.

Lemma getSession_attempts_only (chat id : string) (r : row) (t : gmap string row) (w : world) :
  sessions w = <[id := r]> t →
  (∀ j q, t !! j = Some q → ¬ of_chat_type chat "auth_attempts" (j, q)) →
  r_chatId r = chat → r_type r = "auth_attempts" → clock w < r_expires r →
  getSession chat (Some "auth_attempts") w = (Ok (Some (session_of_row id r)), w).
Proof.
  intros Htab Hnone Hc Hty Hexp. rewrite getSession_run. simpl.
  rewrite (active_unique chat (clock w) (Some "auth_attempts") (sessions w) id r);
    [reflexivity | | |].
  - rewrite Htab. apply lookup_insert_eq.
  - unfold active_for. simpl. auto.
  - intros j q Hj (Hcq & _ & Hq). rewrite Htab in Hj.
    apply lookup_insert_Some in Hj as [[<- _]|[_ Hj]]; [reflexivity|].
    exfalso. apply (Hnone j q Hj). split; assumption.
Qed.

(** The first failure creates the counter. *)
Lemma trackFailedAttempt_first (e : env) (chat : string) (w : world) :
  let id := session_id chat "auth_attempts" (clock w) in
  (∀ j q, sessions w !! j = Some q → ¬ of_chat_type chat "auth_attempts" (j, q)) →
  sessions w !! id = None →
  trackFailedAttempt e chat initializeSessionManager w =
    (Ok tt,
     mkWorld (<[id := mkRow chat "auth_attempts" ""
                            {[ "attempts" := JNum 1; "lastAttempt" := JNum (clock w) ]}
                            (clock w + 15 * 60 * 1000) (clock w)]> (sessions w))
             (clock w) (sent w)).
Proof.
  intros id Hnone Hfresh. unfold trackFailedAttempt. simpl m_getSession.
  unfold bind at 1. rewrite (getSession_attempts_none chat w Hnone).
  simpl m_createSession. unfold bind at 1. unfold Date_now at 1.
  unfold bind at 1. rewrite createSession_run. fold id. rewrite Hfresh.
  reflexivity.
Qed.

(** A later failure, while the counter is still active, adds one to it,
    and stamps [blockedUntil] when the count reaches [maxAttempts]. *)
Lemma trackFailedAttempt_next (e : env) (chat id : string) (r : row) (n : Z)
    (t : gmap string row) (w : world) :
  sessions w = <[id := r]> t →
  (∀ j q, t !! j = Some q → ¬ of_chat_type chat "auth_attempts" (j, q)) →
  r_chatId r = chat → r_type r = "auth_attempts" → clock w < r_expires r →
  r_data r !! "attempts" = Some (JNum n) →
  ∃ r',
    trackFailedAttempt e chat initializeSessionManager w
    = (Ok tt, mkWorld (<[id := r']> t) (clock w) (sent w))
    ∧ r_chatId r' = chat ∧ r_type r' = "auth_attempts"
    ∧ r_expires r' = r_expires r ∧ r_createdAt r' = r_createdAt r
    ∧ r_data r' !! "attempts" = Some (JNum (n + 1))
    ∧ r_data r' !! "lastAttempt" = Some (JNum (clock w))
    ∧ r_data r' !! "blockedUntil"
      = (if maxAttempts e <=? n + 1
         then Some (JNum (clock w + timeoutMinutes e * 60 * 1000))
         else None).
Proof.
  intros Htab Hnone Hc Hty Hexp Hn.
  assert (Hid : sessions w !! id = Some r) by (rewrite Htab; apply lookup_insert_eq).
  unfold trackFailedAttempt. simpl m_getSession. simpl m_updateSession.
  unfold bind at 1.
  rewrite (getSession_attempts_only chat id r t w Htab Hnone Hc Hty Hexp).
  cbv beta iota. simpl s_data. simpl s_id.
  rewrite js_get_parse, Hn. simpl from_option.
  assert (Hprev : (if truthy (JVal (JNum n)) then as_number (JVal (JNum n)) else ret 0) w
                  = (Ok n, w)).
  { simpl. destruct (Z.eqb_spec n 0) as [->|_]; reflexivity. }
  unfold bind at 1. rewrite Hprev. cbv beta iota.
  unfold bind at 1. unfold Date_now at 1. cbv beta iota.
  unfold bind at 1. unfold Date_now at 1. cbv beta iota.
  set (u := mkUpdates _ _).
  destruct (updateSession_found w id r u Hid)
    as (s & Hrun & _ & _ & _ & Hst & Hdata & _).
  unfold bind at 1. rewrite Hrun. cbv beta iota.
  rewrite Htab, insert_insert_eq.
  eexists. split; [reflexivity|]. simpl.
  rewrite Hdata. unfold u. simpl u_data.
  repeat split; try assumption.
  - rewrite lookup_JSON_stringify, lookup_spread. reflexivity.
  - rewrite lookup_JSON_stringify, lookup_spread. reflexivity.
  - rewrite lookup_JSON_stringify, lookup_spread.
    rewrite lookup_insert_ne by discriminate.
    rewrite lookup_insert_ne by discriminate.
    rewrite lookup_singleton_eq. simpl.
    destruct (maxAttempts e <=? n + 1); reflexivity.
Qed.

Lemma authenticateUser_wrong_password (e : env) (chat password correct : string) (w : world) :
  BOT_PASSWORD e = Some correct → correct ≠ "" → password ≠ correct →
  authenticateUser e chat password initializeSessionManager w =
    match trackFailedAttempt e chat initializeSessionManager w with
    | (Ok _, w') => (Ok (mkAuthResult false "Password salah"), w')
    | (Throw err, w') => (Throw err, w')
    end.
Proof.
  intros Hpw Hne Hbad. rewrite authenticateUser_run, Hpw.
  apply String.eqb_neq in Hne, Hbad. rewrite Hne, Hbad. reflexivity.
Qed.

(** C6, as the code has it. Let [maxAttempts] be 3 and let the chat start
    with no auth_attempts session. The first wrong password creates the
    auth_attempts session with count 1. As long as that session has not
    expired (it lives 15 minutes from the first failure), the second wrong
    password raises the count on the same row to 2 and leaves no
    [blockedUntil], the third raises it to 3 and stamps
    [blockedUntil = now + timeoutMinutes * 60000] on that row, and
    isUserBlocked, asked before the session expires and before
    [blockedUntil], returns blocked with the minutes that remain. *)
Theorem three_failures_block (e : env) (chat bad correct : string) (w0 : world)
    (d1 d2 d3 : Z) :
  let sm := initializeSessionManager in
  let fail := authenticateUser e chat bad sm in
  let id := session_id chat "auth_attempts" (clock w0) in
  let w1 := after fail w0 in
  let w2 := after fail (advance d1 w1) in
  let w3 := after fail (advance d2 w2) in
  let w4 := advance d3 w3 in
  maxAttempts e = 3 →
  BOT_PASSWORD e = Some correct → correct ≠ "" → bad ≠ correct →
  (∀ j q, sessions w0 !! j = Some q → ¬ of_chat_type chat "auth_attempts" (j, q)) →
  sessions w0 !! id = None →
  0 <= clock w0 →
  0 <= d1 → 0 <= d2 → 0 <= d3 →
  d1 + d2 + d3 < 15 * 60 * 1000 →
  d3 < timeoutMinutes e * 60 * 1000 →
  ∃ r2 r3 m,
    (fail w0).1 = Ok (mkAuthResult false "Password salah")
    ∧ sessions w1
      = <[id := mkRow chat "auth_attempts" ""
                      {[ "attempts" := JNum 1; "lastAttempt" := JNum (clock w0) ]}
                      (clock w0 + 15 * 60 * 1000) (clock w0)]> (sessions w0)
    ∧ (fail (advance d1 w1)).1 = Ok (mkAuthResult false "Password salah")
    ∧ sessions w2 = <[id := r2]> (sessions w0)
    ∧ r_data r2 !! "attempts" = Some (JNum 2)
    ∧ r_data r2 !! "blockedUntil" = None
    ∧ (fail (advance d2 w2)).1 = Ok (mkAuthResult false "Password salah")
    ∧ sessions w3 = <[id := r3]> (sessions w0)
    ∧ r_data r3 !! "attempts" = Some (JNum 3)
    ∧ r_data r3 !! "blockedUntil"
      = Some (JNum (clock w0 + d1 + d2 + timeoutMinutes e * 60 * 1000))
    ∧ isUserBlocked e chat sm w4 = (Ok (mkBlockStatus true (Some m) None), w4)
    ∧ is_ceiling (timeoutMinutes e * 60 * 1000 - d3) 60000 m.
Proof.
  intros sm fail id w1 w2 w3 w4 Hmax Hpw Hne Hbad Hnone Hfresh Hnow Hd1 Hd2 Hd3
    Hlive Hlock.
  (* first failure *)
  assert (H1 : fail w0 =
            (Ok (mkAuthResult false "Password salah"),
             mkWorld (<[id := mkRow chat "auth_attempts" ""
                          {[ "attempts" := JNum 1; "lastAttempt" := JNum (clock w0) ]}
                          (clock w0 + 15 * 60 * 1000) (clock w0)]> (sessions w0))
                     (clock w0) (sent w0))).
  { unfold fail, sm.
    rewrite (authenticateUser_wrong_password e chat bad correct w0 Hpw Hne Hbad).
    rewrite (trackFailedAttempt_first e chat w0 Hnone Hfresh). reflexivity. }
  assert (Hw1 : w1 = (fail w0).2) by reflexivity. rewrite H1 in Hw1. simpl in Hw1.
  (* second failure *)
  assert (Htab1 : sessions (advance d1 w1)
                  = <[id := mkRow chat "auth_attempts" ""
                                  {[ "attempts" := JNum 1; "lastAttempt" := JNum (clock w0) ]}
                                  (clock w0 + 15 * 60 * 1000) (clock w0)]> (sessions w0))
    by (rewrite Hw1; reflexivity).
  assert (Hlive1 : clock (advance d1 w1) < clock w0 + 15 * 60 * 1000)
    by (rewrite Hw1; simpl; lia).
  destruct (trackFailedAttempt_next e chat id _ 1 (sessions w0) (advance d1 w1)
              Htab1 Hnone eq_refl eq_refl Hlive1 eq_refl)
    as (r2 & Hrun2 & Hc2 & Hty2 & Hexp2 & _ & Hatt2 & _ & Hblk2).
  assert (H2 : fail (advance d1 w1) =
            (Ok (mkAuthResult false "Password salah"),
             mkWorld (<[id := r2]> (sessions w0)) (clock (advance d1 w1))
                     (sent (advance d1 w1)))).
  { unfold fail, sm.
    rewrite (authenticateUser_wrong_password e chat bad correct _ Hpw Hne Hbad).
    rewrite Hrun2. reflexivity. }
  assert (Hw2 : w2 = (fail (advance d1 w1)).2) by reflexivity.
  rewrite H2 in Hw2. simpl in Hw2.
  (* third failure *)
  assert (Htab2 : sessions (advance d2 w2) = <[id := r2]> (sessions w0))
    by (rewrite Hw2; reflexivity).
  assert (Hlive2 : clock (advance d2 w2) < r_expires r2)
    by (rewrite Hw2, Hw1, Hexp2; simpl; lia).
  destruct (trackFailedAttempt_next e chat id r2 2 (sessions w0) (advance d2 w2)
              Htab2 Hnone Hc2 Hty2 Hlive2 Hatt2)
    as (r3 & Hrun3 & Hc3 & Hty3 & Hexp3 & _ & Hatt3 & _ & Hblk3).
  assert (H3 : fail (advance d2 w2) =
            (Ok (mkAuthResult false "Password salah"),
             mkWorld (<[id := r3]> (sessions w0)) (clock (advance d2 w2))
                     (sent (advance d2 w2)))).
  { unfold fail, sm.
    rewrite (authenticateUser_wrong_password e chat bad correct _ Hpw Hne Hbad).
    rewrite Hrun3. reflexivity. }
  assert (Hw3 : w3 = (fail (advance d2 w2)).2) by reflexivity.
  rewrite H3 in Hw3. simpl in Hw3.
  assert (Hclock2 : clock (advance d2 w2) = clock w0 + d1 + d2)
    by (rewrite Hw2, Hw1; reflexivity).
  rewrite Hclock2, Hmax in Hblk3. rewrite Hmax in Hblk2.
  change (1 + 1) with 2 in Hblk2. change (2 + 1) with 3 in Hblk3.
  change (3 <=? 2) with false in Hblk2. change (3 <=? 3) with true in Hblk3.
  cbv beta iota in Hblk2, Hblk3.
  (* the check *)
  assert (Hclock4 : clock w4 = clock w0 + d1 + d2 + d3).
  { unfold w4. rewrite Hw3, Hw2, Hw1. reflexivity. }
  assert (Hlook : getSession chat (Some "auth_attempts") w4
                  = (Ok (Some (session_of_row id r3)), w4)).
  { apply (getSession_attempts_only chat id r3 (sessions w0)); try assumption.
    - unfold w4. rewrite Hw3. reflexivity.
    - rewrite Hclock4, Hexp3, Hexp2. simpl. lia. }
  assert (Hcount : stored_attempts (session_of_row id r3) 3).
  { left. simpl. rewrite js_get_parse, Hatt3. reflexivity. }
  assert (Hlook1 : (getSession chat (Some "auth_attempts") w4).1
                   = Ok (Some (session_of_row id r3))) by (rewrite Hlook; reflexivity).
  exists r2, r3,
    (Math_ceil_div (clock w0 + d1 + d2 + timeoutMinutes e * 60 * 1000 - clock w4)
                   (60 * 1000)).
  split; [rewrite H1; reflexivity|].
  split; [rewrite Hw1; reflexivity|].
  split; [rewrite H2; reflexivity|].
  split; [rewrite Hw2; reflexivity|].
  split; [exact Hatt2|]. split; [exact Hblk2|].
  split; [rewrite H3; reflexivity|].
  split; [rewrite Hw3; reflexivity|].
  split; [exact Hatt3|]. split; [exact Hblk3|].
  split.
  - unfold sm. rewrite (isUserBlocked_session e chat w4 _ 3 Hlook1 Hcount).
    simpl s_data. rewrite js_get_parse, Hblk3. simpl from_option.
    rewrite Hmax. change (3 <=? 3) with true. unfold truthy.
    assert (Hlt : (clock w4 <? clock w0 + d1 + d2 + timeoutMinutes e * 60 * 1000) = true)
      by (apply Z.ltb_lt; lia).
    assert (Hnz : (clock w0 + d1 + d2 + timeoutMinutes e * 60 * 1000 =? 0) = false).
    { apply Z.eqb_neq. lia. }
    rewrite Hnz, Hlt. reflexivity.
  - rewrite Hclock4.
    replace (clock w0 + d1 + d2 + timeoutMinutes e * 60 * 1000 - (clock w0 + d1 + d2 + d3))
      with (timeoutMinutes e * 60 * 1000 - d3) by lia.
    apply Math_ceil_div_is_ceiling. lia.
Qed.

Lemma three_failures_block_witness :
  let sm := initializeSessionManager in
  let fail := authenticateUser env0 "42" "wrong" sm in
  let w0 := mkWorld ∅ 1000 [] in
  let w4 := advance 5000 (after fail (advance 2000 (after fail (advance 1000 (after fail w0))))) in
  maxAttempts env0 = 3
  ∧ BOT_PASSWORD env0 = Some "s3cret" ∧ "s3cret" ≠ "" ∧ "wrong" ≠ "s3cret"
  ∧ (∀ j q, sessions w0 !! j = Some q → ¬ of_chat_type "42" "auth_attempts" (j, q))
  ∧ sessions w0 !! session_id "42" "auth_attempts" (clock w0) = None
  ∧ 0 <= clock w0 ∧ 0 <= 1000 ∧ 0 <= 2000 ∧ 0 <= 5000
  ∧ 1000 + 2000 + 5000 < 15 * 60 * 1000
  ∧ 5000 < timeoutMinutes env0 * 60 * 1000
  ∧ isUserBlocked env0 "42" sm w4 = (Ok (mkBlockStatus true (Some 30) None), w4).
Proof.
  intros sm fail w0 w4.
  assert (Hnone : ∀ j q, sessions w0 !! j = Some q →
                         ¬ of_chat_type "42" "auth_attempts" (j, q)).
  { intros j q Hj. simpl in Hj. rewrite lookup_empty in Hj. discriminate. }
  split; [reflexivity|]. split; [reflexivity|]. split; [discriminate|].
  split; [discriminate|]. split; [exact Hnone|]. split; [reflexivity|].
  split; [simpl; lia|]. split; [lia|]. split; [lia|]. split; [lia|].
  split; [lia|]. split; [reflexivity|].
  assert (Hpw : "s3cret" ≠ "") by discriminate.
  assert (Hbad : "wrong" ≠ "s3cret") by discriminate.
  assert (Hnow : 0 <= clock w0) by (simpl; lia).
  assert (Hlive : 1000 + 2000 + 5000 < 15 * 60 * 1000) by lia.
  assert (Hlock : 5000 < timeoutMinutes env0 * 60 * 1000) by reflexivity.
  destruct (three_failures_block env0 "42" "wrong" "s3cret" w0 1000 2000 5000
              eq_refl eq_refl Hpw Hbad Hnone eq_refl Hnow
              ltac:(lia) ltac:(lia) ltac:(lia) Hlive Hlock)
    as (r2 & r3 & m & _ & _ & _ & _ & _ & _ & _ & _ & _ & _ & Hblocked & Hceil).
  assert (m = 30) as ->.
  { unfold is_ceiling in Hceil. change (timeoutMinutes env0) with 30 in Hceil. lia. }
  exact Hblocked.
Defined.

(** C6, as stated, fails: three wrong passwords in a row that are 16
    minutes apart do not lock the chat out. The counter of the first
    failure has expired at the second, which starts a new counter at 1
    (whether the cleanup job has removed the old row in between or not),
    and so on; after the third failure isUserBlocked returns not blocked
    with two attempts left. *)
Lemma three_spaced_failures_do_not_block :
  let sm := initializeSessionManager in
  let fail := authenticateUser env0 "42" "wrong" sm in
  let w0 := mkWorld ∅ 1000 [] in
  let w1 := after fail w0 in
  let w2 := after fail (advance 960000 w1) in
  let w3 := after fail (advance 960000 w2) in
  let v2 := after fail (after sessionCleanup (advance 960000 w1)) in
  let v3 := after fail (after sessionCleanup (advance 960000 v2)) in
  maxAttempts env0 = 3
  ∧ sessions w0 = ∅
  ∧ (fail w0).1 = Ok (mkAuthResult false "Password salah")
  ∧ (fail (advance 960000 w1)).1 = Ok (mkAuthResult false "Password salah")
  ∧ (fail (advance 960000 w2)).1 = Ok (mkAuthResult false "Password salah")
  ∧ isUserBlocked env0 "42" sm w3 = (Ok (mkBlockStatus false None (Some 2)), w3)
  ∧ size (sessions w3) = 3%nat
  ∧ isUserBlocked env0 "42" sm v3 = (Ok (mkBlockStatus false None (Some 2)), v3)
  ∧ sessions v3
    = {[ "42_auth_attempts_1921000" :=
           mkRow "42" "auth_attempts" ""
                 {[ "attempts" := JNum 1; "lastAttempt" := JNum 1921000 ]}
                 2821000 1921000 ]}.
Proof. repeat split; vm_compute; reflexivity. Qed.

(** C10. A key that the data of an updateSession call binds to undefined
    has no entry in the stored data afterwards, whatever was stored for it
    before. The attempt counter relies on it: while the new count is below
    [maxAttempts], trackFailedAttempt writes [blockedUntil: undefined], and
    the stored counter has no [blockedUntil] afterwards, also when it had
    one before. *)
Theorem updateSession_undefined_removes_key :
  (∀ (w : world) (id : string) (r : row) (st : option string) (U : object) (k : string),
     sessions w !! id = Some r →
     U !! k = Some JUndefined →
     ∃ r',
       sessions (after (updateSession id (mkUpdates st (Some U))) w) !! id = Some r'
       ∧ r_data r' !! k = None)
  ∧ (∀ (e : env) (chat id : string) (r : row) (n : Z) (t : gmap string row) (w : world),
       sessions w = <[id := r]> t →
       (∀ j q, t !! j = Some q → ¬ of_chat_type chat "auth_attempts" (j, q)) →
       r_chatId r = chat → r_type r = "auth_attempts" → clock w < r_expires r →
       r_data r !! "attempts" = Some (JNum n) →
       n + 1 < maxAttempts e →
       ∃ r',
         sessions (after (trackFailedAttempt e chat initializeSessionManager) w) !! id
         = Some r'
         ∧ r_data r' !! "attempts" = Some (JNum (n + 1))
         ∧ r_data r' !! "blockedUntil" = None).
Proof.
  split.
  - intros w id r st U k Hid Hk.
    destruct (updateSession_found w id r (mkUpdates st (Some U)) Hid)
      as (s & Hrun & _ & _ & _ & _ & Hdata & _).
    unfold after. rewrite Hrun. simpl in *.
    eexists. split; [apply lookup_insert_eq|]. simpl.
    rewrite Hdata, lookup_JSON_stringify, lookup_spread, Hk. reflexivity.
  - intros e chat id r n t w Htab Hnone Hc Hty Hexp Hn Hbelow.
    destruct (trackFailedAttempt_next e chat id r n t w Htab Hnone Hc Hty Hexp Hn)
      as (r' & Hrun & _ & _ & _ & _ & Hatt & _ & Hblk).
    exists r'. unfold after. rewrite Hrun. simpl.
    split; [apply lookup_insert_eq|]. split; [exact Hatt|].
    rewrite Hblk. apply Z.leb_gt in Hbelow. rewrite Hbelow. reflexivity.
Qed.

Lemma updateSession_undefined_removes_key_witness :
  (sessions w_flow !! "42_add_wallet_1000" = Some row_flow
   ∧ ({[ "walletCode" := JUndefined ]} : object) !! "walletCode" = Some JUndefined
   ∧ ∃ r',
       sessions (after (updateSession "42_add_wallet_1000"
                          (mkUpdates None (Some {[ "walletCode" := JUndefined ]})))
                       w_flow) !! "42_add_wallet_1000" = Some r'
       ∧ r_data r' !! "walletCode" = None)
  ∧ (sessions w_stale = <[ "42_auth_attempts_1000" := row_stale ]> ∅
     ∧ clock w_stale < r_expires row_stale
     ∧ r_data row_stale !! "attempts" = Some (JNum 3)
     ∧ r_data row_stale !! "blockedUntil" = Some (JNum 63000)
     ∧ 3 + 1 < maxAttempts (mkEnv (Some "s3cret") (Some 5) None)
     ∧ ∃ r',
         sessions (after (trackFailedAttempt (mkEnv (Some "s3cret") (Some 5) None) "42"
                            initializeSessionManager) w_stale)
           !! "42_auth_attempts_1000" = Some r'
         ∧ r_data r' !! "attempts" = Some (JNum (3 + 1))
         ∧ r_data r' !! "blockedUntil" = None).
Proof.
  destruct updateSession_undefined_removes_key as (Hupdate & Htrack).
  split.
  - split; [reflexivity|]. split; [reflexivity|].
    apply (Hupdate w_flow "42_add_wallet_1000" row_flow None
             {[ "walletCode" := JUndefined ]} "walletCode"); reflexivity.
  - split; [reflexivity|]. split; [reflexivity|]. split; [reflexivity|].
    split; [reflexivity|]. split; [reflexivity|].
    apply (Htrack (mkEnv (Some "s3cret") (Some 5) None) "42" "42_auth_attempts_1000"
             row_stale 3 ∅ w_stale); try reflexivity.
    intros j q Hj. rewrite lookup_empty in Hj. discriminate.
Defined.

(** * More of the session manager *)

(** The row that is strictly the most recent of a list is the one picked. *)
Lemma newest_strict (l : list (string * row)) (x : string * row) :
  x ∈ l →
  (∀ y, y ∈ l → y = x ∨ r_createdAt y.2 < r_createdAt x.2) →
  newest l = Some x.
Proof.
  intros Hx Hmax. destruct (newest l) as [z|] eqn:Hz.
  - pose proof (newest_elem l z Hz) as Hzl.
    pose proof (newest_greatest l z x Hz Hx) as Hle.
    destruct (Hmax z Hzl) as [->|Hlt]; [reflexivity | lia].
  - apply newest_nil in Hz. subst l. inversion Hx.
Qed.

(** X1. A session that has just been created is the one the lookup
    returns for its chat, with or without its type, when the active rows
    the chat had are older: it has the empty state, the data that were
    given (without the keys bound to undefined) and 15 minutes to live. *)
Theorem createSession_then_getSession (chat ty : string) (data : object) (w : world) :
  let id := session_id chat ty (clock w) in
  let created := mkRow chat ty "" (JSON_stringify data) (clock w + 15 * 60 * 1000) (clock w) in
  sessions w !! id = None →
  (∀ j q, sessions w !! j = Some q → r_chatId q = chat → clock w < r_expires q →
          r_createdAt q < clock w) →
  ∃ w',
    createSession chat ty data w
    = (Ok (mkSession id chat ty "" data (clock w + 15 * 60 * 1000) (clock w)), w')
    ∧ sessions w' = <[id := created]> (sessions w)
    ∧ getSession chat None w' = (Ok (Some (session_of_row id created)), w')
    ∧ getSession chat (Some ty) w' = (Ok (Some (session_of_row id created)), w').
Proof.
  intros id created Hfresh Holder.
  exists (mkWorld (<[id := created]> (sessions w)) (clock w) (sent w)).
  split; [rewrite createSession_run; fold id; rewrite Hfresh; reflexivity|].
  split; [reflexivity|].
  assert (Hpick : ∀ f : option string,
            match f with Some t => ty = t | None => True end →
            newest (filter (active_for chat (clock w) f)
                      (map_to_list (<[id := created]> (sessions w))))
            = Some (id, created)).
  { intros f Hf. apply newest_strict.
    - apply elem_of_active. split; [apply lookup_insert_eq|]. simpl.
      split; [reflexivity|]. split; [lia|]. destruct f; [exact Hf | exact I].
    - intros [j q] Hj. apply elem_of_active in Hj as (Hj & Hc & Hexp & _).
      apply lookup_insert_Some in Hj as [[<- <-]|[_ Hj]]; [left; reflexivity|].
      right. simpl. apply (Holder j q Hj Hc Hexp). }
  split.
  - rewrite getSession_run. cbn [sessions clock type_filter].
    rewrite (Hpick None I). reflexivity.
  - rewrite getSession_run. cbn [sessions clock]. unfold type_filter.
    destruct (String.eqb ty "").
    + rewrite (Hpick None I). reflexivity.
    + rewrite (Hpick (Some ty) eq_refl). reflexivity.
Qed.

Lemma createSession_then_getSession_witness :
  sessions w_logged_in !! session_id "42" "add_wallet" (clock w_logged_in) = None
  ∧ (∀ j q, sessions w_logged_in !! j = Some q → r_chatId q = "42" →
            clock w_logged_in < r_expires q → r_createdAt q < clock w_logged_in)
  ∧ ∃ w',
      createSession "42" "add_wallet" {[ "walletCode" := JVal (JStr "DANA") ]} w_logged_in
      = (Ok (mkSession "42_add_wallet_61000" "42" "add_wallet" ""
               {[ "walletCode" := JVal (JStr "DANA") ]} 961000 61000), w')
      ∧ (getSession "42" None w').1
        = Ok (Some (mkSession "42_add_wallet_61000" "42" "add_wallet" ""
                      {[ "walletCode" := JVal (JStr "DANA") ]} 961000 61000)).
Proof.
  assert (Holder : ∀ j q, sessions w_logged_in !! j = Some q → r_chatId q = "42" →
                     clock w_logged_in < r_expires q → r_createdAt q < clock w_logged_in).
  { intros j q Hj _ _. unfold w_logged_in in Hj. simpl in Hj.
    apply lookup_singleton_Some in Hj as [_ <-]. reflexivity. }
  split; [reflexivity|]. split; [exact Holder|].
  destruct (createSession_then_getSession "42" "add_wallet"
              {[ "walletCode" := JVal (JStr "DANA") ]} w_logged_in eq_refl Holder)
    as (w' & Hrun & _ & Hget & _).
  exists w'. split; [exact Hrun|]. rewrite Hget. reflexivity.
Defined.

(** X2. The id of a session is made of the chat, the type and the time
    in milliseconds: creating a second session of the same type for the
    same chat within the same millisecond fails on the primary key, and
    the failed call leaves the table as it was. *)
Theorem createSession_twice_fails (chat ty : string) (d1 d2 : object) (w w1 : world)
    (s : session) :
  createSession chat ty d1 w = (Ok s, w1) →
  createSession chat ty d2 w1 = (Throw SQLITE_CONSTRAINT, w1).
Proof.
  intros Hrun. rewrite createSession_run in Hrun.
  destruct (sessions w !! session_id chat ty (clock w)) eqn:Hid; [discriminate|].
  injection Hrun as _ <-. rewrite createSession_run. simpl.
  rewrite lookup_insert_eq. reflexivity.
Qed.

Lemma createSession_twice_fails_witness :
  let s := mkSession "42_login_1000" "42" "login" "" ∅ 901000 1000 in
  let w1 := mkWorld {[ "42_login_1000" := mkRow "42" "login" "" ∅ 901000 1000 ]} 1000 [] in
  createSession "42" "login" ∅ (mkWorld ∅ 1000 []) = (Ok s, w1)
  ∧ createSession "42" "login" ∅ w1 = (Throw SQLITE_CONSTRAINT, w1).
Proof.
  intros s w1.
  assert (Hrun : createSession "42" "login" ∅ (mkWorld ∅ 1000 []) = (Ok s, w1))
    by (vm_compute; reflexivity).
  split; [exact Hrun|].
  exact (createSession_twice_fails "42" "login" ∅ ∅ _ w1 s Hrun).
Defined.

(** X3. deleteSession answers whether a row with the id was there, removes
    that row and no other, and is idempotent: a second call answers false
    and changes nothing. *)
Theorem deleteSession_once (id : string) (w : world) :
  let w1 := after (deleteSession id) w in
  ((deleteSession id w).1 = Ok true ↔ is_Some (sessions w !! id))
  ∧ ((deleteSession id w).1 = Ok false ↔ sessions w !! id = None)
  ∧ sessions w1 !! id = None
  ∧ (∀ j, j ≠ id → sessions w1 !! j = sessions w !! j)
  ∧ deleteSession id w1 = (Ok false, w1).
Proof.
  intros w1. unfold w1, after. rewrite !deleteSession_run. simpl.
  split; [|split; [|split; [|split]]].
  - destruct (sessions w !! id) as [r|] eqn:Hid.
    + rewrite bool_decide_eq_true_2 by eauto. split; eauto.
    + rewrite bool_decide_eq_false_2 by (intros [? ?]; discriminate).
      split; [discriminate | intros [? ?]; discriminate].
  - destruct (sessions w !! id) as [r|] eqn:Hid.
    + rewrite bool_decide_eq_true_2 by eauto. split; discriminate.
    + rewrite bool_decide_eq_false_2 by (intros [? ?]; discriminate). split; reflexivity.
  - apply lookup_delete_eq.
  - intros j Hne. apply lookup_delete_ne. congruence.
  - rewrite lookup_delete_eq.
    rewrite bool_decide_eq_false_2 by (intros [? ?]; discriminate).
    rewrite delete_delete_eq. reflexivity.
Qed.

(** X4. deleteSessionsByType removes exactly the rows of the chat that
    have the type, answers whether there was one, and leaves every other
    row as it is; called again it answers false and changes nothing. *)
Theorem deleteSessionsByType_exact (chat ty : string) (w : world) :
  let w1 := after (deleteSessionsByType chat ty) w in
  (∀ j q, sessions w1 !! j = Some q
          ↔ sessions w !! j = Some q ∧ ¬ (r_chatId q = chat ∧ r_type q = ty))
  ∧ ((deleteSessionsByType chat ty w).1 = Ok true
     ↔ ∃ j q, sessions w !! j = Some q ∧ r_chatId q = chat ∧ r_type q = ty)
  ∧ deleteSessionsByType chat ty w1 = (Ok false, w1).
Proof.
  intros w1. unfold w1, after. rewrite !deleteSessionsByType_run. simpl.
  split; [|split].
  - intros j q. rewrite map_lookup_filter_Some. unfold of_chat_type. simpl. tauto.
  - destruct (decide (filter (of_chat_type chat ty) (sessions w) = ∅)) as [Hempty|Hne].
    + rewrite bool_decide_eq_false_2 by (intros H; apply H, Hempty).
      split; [discriminate|]. intros (j & q & Hj & Hc & Ht). exfalso.
      assert (Hin : filter (of_chat_type chat ty) (sessions w) !! j = Some q).
      { apply map_lookup_filter_Some. split; [exact Hj | split; assumption]. }
      rewrite Hempty, lookup_empty in Hin. discriminate.
    + rewrite bool_decide_eq_true_2 by exact Hne.
      split; [intros _ | reflexivity].
      apply map_choose in Hne as (j & q & Hin).
      apply map_lookup_filter_Some in Hin as (Hj & Hc & Ht).
      exists j, q. auto.
  - f_equal.
    + f_equal. apply bool_decide_eq_false_2. intros Hne. apply Hne.
      apply map_empty. intros j. apply map_lookup_filter_None. right.
      intros q Hj Hq. apply map_lookup_filter_Some in Hj as [_ Hnot]. contradiction.
    + f_equal. apply map_filter_id. intros j q Hj.
      apply map_lookup_filter_Some in Hj as [_ Hnot]. exact Hnot.
Qed.

Lemma alter_missing (f : row → row) (id : string) (t : gmap string row) :
  t !! id = None → alter f id t = t.
Proof.
  intros Hid. apply map_eq. intros j. destruct (decide (id = j)) as [<-|Hne].
  - rewrite lookup_alter_eq, Hid. reflexivity.
  - apply lookup_alter_ne, Hne.
Qed.

(** X5. extendSession on an id that is not in the table answers false and
    changes nothing. On a row that is there it answers true and sets
    [expires] to [minutes] from now, whatever the old value was: nothing
    else of the row changes, no other row changes, and an expired row
    that is the only one of its chat is returned by the lookup again. *)
Theorem extendSession_sets_expiry (id : string) (minutes : Z) (w : world) :
  let w1 := after (extendSession id minutes) w in
  (sessions w !! id = None → extendSession id minutes w = (Ok false, w))
  ∧ (∀ r, sessions w !! id = Some r →
       (extendSession id minutes w).1 = Ok true
       ∧ sessions w1 !! id
         = Some (mkRow (r_chatId r) (r_type r) (r_state r) (r_data r)
                       (clock w + minutes * 60 * 1000) (r_createdAt r))
       ∧ (∀ j, j ≠ id → sessions w1 !! j = sessions w !! j)
       ∧ (0 < minutes →
          (∀ j q, sessions w !! j = Some q → r_chatId q = r_chatId r → j = id) →
          ∃ s, getSession (r_chatId r) None w1 = (Ok (Some s), w1)
               ∧ s_id s = id ∧ s_expires s = clock w + minutes * 60 * 1000)).
Proof.
  intros w1. unfold w1, after. rewrite !extendSession_run. simpl. split.
  - intros Hid. rewrite alter_missing by exact Hid.
    rewrite bool_decide_eq_false_2 by (rewrite Hid; intros [? ?]; discriminate).
    destruct w; reflexivity.
  - intros r Hid.
    split; [rewrite bool_decide_eq_true_2 by eauto; reflexivity|].
    split; [rewrite lookup_alter_eq, Hid; reflexivity|].
    split; [intros j Hne; apply lookup_alter_ne; congruence|].
    intros Hmin Honly.
    exists (session_of_row id
              (mkRow (r_chatId r) (r_type r) (r_state r) (r_data r)
                     (clock w + minutes * 60 * 1000) (r_createdAt r))).
    split; [|split; reflexivity].
    rewrite getSession_run. cbn [sessions clock type_filter].
    erewrite active_unique; [reflexivity | | |].
    + rewrite lookup_alter_eq, Hid. reflexivity.
    + unfold active_for. simpl. split; [reflexivity|]. split; [lia | exact I].
    + intros j q Hj (Hc & _ & _). simpl in Hc.
      destruct (decide (id = j)) as [<-|Hne]; [reflexivity|].
      rewrite lookup_alter_ne in Hj by exact Hne. apply (Honly j q Hj Hc).
Qed.

Lemma extendSession_sets_expiry_witness :
  sessions w_expired !! "42_add_wallet_1000" = Some row_flow
  ∧ r_expires row_flow < clock w_expired
  ∧ (getSession "42" None w_expired).1 = Ok None
  ∧ sessions w_expired !! "42_add_wallet_9" = None
  ∧ extendSession "42_add_wallet_9" 15 w_expired = (Ok false, w_expired)
  ∧ ∃ s, (getSession "42" None (after (extendSession "42_add_wallet_1000" 15) w_expired)).1
         = Ok (Some s)
         ∧ s_id s = "42_add_wallet_1000"
         ∧ s_expires s = 3600000 + 15 * 60 * 1000.
Proof.
  split; [reflexivity|]. split; [reflexivity|]. split; [reflexivity|].
  split; [reflexivity|].
  split.
  { destruct (extendSession_sets_expiry "42_add_wallet_9" 15 w_expired) as (Hmiss & _).
    apply Hmiss. reflexivity. }
  destruct (extendSession_sets_expiry "42_add_wallet_1000" 15 w_expired) as (_ & Hfound).
  destruct (Hfound row_flow eq_refl) as (_ & _ & _ & Hlook).
  destruct Hlook as (s & Hget & Hid & Hexp); [lia | |].
  - intros j q Hj _. unfold w_expired in Hj. simpl in Hj.
    apply lookup_singleton_Some in Hj as [<- _]. reflexivity.
  - exists s. split; [|split; [exact Hid | exact Hexp]].
    change (getSession "42" None (after (extendSession "42_add_wallet_1000" 15) w_expired))
      with (getSession (r_chatId row_flow) None
              (after (extendSession "42_add_wallet_1000" 15) w_expired)).
    rewrite Hget. reflexivity.
Defined.

Lemma getSession_null_iff (chat : string) (ty : option string) (w : world) :
  (getSession chat ty w).1 = Ok None
  ↔ ∀ j q, sessions w !! j = Some q → ¬ active_for chat (clock w) (type_filter ty) (j, q).
Proof.
  rewrite getSession_run. simpl. split.
  - intros Hnone j q Hj Hact.
    destruct (newest _) as [x|] eqn:Hn; [discriminate|].
    apply newest_nil in Hn.
    assert (Hin : (j, q) ∈ filter (active_for chat (clock w) (type_filter ty))
                              (map_to_list (sessions w))).
    { apply list_elem_of_filter. split; [exact Hact | apply elem_of_map_to_list, Hj]. }
    rewrite Hn in Hin. inversion Hin.
  - intros Hnone. rewrite active_none by exact Hnone. reflexivity.
Qed.

(** X6. The cleanup job removes exactly the rows whose [expires] is before
    the current time and reports how many they were. A row that expires
    at this very millisecond stays in the table although the lookup no
    longer returns it; no row the lookup could return is removed, so the
    lookup finds a session after the sweep if and only if it found one
    before. *)
Theorem sessionCleanup_sweeps (w : world) :
  let w1 := after sessionCleanup w in
  (∀ j q, sessions w1 !! j = Some q ↔ sessions w !! j = Some q ∧ clock w <= r_expires q)
  ∧ (sessionCleanup w).1
    = Ok (size (filter (λ kr : string * row, r_expires kr.2 < clock w) (sessions w)))
  ∧ (∀ chat ty j q, sessions w !! j = Some q → active_for chat (clock w) ty (j, q) →
                    sessions w1 !! j = Some q)
  ∧ (∀ chat ty, (getSession chat ty w1).1 = Ok None ↔ (getSession chat ty w).1 = Ok None)
  ∧ clock w1 = clock w.
Proof.
  intros w1.
  assert (Hw1 : ∀ j q, sessions w1 !! j = Some q
                       ↔ sessions w !! j = Some q ∧ clock w <= r_expires q).
  { intros j q. unfold w1, after, sessionCleanup. run_monad.
    rewrite map_lookup_filter_Some. simpl. split; intros [? ?]; split; auto; lia. }
  split; [exact Hw1|]. split; [reflexivity|].
  split; [|split; [|reflexivity]].
  - intros chat ty j q Hj (_ & Hexp & _). apply Hw1. simpl in Hexp. split; [exact Hj | lia].
  - intros chat ty. rewrite !getSession_null_iff.
    change (clock w1) with (clock w). split.
    + intros Hnone j q Hj Hact. apply (Hnone j q); [|exact Hact].
      apply Hw1. split; [exact Hj|]. destruct Hact as (_ & Hexp & _). simpl in Hexp. lia.
    + intros Hnone j q Hj. apply Hw1 in Hj as [Hj _]. apply (Hnone j q Hj).
Qed.

(** X7. The session the lookup returns belongs to the chat, has the type
    that was asked for (an empty type asks for none), and no active row of
    the chat that matches was created later; the lookup returns null only
    when the chat has no active row that matches. *)
Theorem getSession_most_recent (chat : string) (ty : option string) (w : world) :
  (∀ s, (getSession chat ty w).1 = Ok (Some s) →
     s_chatId s = chat
     ∧ (∀ t, ty = Some t → t ≠ "" → s_type s = t)
     ∧ (∀ j q, sessions w !! j = Some q →
               active_for chat (clock w) (type_filter ty) (j, q) →
               r_createdAt q <= s_createdAt s))
  ∧ ((getSession chat ty w).1 = Ok None
     ↔ ∀ j q, sessions w !! j = Some q →
              ¬ (r_chatId q = chat ∧ clock w < r_expires q
                 ∧ match type_filter ty with Some t => r_type q = t | None => True end))
  ∧ getSession chat (Some "") w = getSession chat None w.
Proof.
  split; [|split; [apply getSession_null_iff | reflexivity]].
  intros s Hs. rewrite getSession_run in Hs. simpl in Hs.
  destruct (newest _) as [[id r]|] eqn:Hn; [|discriminate].
  injection Hs as <-. simpl.
  pose proof (newest_elem _ _ Hn) as Hin.
  apply elem_of_active in Hin as (Hid & Hc & _ & Hty).
  split; [exact Hc|]. split.
  - intros t -> Hne. simpl in Hty. apply String.eqb_neq in Hne.
    rewrite Hne in Hty. exact Hty.
  - intros j q Hj Hact.
    apply (newest_greatest _ (id, r) (j, q) Hn).
    apply list_elem_of_filter. split; [exact Hact | apply elem_of_map_to_list, Hj].
Qed.

(** X8. updateSession changes the state and the data of one row and
    nothing else: the same ids are in the table afterwards, and every row
    keeps its chat, its type, its creation time and its expiry time, so an
    update does not prolong a session. *)
Theorem updateSession_keeps_lifetime (id : string) (u : updates) (w : world) :
  let w1 := after (updateSession id u) w in
  (∀ j, is_Some (sessions w1 !! j) ↔ is_Some (sessions w !! j))
  ∧ (∀ j q q1, sessions w !! j = Some q → sessions w1 !! j = Some q1 →
       r_chatId q1 = r_chatId q ∧ r_type q1 = r_type q
       ∧ r_expires q1 = r_expires q ∧ r_createdAt q1 = r_createdAt q
       ∧ (j ≠ id → q1 = q))
  ∧ clock w1 = clock w.
Proof.
  intros w1. unfold w1.
  destruct (sessions w !! id) as [r|] eqn:Hid.
  - destruct (updateSession_found w id r u Hid) as (s & Hrun & _).
    unfold after. rewrite Hrun. simpl. split; [|split; [|reflexivity]].
    + intros j. rewrite lookup_insert_is_Some.
      destruct (decide (id = j)) as [<-|Hne]; [|tauto].
      rewrite Hid. split; eauto.
    + intros j q q1 Hj Hj1.
      apply lookup_insert_Some in Hj1 as [[<- <-]|[Hne Hj1]].
      * rewrite Hid in Hj. injection Hj as <-. simpl. repeat split. congruence.
      * rewrite Hj in Hj1. injection Hj1 as <-. repeat split.
  - unfold after. rewrite updateSession_missing by exact Hid.
    split; [tauto|]. split; [|reflexivity].
    intros j q q1 Hj Hj1. simpl in Hj1. rewrite Hj in Hj1. injection Hj1 as <-.
    repeat split.
Qed.

(** * More of the authentication engine *)

Lemma getSession_typed_only (chat ty id : string) (r : row) (t : gmap string row)
    (w : world) :
  ty ≠ "" →
  sessions w = <[id := r]> t →
  (∀ j q, t !! j = Some q → ¬ of_chat_type chat ty (j, q)) →
  r_chatId r = chat → r_type r = ty →
  getSession chat (Some ty) w =
    (Ok (if bool_decide (clock w < r_expires r) then Some (session_of_row id r) else None),
     w).
Proof.
  intros Hty Htab Hnone Hc Ht. rewrite getSession_run. unfold type_filter.
  apply String.eqb_neq in Hty. rewrite Hty.
  destruct (decide (clock w < r_expires r)) as [Hlive|Hdead].
  - rewrite bool_decide_eq_true_2 by exact Hlive.
    rewrite (active_unique chat (clock w) (Some ty) (sessions w) id r); [reflexivity | | |].
    + rewrite Htab. apply lookup_insert_eq.
    + unfold active_for. simpl. auto.
    + intros j q Hj (Hcq & _ & Hq). rewrite Htab in Hj.
      apply lookup_insert_Some in Hj as [[<- _]|[_ Hj]]; [reflexivity|].
      exfalso. apply (Hnone j q Hj). split; assumption.
  - rewrite bool_decide_eq_false_2 by exact Hdead.
    rewrite active_none; [reflexivity|].
    intros j q Hj (Hcq & Hexp & Hq). rewrite Htab in Hj. simpl in *.
    apply lookup_insert_Some in Hj as [[_ <-]|[_ Hj]]; [contradiction|].
    apply (Hnone j q Hj). split; assumption.
Qed.

Lemma isUserAuthenticated_run (chat : string) (w : world) :
  isUserAuthenticated chat initializeSessionManager w =
    (Ok match (getSession chat (Some "authenticated") w).1 with
        | Ok (Some s) =>
            match js_get (s_data s) "authenticated" with
            | JVal (JBool true) => true
            | _ => false
            end
        | _ => false
        end,
     w).
Proof.
  unfold isUserAuthenticated, try_catch, bind. simpl m_getSession.
  rewrite getSession_world.
  destruct ((getSession chat (Some "authenticated") w).1) as [[s|]|err]; try reflexivity.
  cbn [fst]. unfold ret.
  destruct (js_get (s_data s) "authenticated") as [|[|[]| | | |]]; reflexivity.
Qed.

Lemma logoutUser_run (chat : string) (w : world) :
  logoutUser chat initializeSessionManager w =
    match (getSession chat (Some "authenticated") w).1 with
    | Ok (Some s) =>
        if truthy (js_get (s_data s) "authenticated")
        then (Ok true, mkWorld (delete (s_id s) (sessions w)) (clock w) (sent w))
        else (Ok false, w)
    | _ => (Ok false, w)
    end.
Proof.
  unfold logoutUser, try_catch, bind. simpl m_getSession. simpl m_deleteSession.
  rewrite getSession_world.
  destruct ((getSession chat (Some "authenticated") w).1) as [[s|]|err]; try reflexivity.
  cbn [fst].
  destruct (truthy (js_get (s_data s) "authenticated")); reflexivity.
Qed.

(** The table of a world in which the chat has just logged in. *)
Lemma authenticateUser_success_table (e : env) (chat password : string) (w w' : world)
    (res : authResult) :
  authenticateUser e chat password initializeSessionManager w = (Ok res, w') →
  success res = true →
  ∃ t,
    sessions w' = <[session_id chat "authenticated" (clock w) :=
                      mkRow chat "authenticated" ""
                            {[ "authenticated" := JBool true;
                               "loginTime" := JNum (clock w) ]}
                            (clock w + 24 * 60 * 60 * 1000) (clock w)]> t
    ∧ t !! session_id chat "authenticated" (clock w) = None
    ∧ (∀ j q, t !! j = Some q → ¬ of_chat_type chat "authenticated" (j, q))
    ∧ clock w' = clock w ∧ sent w' = sent w.
Proof.
  intros Hrun Hok.
  destruct (authenticateUser_success e chat password w w' res Hrun Hok) as (_ & Hid & ->).
  eexists. split; [reflexivity|]. split; [exact Hid|]. split; [|split; reflexivity].
  intros j q Hj Hq. apply map_lookup_filter_Some in Hj as [_ Hnot]. contradiction.
Qed.

(** X9. After a successful authenticateUser the chat is authenticated for
    24 hours and not a millisecond longer: isUserAuthenticated, asked [d]
    milliseconds later, answers true exactly when [d] is below 86400000,
    and it never changes anything. *)
Theorem authenticated_for_24_hours (e : env) (chat password : string) (w w' : world)
    (res : authResult) (d : Z) :
  authenticateUser e chat password initializeSessionManager w = (Ok res, w') →
  success res = true →
  isUserAuthenticated chat initializeSessionManager (advance d w')
  = (Ok (bool_decide (d < 24 * 60 * 60 * 1000)), advance d w').
Proof.
  intros Hrun Hok.
  destruct (authenticateUser_success_table e chat password w w' res Hrun Hok)
    as (t & Htab & _ & Hnone & Hclock & _).
  rewrite isUserAuthenticated_run.
  rewrite (getSession_typed_only chat "authenticated" _ _ t (advance d w')
             ltac:(discriminate) Htab Hnone eq_refl eq_refl).
  simpl. rewrite Hclock.
  destruct (decide (d < 24 * 60 * 60 * 1000)) as [Hd|Hd].
  - rewrite !bool_decide_eq_true_2 by lia. reflexivity.
  - rewrite !bool_decide_eq_false_2 by lia. reflexivity.
Qed.

Lemma authenticated_for_24_hours_witness :
  authenticateUser env0 "42" "s3cret" initializeSessionManager w_relogin
  = (Ok (mkAuthResult true "Autentikasi berhasil"), w_relogged)
  ∧ success (mkAuthResult true "Autentikasi berhasil") = true
  ∧ isUserAuthenticated "42" initializeSessionManager (advance 86399999 w_relogged)
    = (Ok true, advance 86399999 w_relogged)
  ∧ isUserAuthenticated "42" initializeSessionManager (advance 86400000 w_relogged)
    = (Ok false, advance 86400000 w_relogged).
Proof.
  assert (Hrun : authenticateUser env0 "42" "s3cret" initializeSessionManager w_relogin
                 = (Ok (mkAuthResult true "Autentikasi berhasil"), w_relogged))
    by (vm_compute; reflexivity).
  split; [exact Hrun|]. split; [reflexivity|]. split.
  - exact (authenticated_for_24_hours env0 "42" "s3cret" w_relogin w_relogged _
             86399999 Hrun eq_refl).
  - exact (authenticated_for_24_hours env0 "42" "s3cret" w_relogin w_relogged _
             86400000 Hrun eq_refl).
Defined.

(** X10. Logging out ends what the login began: after a successful
    authenticateUser and within the 24 hours, logoutUser answers true and
    removes the authenticated session, after which isUserAuthenticated
    answers false and a second logoutUser answers false and changes
    nothing. *)
Theorem logout_ends_login (e : env) (chat password : string) (w w' : world)
    (res : authResult) (d : Z) :
  authenticateUser e chat password initializeSessionManager w = (Ok res, w') →
  success res = true →
  d < 24 * 60 * 60 * 1000 →
  ∃ w'',
    logoutUser chat initializeSessionManager (advance d w') = (Ok true, w'')
    ∧ sessions w'' = delete (session_id chat "authenticated" (clock w)) (sessions w')
    ∧ (∀ j q, sessions w'' !! j = Some q → ¬ of_chat_type chat "authenticated" (j, q))
    ∧ isUserAuthenticated chat initializeSessionManager w'' = (Ok false, w'')
    ∧ logoutUser chat initializeSessionManager w'' = (Ok false, w'')
    ∧ command_logout chat initializeSessionManager w'' = (Ok NotLoggedIn, w'').
Proof.
  intros Hrun Hok Hd.
  destruct (authenticateUser_success_table e chat password w w' res Hrun Hok)
    as (t & Htab & Hfresh & Hnone & Hclock & _).
  assert (Hlook : getSession chat (Some "authenticated") (advance d w')
                  = (Ok (Some (session_of_row (session_id chat "authenticated" (clock w))
                                 (mkRow chat "authenticated" ""
                                    {[ "authenticated" := JBool true;
                                       "loginTime" := JNum (clock w) ]}
                                    (clock w + 24 * 60 * 60 * 1000) (clock w)))),
                     advance d w')).
  { rewrite (getSession_typed_only chat "authenticated" _ _ t (advance d w')
               ltac:(discriminate) Htab Hnone eq_refl eq_refl).
    simpl. rewrite Hclock. rewrite bool_decide_eq_true_2 by lia. reflexivity. }
  set (w'' := mkWorld (delete (session_id chat "authenticated" (clock w)) (sessions w'))
                      (clock (advance d w')) (sent w')).
  assert (Htab'' : sessions w'' = t).
  { unfold w''. simpl. rewrite Htab, delete_insert_id by exact Hfresh. reflexivity. }
  assert (Hgone : getSession chat (Some "authenticated") w'' = (Ok None, w'')).
  { rewrite getSession_run. simpl type_filter. rewrite active_none; [reflexivity|].
    intros j q Hj (Hc & _ & Hq). rewrite Htab'' in Hj.
    apply (Hnone j q Hj). split; assumption. }
  assert (Hout : logoutUser chat initializeSessionManager w'' = (Ok false, w'')).
  { rewrite logoutUser_run, Hgone. reflexivity. }
  exists w''. split; [|split; [reflexivity|split; [|split; [|split]]]].
  - rewrite logoutUser_run, Hlook. reflexivity.
  - rewrite Htab''. exact Hnone.
  - rewrite isUserAuthenticated_run, Hgone. reflexivity.
  - exact Hout.
  - unfold command_logout, bind. rewrite Hout. reflexivity.
Qed.

Lemma logout_ends_login_witness :
  authenticateUser env0 "42" "s3cret" initializeSessionManager w_relogin
  = (Ok (mkAuthResult true "Autentikasi berhasil"), w_relogged)
  ∧ success (mkAuthResult true "Autentikasi berhasil") = true
  ∧ 5000 < 24 * 60 * 60 * 1000
  ∧ ∃ w'',
      logoutUser "42" initializeSessionManager (advance 5000 w_relogged) = (Ok true, w'')
      ∧ isUserAuthenticated "42" initializeSessionManager w'' = (Ok false, w'')
      ∧ logoutUser "42" initializeSessionManager w'' = (Ok false, w'').
Proof.
  assert (Hrun : authenticateUser env0 "42" "s3cret" initializeSessionManager w_relogin
                 = (Ok (mkAuthResult true "Autentikasi berhasil"), w_relogged))
    by (vm_compute; reflexivity).
  split; [exact Hrun|]. split; [reflexivity|]. split; [lia|].
  destruct (logout_ends_login env0 "42" "s3cret" w_relogin w_relogged _ 5000 Hrun eq_refl
              ltac:(lia))
    as (w'' & Hout & _ & _ & Hauth & Hagain & _).
  exists w''. auto.
Defined.

(** X11. Without a configured password (BOT_PASSWORD unset or empty)
    authenticateUser refuses every password, the empty one included, and
    does so without counting an attempt: the table is left as it is. *)
Theorem authenticateUser_unconfigured (e : env) (chat password : string) (w : world) :
  BOT_PASSWORD e = None ∨ BOT_PASSWORD e = Some "" →
  authenticateUser e chat password initializeSessionManager w
  = (Ok (mkAuthResult false "Konfigurasi autentikasi tidak valid"), w).
Proof.
  intros [Hpw|Hpw]; rewrite authenticateUser_run, Hpw; reflexivity.
Qed.

Lemma authenticateUser_unconfigured_witness :
  (BOT_PASSWORD (mkEnv (Some "") None None) = None
   ∨ BOT_PASSWORD (mkEnv (Some "") None None) = Some "")
  ∧ authenticateUser (mkEnv (Some "") None None) "42" "" initializeSessionManager w_locked
    = (Ok (mkAuthResult false "Konfigurasi autentikasi tidak valid"), w_locked).
Proof.
  split; [right; reflexivity|].
  apply authenticateUser_unconfigured. right. reflexivity.
Defined.

Lemma as_number_cases (v : jsval) (w : world) :
  (∃ n, as_number v w = (Ok n, w)) ∨ as_number v w = (Throw NotANumber, w).
Proof. destruct v as [|[]]; simpl; eauto. Qed.

Lemma bind_Ok {A B} (m : M A) (k : A → M B) (w w' : world) (a : A) :
  m w = (Ok a, w') → bind m k w = k a w'.
Proof. intros Hm. unfold bind. rewrite Hm. reflexivity. Qed.

Lemma bind_Throw {A B} (m : M A) (k : A → M B) (w w' : world) (err : error) :
  m w = (Throw err, w') → bind m k w = (Throw err, w').
Proof. intros Hm. unfold bind. rewrite Hm. reflexivity. Qed.

Lemma Date_now_run (w : world) : Date_now w = (Ok (clock w), w).
Proof. reflexivity. Qed.

Lemma previous_attempts_cases (v : jsval) (w : world) :
  (∃ n, (if truthy v then as_number v else ret 0) w = (Ok n, w))
  ∨ (if truthy v then as_number v else ret 0) w = (Throw NotANumber, w).
Proof.
  destruct (truthy v); [apply as_number_cases | left; exists 0; reflexivity].
Qed.

(** What trackFailedAttempt can do to the table: nothing, insert a new
    counter of the chat, or replace the counter of the chat it found. *)
Lemma trackFailedAttempt_shape (e : env) (chat : string) (w w1 : world) (res : result unit) :
  trackFailedAttempt e chat initializeSessionManager w = (res, w1) →
  clock w1 = clock w ∧ sent w1 = sent w
  ∧ (sessions w1 = sessions w
     ∨ (∃ id r, sessions w !! id = None ∧ of_chat_type chat "auth_attempts" (id, r)
                ∧ sessions w1 = <[id := r]> (sessions w))
     ∨ (∃ id r r', sessions w !! id = Some r
                   ∧ of_chat_type chat "auth_attempts" (id, r)
                   ∧ of_chat_type chat "auth_attempts" (id, r')
                   ∧ sessions w1 = <[id := r']> (sessions w))).
Proof.
  unfold trackFailedAttempt.
  simpl m_getSession. simpl m_createSession. simpl m_updateSession.
  rewrite (bind_Ok _ _ w w _ (getSession_run chat (Some "auth_attempts") w)).
  cbn [type_filter String.eqb Ascii.eqb Bool.eqb].
  destruct (newest _) as [[id r]|] eqn:Hn; cbn [fmap option_fmap option_map fst snd].
  - apply newest_elem, elem_of_active in Hn as (Hid & Hc & _ & Hty).
    cbn [s_data s_id session_of_row].
    destruct (previous_attempts_cases (js_get (JSON_parse (r_data r)) "attempts") w)
      as [[n Hp]|Hp].
    + rewrite (bind_Ok _ _ w w n Hp).
      rewrite (bind_Ok _ _ w w _ (Date_now_run w)).
      rewrite (bind_Ok _ _ w w _ (Date_now_run w)).
      set (u := mkUpdates _ _).
      destruct (updateSession_found w id r u Hid) as (s & Hrun & _ & Hsc & Hst & _).
      rewrite (bind_Ok _ _ _ _ _ Hrun).
      intros [= _ <-]. cbn [clock sent sessions].
      split; [reflexivity|]. split; [reflexivity|]. right. right.
      eexists id, r, _. split; [exact Hid|]. split; [split; assumption|].
      split; [|reflexivity]. split; assumption.
    + rewrite (bind_Throw _ _ w w _ Hp). intros [= _ <-]. auto.
  - rewrite (bind_Ok _ _ w w _ (Date_now_run w)).
    match goal with |- context [createSession ?c ?t ?d] =>
      pose proof (createSession_run c t d w) as Hcreate end.
    destruct (sessions w !! session_id chat "auth_attempts" (clock w)) eqn:Hid.
    + rewrite (bind_Throw _ _ w w _ Hcreate). intros [= _ <-]. auto.
    + rewrite (bind_Ok _ _ _ _ _ Hcreate). intros [= _ <-]. cbn [clock sent sessions].
      split; [reflexivity|]. split; [reflexivity|]. right. left.
      eexists _, _. split; [exact Hid|]. split; [|reflexivity]. split; reflexivity.
Qed.

(** What isUserBlocked can do to the table: nothing, or delete the
    counters of the chat. *)
Lemma isUserBlocked_shape (e : env) (chat : string) (w w1 : world)
    (res : result blockStatus) :
  isUserBlocked e chat initializeSessionManager w = (res, w1) →
  clock w1 = clock w ∧ sent w1 = sent w
  ∧ (sessions w1 = sessions w
     ∨ sessions w1 = filter (λ kr, ¬ of_chat_type chat "auth_attempts" kr) (sessions w)).
Proof.
  unfold isUserBlocked. simpl m_getSession. simpl m_deleteSessionsByType.
  rewrite (bind_Ok _ _ w w _ (getSession_run chat (Some "auth_attempts") w)).
  destruct (newest _) as [[id r]|]; cbn [fmap option_fmap option_map fst snd].
  - cbv beta iota. set (s := session_of_row id r).
    assert (Hatt : ∃ m : M Z,
              m = match js_get (s_data s) "attempts" with
                  | JUndefined => ret 0
                  | v => as_number v
                  end
              ∧ ((∃ n, m w = (Ok n, w)) ∨ m w = (Throw NotANumber, w))).
    { eexists. split; [reflexivity|].
      destruct (js_get (s_data s) "attempts") as [|j];
        [left; exists 0; reflexivity | apply as_number_cases]. }
    destruct Hatt as (m & Hm & Hcases). rewrite <- Hm. clear Hm.
    destruct Hcases as [[n Hp]|Hp].
    + rewrite (bind_Ok _ _ w w n Hp).
      destruct ((maxAttempts e <=? n) && truthy (js_get (s_data s) "blockedUntil")).
      * destruct (as_number_cases (js_get (s_data s) "blockedUntil") w) as [[b Hb]|Hb].
        -- rewrite (bind_Ok _ _ w w b Hb).
           rewrite (bind_Ok _ _ w w _ (Date_now_run w)).
           destruct (clock w <? b).
           ++ rewrite (bind_Ok _ _ w w _ (Date_now_run w)). intros [= _ <-]. auto.
           ++ rewrite (bind_Ok _ _ _ _ _ (deleteSessionsByType_run chat "auth_attempts" w)).
              intros [= _ <-]. cbn [clock sent sessions]. auto.
        -- rewrite (bind_Throw _ _ w w _ Hb). intros [= _ <-]. auto.
      * intros [= _ <-]. auto.
    + rewrite (bind_Throw _ _ w w _ Hp). intros [= _ <-]. auto.
  - intros [= _ <-]. auto.
Qed.

(** X12. The authentication engine works on the bookkeeping rows of the
    chat it is called for and on nothing else: whatever the password and
    whether they return or throw, authenticateUser, isUserBlocked and
    logoutUser leave the rows of every other chat, and the flow sessions
    of the chat itself, exactly as they were; a wrong password touches
    the attempt counter only, so it never creates or changes an
    authenticated session. *)
Theorem auth_engine_frame (e : env) (chat password : string) (w : world) :
  let sm := initializeSessionManager in
  let bookkeeping (q : row) :=
    r_chatId q = chat ∧ (r_type q = "auth_attempts" ∨ r_type q = "authenticated") in
  (∀ j q, ¬ bookkeeping q →
     (sessions (after (authenticateUser e chat password sm) w) !! j = Some q
      ↔ sessions w !! j = Some q))
  ∧ (∀ j q, ¬ bookkeeping q →
     (sessions (after (isUserBlocked e chat sm) w) !! j = Some q ↔ sessions w !! j = Some q))
  ∧ (∀ j q, ¬ bookkeeping q →
     (sessions (after (logoutUser chat sm) w) !! j = Some q ↔ sessions w !! j = Some q))
  ∧ (∀ correct j q,
     BOT_PASSWORD e = Some correct → password ≠ correct →
     ¬ (r_chatId q = chat ∧ r_type q = "auth_attempts") →
     (sessions (after (authenticateUser e chat password sm) w) !! j = Some q
      ↔ sessions w !! j = Some q)).
Proof.
  intros sm bookkeeping.
  assert (Htrack : ∀ j q, ¬ (r_chatId q = chat ∧ r_type q = "auth_attempts") →
            (sessions (after (trackFailedAttempt e chat sm) w) !! j = Some q
             ↔ sessions w !! j = Some q)).
  { intros j q Hq. unfold after.
    destruct (trackFailedAttempt e chat sm w) as [res w1] eqn:Hrun.
    cbn [snd].
    destruct (trackFailedAttempt_shape e chat w w1 res Hrun)
      as (_ & _ & [-> | [(id & r & Hid & Hr & ->) | (id & r & r' & Hid & Hr & Hr' & ->)]]);
      [tauto | |].
    - rewrite lookup_insert_Some. split.
      + intros [[-> <-]|[_ Hj]]; [contradiction | exact Hj].
      + intros Hj. right. split; [congruence | exact Hj].
    - rewrite lookup_insert_Some. split.
      + intros [[-> <-]|[_ Hj]]; [contradiction | exact Hj].
      + intros Hj. right. split; [|exact Hj].
        intros <-. rewrite Hid in Hj. injection Hj as <-. contradiction. }
  assert (Hwrong : ∀ j q, ¬ (r_chatId q = chat ∧ r_type q = "auth_attempts") →
            (sessions (after (λ w, match trackFailedAttempt e chat sm w with
                                   | (Ok _, w') => (Ok (mkAuthResult false "Password salah"), w')
                                   | (Throw err, w') => (Throw err, w')
                                   end) w) !! j = Some q
             ↔ sessions w !! j = Some q)).
  { intros j q Hq. rewrite <- (Htrack j q Hq). unfold after.
    destruct (trackFailedAttempt e chat sm w) as [[?|?] ?]; reflexivity. }
  split; [|split; [|split]].
  - intros j q Hq. unfold after, sm. rewrite authenticateUser_run.
    destruct (BOT_PASSWORD e) as [c|]; [|reflexivity].
    destruct (String.eqb c ""); [reflexivity|].
    destruct (String.eqb password c).
    + rewrite createAuthenticatedSession_run. unfold after.
      rewrite deleteSessionsByType_run. cbn [sessions clock sent snd].
      assert (Hkeep : filter (λ kr, ¬ of_chat_type chat "authenticated" kr)
                        (filter (λ kr, ¬ of_chat_type chat "auth_attempts" kr) (sessions w))
                      !! j = Some q ↔ sessions w !! j = Some q).
      { rewrite !map_lookup_filter_Some. unfold of_chat_type. simpl.
        unfold bookkeeping in Hq. tauto. }
      destruct (_ !! session_id chat "authenticated" (clock w)) eqn:Hid;
        cbn [sessions snd]; [exact Hkeep|].
      rewrite lookup_insert_Some. rewrite <- Hkeep. split.
      * intros [[_ <-]|[_ Hj]]; [|exact Hj].
        exfalso. apply Hq. split; [reflexivity | right; reflexivity].
      * intros Hj. right. split; [congruence | exact Hj].
    + apply Hwrong. unfold bookkeeping in Hq. tauto.
  - intros j q Hq. unfold after.
    destruct (isUserBlocked e chat sm w) as [res w1] eqn:Hrun.
    cbn [snd].
    destruct (isUserBlocked_shape e chat w w1 res Hrun) as (_ & _ & [-> | ->]);
      [tauto|].
    rewrite map_lookup_filter_Some. unfold of_chat_type. simpl.
    unfold bookkeeping in Hq. tauto.
  - intros j q Hq. unfold after, sm. rewrite logoutUser_run, getSession_run. simpl.
    destruct (newest _) as [[id r]|] eqn:Hn; cbn [fmap option_fmap option_map];
      [|reflexivity].
    apply newest_elem, elem_of_active in Hn as (Hid & Hc & _ & Hty). simpl in Hty.
    destruct (truthy _); [|reflexivity]. simpl.
    rewrite lookup_delete_Some. split; [tauto|]. intros Hj. split; [|exact Hj].
    intros <-. rewrite Hid in Hj. injection Hj as <-.
    apply Hq. split; [exact Hc | right; exact Hty].
  - intros correct j q Hpw Hbad Hq. unfold after, sm. rewrite authenticateUser_run, Hpw.
    destruct (String.eqb correct ""); [reflexivity|].
    apply String.eqb_neq in Hbad. rewrite Hbad. apply (Hwrong j q Hq).
Qed.

(** The first wrong password of a chat without a counter. *)
Lemma first_failure (e : env) (chat password correct : string) (w : world) (d : Z) :
  let id := session_id chat "auth_attempts" (clock w) in
  let counter := mkRow chat "auth_attempts" ""
                       {[ "attempts" := JNum 1; "lastAttempt" := JNum (clock w) ]}
                       (clock w + 15 * 60 * 1000) (clock w) in
  let w1 := mkWorld (<[id := counter]> (sessions w)) (clock w) (sent w) in
  BOT_PASSWORD e = Some correct → correct ≠ "" → password ≠ correct →
  (∀ j q, sessions w !! j = Some q → ¬ of_chat_type chat "auth_attempts" (j, q)) →
  sessions w !! id = None →
  d < 15 * 60 * 1000 →
  authenticateUser e chat password initializeSessionManager w
  = (Ok (mkAuthResult false "Password salah"), w1)
  ∧ isUserBlocked e chat initializeSessionManager (advance d w1)
    = (Ok (mkBlockStatus false None (Some (maxAttempts e - 1))), advance d w1).
Proof.
  intros id counter w1 Hpw Hne Hbad Hnone Hfresh Hd. split.
  - rewrite (authenticateUser_wrong_password e chat password correct w Hpw Hne Hbad).
    rewrite (trackFailedAttempt_first e chat w Hnone Hfresh). reflexivity.
  - assert (Hlook : getSession chat (Some "auth_attempts") (advance d w1)
                    = (Ok (Some (session_of_row id counter)), advance d w1)).
    { apply (getSession_attempts_only chat id counter (sessions w));
        [reflexivity | exact Hnone | reflexivity | reflexivity | simpl; lia]. }
    rewrite (isUserBlocked_session e chat (advance d w1) (session_of_row id counter) 1).
    + cbn [s_data session_of_row r_data counter]. rewrite js_get_parse.
      change (({[ "attempts" := JNum 1; "lastAttempt" := JNum (clock w) ]} : document)
                !! "blockedUntil") with (@None json).
      cbn [from_option truthy]. rewrite andb_false_r. reflexivity.
    + rewrite Hlook. reflexivity.
    + left. reflexivity.
Qed.

(** X13. The first wrong password of a chat that has no attempt counter
    creates the counter with count 1 and without [blockedUntil], so for
    every [maxAttempts], 1 included, the chat is not blocked after it:
    isUserBlocked, asked while the counter lives, answers not blocked with
    [maxAttempts - 1] attempts left. *)
Theorem first_wrong_password_never_blocks (e : env) (chat password correct : string)
    (w : world) (d : Z) :
  let sm := initializeSessionManager in
  let id := session_id chat "auth_attempts" (clock w) in
  BOT_PASSWORD e = Some correct → correct ≠ "" → password ≠ correct →
  (∀ j q, sessions w !! j = Some q → ¬ of_chat_type chat "auth_attempts" (j, q)) →
  sessions w !! id = None →
  d < 15 * 60 * 1000 →
  ∃ w1,
    authenticateUser e chat password sm w = (Ok (mkAuthResult false "Password salah"), w1)
    ∧ sessions w1
      = <[id := mkRow chat "auth_attempts" ""
                      {[ "attempts" := JNum 1; "lastAttempt" := JNum (clock w) ]}
                      (clock w + 15 * 60 * 1000) (clock w)]> (sessions w)
    ∧ isUserBlocked e chat sm (advance d w1)
      = (Ok (mkBlockStatus false None (Some (maxAttempts e - 1))), advance d w1).
Proof.
  intros sm id Hpw Hne Hbad Hnone Hfresh Hd.
  destruct (first_failure e chat password correct w d Hpw Hne Hbad Hnone Hfresh Hd)
    as (Hrun & Hblocked).
  eexists. split; [exact Hrun|]. split; [reflexivity | exact Hblocked].
Qed.

Lemma first_wrong_password_never_blocks_witness :
  let e := mkEnv (Some "s3cret") (Some 1) None in
  BOT_PASSWORD e = Some "s3cret" ∧ "s3cret" ≠ "" ∧ "wrong" ≠ "s3cret"
  ∧ (∀ j q, sessions w_logged_in !! j = Some q →
            ¬ of_chat_type "42" "auth_attempts" (j, q))
  ∧ sessions w_logged_in !! session_id "42" "auth_attempts" (clock w_logged_in) = None
  ∧ 0 < 15 * 60 * 1000
  ∧ maxAttempts e = 1
  ∧ ∃ w1,
      authenticateUser e "42" "wrong" initializeSessionManager w_logged_in
      = (Ok (mkAuthResult false "Password salah"), w1)
      ∧ isUserBlocked e "42" initializeSessionManager (advance 0 w1)
        = (Ok (mkBlockStatus false None (Some (1 - 1))), advance 0 w1).
Proof.
  intros e.
  assert (Hnone : ∀ j q, sessions w_logged_in !! j = Some q →
                         ¬ of_chat_type "42" "auth_attempts" (j, q)).
  { intros j q Hj [_ Hq]. unfold w_logged_in in Hj. simpl in Hj.
    apply lookup_singleton_Some in Hj as [_ <-]. discriminate. }
  assert (Hpw : "s3cret" ≠ "") by discriminate.
  assert (Hbad : "wrong" ≠ "s3cret") by discriminate.
  split; [reflexivity|]. split; [exact Hpw|]. split; [exact Hbad|].
  split; [exact Hnone|]. split; [reflexivity|]. split; [lia|]. split; [reflexivity|].
  destruct (first_wrong_password_never_blocks e "42" "wrong" "s3cret" w_logged_in 0
              eq_refl Hpw Hbad Hnone eq_refl ltac:(lia))
    as (w1 & Hrun & _ & Hblocked).
  exists w1. split; [exact Hrun | exact Hblocked].
Defined.

(** X14. A successful login resets the counter: after it the chat has no
    attempt counter, and the next wrong password starts a new one at 1
    (given that the id of the new counter is free), whatever the count was
    before the login. *)
Theorem success_resets_counter (e : env) (chat correct bad : string) (w w' : world)
    (res : authResult) (d : Z) :
  let sm := initializeSessionManager in
  let id := session_id chat "auth_attempts" (clock w + d) in
  authenticateUser e chat correct sm w = (Ok res, w') →
  success res = true →
  bad ≠ correct →
  sessions w' !! id = None →
  (∀ j q, sessions w' !! j = Some q → ¬ of_chat_type chat "auth_attempts" (j, q))
  ∧ ∃ w'',
      authenticateUser e chat bad sm (advance d w')
      = (Ok (mkAuthResult false "Password salah"), w'')
      ∧ sessions w'' !! id
        = Some (mkRow chat "auth_attempts" ""
                      {[ "attempts" := JNum 1; "lastAttempt" := JNum (clock w + d) ]}
                      (clock w + d + 15 * 60 * 1000) (clock w + d))
      ∧ isUserBlocked e chat sm w''
        = (Ok (mkBlockStatus false None (Some (maxAttempts e - 1))), w'').
Proof.
  intros sm id Hrun Hok Hbad Hfresh.
  assert (Hnone : ∀ j q, sessions w' !! j = Some q →
                         ¬ of_chat_type chat "auth_attempts" (j, q)).
  { intros j q Hj [Hc Hq].
    apply (authenticateUser_success_clears e chat correct w w' res Hrun Hok j q Hj Hc Hq). }
  destruct (authenticateUser_success e chat correct w w' res Hrun Hok) as (Hpw & _ & Hw').
  assert (Hclock : clock w' = clock w) by (rewrite Hw'; reflexivity).
  assert (Hne : correct ≠ "").
  { intros ->. rewrite authenticateUser_run, Hpw in Hrun. simpl in Hrun.
    injection Hrun as <- _. discriminate. }
  split; [exact Hnone|].
  destruct (first_failure e chat bad correct (advance d w') 0 Hpw Hne Hbad Hnone)
    as (Hfail & Hblocked).
  - simpl. rewrite Hclock. exact Hfresh.
  - lia.
  - unfold advance in Hfail, Hblocked. cbn [clock sessions sent] in Hfail, Hblocked.
    rewrite Z.add_0_r, Hclock in Hblocked. rewrite Hclock in Hfail.
    eexists. split; [unfold advance; rewrite Hclock; exact Hfail|].
    split; [apply lookup_insert_eq | exact Hblocked].
Qed.

Lemma success_resets_counter_witness :
  authenticateUser env0 "42" "s3cret" initializeSessionManager w_relogin
  = (Ok (mkAuthResult true "Autentikasi berhasil"), w_relogged)
  ∧ success (mkAuthResult true "Autentikasi berhasil") = true
  ∧ "wrong" ≠ "s3cret"
  ∧ sessions w_relogged !! session_id "42" "auth_attempts" (clock w_relogin + 1000) = None
  ∧ ∃ w'',
      authenticateUser env0 "42" "wrong" initializeSessionManager (advance 1000 w_relogged)
      = (Ok (mkAuthResult false "Password salah"), w'')
      ∧ isUserBlocked env0 "42" initializeSessionManager w''
        = (Ok (mkBlockStatus false None (Some (maxAttempts env0 - 1))), w'').
Proof.
  assert (Hrun : authenticateUser env0 "42" "s3cret" initializeSessionManager w_relogin
                 = (Ok (mkAuthResult true "Autentikasi berhasil"), w_relogged))
    by (vm_compute; reflexivity).
  assert (Hbad : "wrong" ≠ "s3cret") by discriminate.
  split; [exact Hrun|]. split; [reflexivity|]. split; [exact Hbad|].
  split; [reflexivity|].
  destruct (success_resets_counter env0 "42" "s3cret" "wrong" w_relogin w_relogged _ 1000
              Hrun eq_refl Hbad eq_refl)
    as (_ & w'' & Hfail & _ & Hblocked).
  exists w''. split; [exact Hfail | exact Hblocked].
Defined.

(** X15. A lockout ends with the counter's session. The failure that
    reaches [maxAttempts] stamps [blockedUntil = now + timeoutMinutes * 60000]
    on the counter but leaves the counter's expiry (15 minutes after the
    first failure) as it was. While the counter lives and before
    [blockedUntil], isUserBlocked answers blocked; once the counter has
    expired it answers not blocked, with no attempts left reported,
    whatever [blockedUntil] says, and leaves the table as it is. *)
Theorem lockout_ends_when_counter_expires (e : env) (chat id : string) (r : row) (n : Z)
    (t : gmap string row) (w : world) (d : Z) :
  let sm := initializeSessionManager in
  let until := clock w + timeoutMinutes e * 60 * 1000 in
  sessions w = <[id := r]> t →
  (∀ j q, t !! j = Some q → ¬ of_chat_type chat "auth_attempts" (j, q)) →
  r_chatId r = chat → r_type r = "auth_attempts" →
  0 ≤ clock w < r_expires r →
  r_data r !! "attempts" = Some (JNum n) →
  maxAttempts e ≤ n + 1 →
  0 ≤ d →
  ∃ w1 r',
    trackFailedAttempt e chat sm w = (Ok tt, w1)
    ∧ sessions w1 = <[id := r']> t
    ∧ r_data r' !! "blockedUntil" = Some (JNum until)
    ∧ r_expires r' = r_expires r
    ∧ (clock w + d < r_expires r → clock w + d < until →
       isUserBlocked e chat sm (advance d w1)
       = (Ok (mkBlockStatus true
                (Some (Math_ceil_div (until - (clock w + d)) (60 * 1000))) None),
          advance d w1))
    ∧ (r_expires r ≤ clock w + d →
       isUserBlocked e chat sm (advance d w1)
       = (Ok (mkBlockStatus false None None), advance d w1)).
Proof.
  intros sm until Htab Hnone Hc Hty [Hclock Hexp] Hn Hmax Hd. subst sm.
  destruct (trackFailedAttempt_next e chat id r n t w Htab Hnone Hc Hty Hexp Hn)
    as (r' & Hrun & Hc' & Hty' & Hexp' & _ & Hn' & _ & Hb).
  assert (Hle : (maxAttempts e <=? n + 1) = true) by (apply Z.leb_le; exact Hmax).
  rewrite Hle in Hb. fold until in Hb.
  exists (mkWorld (<[id := r']> t) (clock w) (sent w)), r'.
  split; [exact Hrun|]. split; [reflexivity|]. split; [exact Hb|].
  split; [exact Hexp'|]. split.
  - intros Hlive Hbefore.
    set (w1 := advance d (mkWorld (<[id := r']> t) (clock w) (sent w))).
    assert (Hlook : getSession chat (Some "auth_attempts") w1
                    = (Ok (Some (session_of_row id r')), w1)).
    { apply (getSession_attempts_only chat id r' t);
        [reflexivity | exact Hnone | exact Hc' | exact Hty' |].
      rewrite Hexp'. exact Hlive. }
    rewrite (isUserBlocked_session e chat w1 (session_of_row id r') (n + 1)).
    + cbn [s_data session_of_row]. rewrite js_get_parse, Hb.
      cbn [from_option truthy]. rewrite Hle.
      destruct (Z.eqb_spec until 0) as [H0|_]; [lia|]. cbn [negb andb].
      destruct (Z.ltb_spec (clock w1) until) as [_|Hge]; [reflexivity|].
      exfalso. unfold w1 in Hge. simpl in Hge. lia.
    + rewrite Hlook. reflexivity.
    + left. cbn [s_data session_of_row]. rewrite js_get_parse, Hn'. reflexivity.
  - intros Hdead. apply isUserBlocked_no_session. apply getSession_null_iff.
    intros j q Hj (Hcq & Hlive & Hq). simpl in Hj, Hlive, Hq.
    apply lookup_insert_Some in Hj as [[_ <-]|[_ Hj]].
    + rewrite Hexp' in Hlive. lia.
    + apply (Hnone j q Hj). split; assumption.
Qed.

Lemma lockout_ends_when_counter_expires_witness :
  let r := mkRow "42" "auth_attempts" ""
                 {[ "attempts" := JNum 2; "lastAttempt" := JNum 2000 ]} 901000 1000 in
  let w := mkWorld {[ "42_auth_attempts_1000" := r ]} 3000 [] in
  0 ≤ clock w < r_expires r
  ∧ maxAttempts env0 ≤ 2 + 1
  ∧ ∃ w1,
      trackFailedAttempt env0 "42" initializeSessionManager w = (Ok tt, w1)
      ∧ isUserBlocked env0 "42" initializeSessionManager (advance 60000 w1)
        = (Ok (mkBlockStatus true (Some 29) None), advance 60000 w1)
      ∧ isUserBlocked env0 "42" initializeSessionManager (advance 900000 w1)
        = (Ok (mkBlockStatus false None None), advance 900000 w1).
Proof.
  intros r w.
  assert (Hnone : ∀ j q, (∅ : gmap string row) !! j = Some q →
                         ¬ of_chat_type "42" "auth_attempts" (j, q)).
  { intros j q Hj. rewrite lookup_empty in Hj. discriminate. }
  assert (Hclock : 0 ≤ clock w < r_expires r) by (simpl; lia).
  assert (Hmax : maxAttempts env0 ≤ 2 + 1) by (vm_compute; discriminate).
  split; [exact Hclock|]. split; [exact Hmax|].
  destruct (lockout_ends_when_counter_expires env0 "42" "42_auth_attempts_1000" r 2 ∅ w
              60000 eq_refl Hnone eq_refl eq_refl Hclock eq_refl Hmax ltac:(lia))
    as (w1 & r1 & Hrun & Htab1 & _ & _ & Hblocked & _).
  destruct (lockout_ends_when_counter_expires env0 "42" "42_auth_attempts_1000" r 2 ∅ w
              900000 eq_refl Hnone eq_refl eq_refl Hclock eq_refl Hmax ltac:(lia))
    as (w2 & r2 & Hrun2 & _ & _ & _ & _ & Hfree).
  rewrite Hrun in Hrun2. injection Hrun2 as <-.
  exists w1. split; [exact Hrun|]. split.
  - apply Hblocked; vm_compute; reflexivity.
  - apply Hfree. vm_compute. discriminate.
Defined.

(** * The login conversation *)

Lemma advance_0 (w : world) : advance 0 w = w.
Proof. destruct w as [t c l]. unfold advance. simpl. rewrite Z.add_0_r. reflexivity. Qed.

(** The lookup returns the active row that was created after every other
    active row it could return. *)
Lemma getSession_strictly_newest (chat : string) (ty : option string) (w : world)
    (id : string) (r : row) :
  sessions w !! id = Some r →
  active_for chat (clock w) (type_filter ty) (id, r) →
  (∀ j q, sessions w !! j = Some q → active_for chat (clock w) (type_filter ty) (j, q) →
          j = id ∨ r_createdAt q < r_createdAt r) →
  getSession chat ty w = (Ok (Some (session_of_row id r)), w).
Proof.
  intros Hid Hact Hmax. rewrite getSession_run.
  rewrite (newest_strict _ (id, r)); [reflexivity | |].
  - apply list_elem_of_filter. split; [exact Hact | apply elem_of_map_to_list, Hid].
  - intros [j q] Hin. apply list_elem_of_filter in Hin as [Hq Hj].
    apply elem_of_map_to_list in Hj.
    destruct (Hmax j q Hj Hq) as [->|Hlt]; [|right; exact Hlt].
    left. rewrite Hid in Hj. injection Hj as <-. reflexivity.
Qed.

(** X16. A wrong password can not be retried by typing again. When the
    password handler takes a wrong password from a chat that has no
    attempt counter yet, it answers with the attempts that are left and
    keeps the login session, but the counter it creates is now the most
    recent session of the chat: for the 15 minutes the counter lives, the
    text dispatcher finds the counter, whose state is empty, and hands the
    next text of the chat to no handler. *)
Theorem retry_after_wrong_password_not_dispatched (e : env)
    (chat text text' correct : string) (s : session) (w : world) (d : Z) :
  let sm := initializeSessionManager in
  let id := session_id chat "auth_attempts" (clock w) in
  let counter := mkRow chat "auth_attempts" ""
                       {[ "attempts" := JNum 1; "lastAttempt" := JNum (clock w) ]}
                       (clock w + 15 * 60 * 1000) (clock w) in
  BOT_PASSWORD e = Some correct → correct ≠ "" →
  text ≠ "" → trim text ≠ correct →
  (∀ j q, sessions w !! j = Some q → r_chatId q = chat →
          r_type q ≠ "auth_attempts" ∧ r_createdAt q < clock w) →
  sessions w !! id = None →
  text' ≠ "" → startsWith text' "/" = false →
  0 ≤ d < 15 * 60 * 1000 →
  ∃ w1,
    handlePasswordInput e chat text s sm w = (Ok tt, w1)
    ∧ sent w1 = sent w ++ [VerifyingPassword;
                           LoginFailed "Password salah"
                             (if 0 <? maxAttempts e - 1 then Some (maxAttempts e - 1)
                              else None) None]
    ∧ sessions w1 = <[id := counter]> (sessions w)
    ∧ clock w1 = clock w
    ∧ textDispatch chat text' (Some sm) (advance d w1)
      = (Ok (Some (session_of_row id counter, None)), advance d w1).
Proof.
  intros sm id counter Hpw Hne Htext Hbad Hold Hfresh Htext' Hslash [Hd0 Hd]. subst sm.
  assert (Hnone : ∀ j q, sessions w !! j = Some q →
                         ¬ of_chat_type chat "auth_attempts" (j, q)).
  { intros j q Hj [Hc Hq]. destruct (Hold j q Hj Hc) as [Hty _]. contradiction. }
  set (wa := mkWorld (sessions w) (clock w) (sent w ++ [VerifyingPassword])).
  destruct (first_failure e chat (trim text) correct wa 0 Hpw Hne Hbad Hnone Hfresh
              ltac:(lia)) as (Hfail & Hblocked).
  rewrite advance_0 in Hblocked. cbn [sessions clock sent wa] in Hfail, Hblocked.
  fold id counter in Hfail, Hblocked.
  set (w1 := mkWorld (<[id := counter]> (sessions w)) (clock w)
                     (sent w ++ [VerifyingPassword])) in *.
  set (failed := LoginFailed "Password salah"
                   (if 0 <? maxAttempts e - 1 then Some (maxAttempts e - 1) else None)
                   None).
  set (w2 := mkWorld (<[id := counter]> (sessions w)) (clock w)
                     (sent w ++ [VerifyingPassword; failed])).
  assert (Hreply : ctx_reply failed w1 = (Ok tt, w2)).
  { unfold ctx_reply, w1, w2. cbn [sessions clock sent].
    rewrite <- app_assoc. reflexivity. }
  exists w2. split; [|split; [reflexivity|split; [reflexivity|split; [reflexivity|]]]].
  - unfold handlePasswordInput. apply String.eqb_neq in Htext. rewrite Htext.
    rewrite (bind_Ok _ _ w w _
               (isUserBlocked_no_session e chat w
                  (f_equal fst (getSession_attempts_none chat w Hnone)))).
    cbn [blocked]. cbv beta iota.
    rewrite (bind_Ok (ctx_reply VerifyingPassword) _ w wa tt eq_refl). unfold try_catch.
    rewrite (bind_Ok _ _ wa w1 _ Hfail). cbn [success]. cbv beta iota.
    rewrite (bind_Ok _ _ w1 w1 _ Hblocked). cbn [attemptsLeft blocked message].
    cbv beta iota. unfold failed in Hreply.
    destruct (Z.eqb_spec (maxAttempts e - 1) 0) as [H0|H0].
    + cbn [negb andb]. rewrite H0 in Hreply. cbn [Z.ltb Z.compare] in Hreply.
      rewrite Hreply. reflexivity.
    + cbn [negb andb]. destruct (0 <? maxAttempts e - 1); rewrite Hreply; reflexivity.
  - unfold textDispatch. apply String.eqb_neq in Htext'. rewrite Htext', Hslash.
    cbn [orb getSessionData m_getSession initializeSessionManager].
    assert (Hlook : getSession chat None (advance d w2)
                    = (Ok (Some (session_of_row id counter)), advance d w2)).
    { apply getSession_strictly_newest.
      - apply lookup_insert_eq.
      - unfold active_for. simpl. split; [reflexivity|]. split; [lia | exact I].
      - intros j q Hj (Hc & _ & _). cbn [sessions advance w2] in Hj.
        apply lookup_insert_Some in Hj as [[<- _]|[_ Hj]]; [left; reflexivity|].
        right. simpl. apply (Hold j q Hj Hc). }
    rewrite (bind_Ok _ _ (advance d w2) (advance d w2) _ Hlook). reflexivity.
Qed.

Lemma retry_after_wrong_password_not_dispatched_witness :
  let login := mkRow "42" "login" "awaiting_password" ∅ 904000 4000 in
  let w := mkWorld {[ "42_login_4000" := login ]} 9000 [] in
  let s := session_of_row "42_login_4000" login in
  textDispatch "42" "wrong" (Some initializeSessionManager) w
  = (Ok (Some (s, Some PasswordInput)), w)
  ∧ BOT_PASSWORD env0 = Some "s3cret" ∧ "s3cret" ≠ "" ∧ "wrong" ≠ ""
  ∧ trim "wrong" ≠ "s3cret"
  ∧ trim (NBSP +:+ "s3cret" +:+ NBSP) = "s3cret"
  ∧ sessions w !! session_id "42" "auth_attempts" (clock w) = None
  ∧ startsWith "s3cret" "/" = false
  ∧ 0 ≤ 1000 < 15 * 60 * 1000
  ∧ ∃ w1,
      handlePasswordInput env0 "42" "wrong" s initializeSessionManager w = (Ok tt, w1)
      ∧ sent w1 = [VerifyingPassword; LoginFailed "Password salah" (Some 2) None]
      ∧ sessions w1 !! "42_login_4000" = Some login
      ∧ (textDispatch "42" "s3cret" (Some initializeSessionManager) (advance 1000 w1)).1
        = Ok (Some (session_of_row "42_auth_attempts_9000"
                      (mkRow "42" "auth_attempts" ""
                             {[ "attempts" := JNum 1; "lastAttempt" := JNum 9000 ]}
                             909000 9000),
                    None)).
Proof.
  intros login w s.
  assert (Hne : "s3cret" ≠ "") by discriminate.
  assert (Htext : "wrong" ≠ "") by discriminate.
  assert (Hbad : trim "wrong" ≠ "s3cret") by (vm_compute; discriminate).
  assert (Hd : 0 ≤ 1000 < 15 * 60 * 1000) by lia.
  assert (Hold : ∀ j q, sessions w !! j = Some q → r_chatId q = "42" →
                        r_type q ≠ "auth_attempts" ∧ r_createdAt q < clock w).
  { intros j q Hj _. unfold w in Hj. cbn [sessions] in Hj.
    apply lookup_singleton_Some in Hj as [_ <-]. split; [discriminate | simpl; lia]. }
  split; [vm_compute; reflexivity|].
  split; [reflexivity|]. split; [exact Hne|]. split; [exact Htext|].
  split; [exact Hbad|]. split; [vm_compute; reflexivity|].
  split; [reflexivity|]. split; [reflexivity|].
  split; [exact Hd|].
  destruct (retry_after_wrong_password_not_dispatched env0 "42" "wrong" "s3cret" "s3cret"
              s w 1000 eq_refl Hne Htext Hbad Hold eq_refl Hne eq_refl Hd)
    as (w1 & Hrun & Hsent & Htab & _ & Hnext).
  exists w1. split; [exact Hrun|]. split; [rewrite Hsent; reflexivity|]. split.
  - rewrite Htab. vm_compute. reflexivity.
  - rewrite Hnext. reflexivity.
Defined.

(** [/login] of a chat that is neither logged in nor blocked. *)
Lemma command_login_open (e : env) (chat : string) (w w0 : world) (bs : blockStatus) :
  let id := session_id chat "login" (clock w) in
  (isUserAuthenticated chat initializeSessionManager w).1 = Ok false →
  isUserBlocked e chat initializeSessionManager w = (Ok bs, w0) →
  blocked bs = false →
  sessions w !! id = None →
  let T := match (getSession chat None w0).1 with
           | Ok (Some s) => if negb (String.eqb (s_type s) "auth_attempts")
                            then delete (s_id s) (sessions w0) else sessions w0
           | _ => sessions w0
           end in
  command_login e chat initializeSessionManager w
  = (Ok (AskPassword match attemptsLeft bs with
                     | Some n => if n =? 0 then None else Some n
                     | None => None
                     end),
     mkWorld (<[id := mkRow chat "login" "awaiting_password" ∅
                            (clock w + 15 * 60 * 1000) (clock w)]> T)
             (clock w) (sent w))
  ∧ T !! id = None
  ∧ (∀ j q, T !! j = Some q → sessions w !! j = Some q)
  ∧ (∀ s, (getSession chat None w0).1 = Ok (Some s) → s_type s ≠ "auth_attempts" →
          T !! s_id s = None).
Proof.
  intros id Hauth Hblock Hfree Hfresh.
  destruct (isUserBlocked_shape e chat w w0 _ Hblock) as (Hclock & Hsent & Htab).
  assert (Hsub : ∀ j q, sessions w0 !! j = Some q → sessions w !! j = Some q).
  { intros j q Hj. destruct Htab as [Htab|Htab]; rewrite Htab in Hj; [exact Hj|].
    apply map_lookup_filter_Some in Hj as [Hj _]. exact Hj. }
  assert (Hfresh0 : sessions w0 !! id = None).
  { destruct (sessions w0 !! id) as [q|] eqn:Hq; [|reflexivity].
    apply Hsub in Hq. congruence. }
  intros T.
  assert (HT : ∀ j q, T !! j = Some q → sessions w0 !! j = Some q).
  { intros j q. unfold T.
    destruct ((getSession chat None w0).1) as [[s|]|err]; try exact (λ H, H).
    destruct (negb _); [|exact (λ H, H)].
    intros Hj. apply lookup_delete_Some in Hj as [_ Hj]. exact Hj. }
  assert (HTid : T !! id = None).
  { destruct (T !! id) as [q|] eqn:Hq; [|reflexivity]. apply HT in Hq. congruence. }
  split; [|split; [exact HTid|split]].
  - unfold command_login.
    rewrite (bind_Ok _ _ w w false).
    2:{ rewrite isUserAuthenticated_run. rewrite isUserAuthenticated_run in Hauth.
        cbn [fst] in Hauth. injection Hauth as ->. reflexivity. }
    cbv beta iota. rewrite (bind_Ok _ _ w w0 bs Hblock). rewrite Hfree.
    cbn [m_getSession m_deleteSession m_createSession m_updateSession
         initializeSessionManager].
    set (wT := mkWorld T (clock w) (sent w)).
    assert (Hlook : ∃ o, getSession chat None w0 = (Ok o, w0))
      by (rewrite getSession_run; eexists; reflexivity).
    destruct Hlook as [o Hlook].
    assert (Ho : (getSession chat None w0).1 = Ok o) by (rewrite Hlook; reflexivity).
    rewrite (bind_Ok _ _ w0 w0 o Hlook).
    assert (Hdel : (match o with
                    | Some s => if negb (String.eqb (s_type s) "auth_attempts")
                                then bind (deleteSession (s_id s)) (λ _, ret tt)
                                else ret tt
                    | None => ret tt
                    end) w0 = (Ok tt, wT)).
    { unfold wT, T. rewrite Ho. rewrite <- Hclock, <- Hsent.
      destruct o as [s|]; [|destruct w0; reflexivity].
      destruct (negb _); [|destruct w0; reflexivity].
      rewrite (bind_Ok _ _ _ _ _ (deleteSession_run (s_id s) w0)). reflexivity. }
    rewrite (bind_Ok _ _ w0 wT tt Hdel).
    pose proof (createSession_run chat "login" ∅ wT) as Hcreate.
    cbn [sessions clock sent wT] in Hcreate. fold id in Hcreate.
    rewrite HTid in Hcreate. rewrite (bind_Ok _ _ _ _ _ Hcreate). cbn [s_id].
    match type of Hcreate with _ = (_, ?w2) => set (wc := w2) end.
    destruct (updateSession_found wc id _ (mkUpdates (Some "awaiting_password") None)
                (lookup_insert_eq _ _ _)) as (s & Hrun & _ & _ & _ & Hst & Hdata & _).
    rewrite (bind_Ok _ _ _ _ _ Hrun). unfold ret.
    cbn [u_state u_data default r_state r_data r_chatId r_type r_expires r_createdAt
         sessions clock sent wc] in *.
    rewrite Hst, Hdata, JSON_stringify_parse, insert_insert_eq.
    change (JSON_stringify (∅ : object)) with (∅ : document). reflexivity.
  - intros j q Hj. apply Hsub, HT, Hj.
  - intros s Hs Hty. unfold T. rewrite Hs.
    apply String.eqb_neq in Hty. rewrite Hty. cbn [negb]. apply lookup_delete_eq.
Qed.

(** X17. [/login] opens the password dialogue. For a chat that is neither
    logged in nor blocked, the table after the command is the table that
    the check of the lockout leaves (the table before the command, or that
    table without the attempt counters of the chat, which the check deletes
    when a lockout has run out), without the flow in progress (the most
    recent active session of the chat, unless that is the attempt counter)
    and with one more row, the login session in state awaiting_password.
    When the rows of the chat were all created before the command, the
    dispatcher hands the texts of the chat to the password handler for the
    next 15 minutes, whether an attempt counter is there or not. *)
Theorem login_command_opens_password_dialogue (e : env) (chat text : string)
    (w w0 : world) (bs : blockStatus) (d : Z) :
  let sm := initializeSessionManager in
  let id := session_id chat "login" (clock w) in
  let login := mkRow chat "login" "awaiting_password" ∅
                     (clock w + 15 * 60 * 1000) (clock w) in
  let kept := match (getSession chat None w0).1 with
              | Ok (Some s) => if negb (String.eqb (s_type s) "auth_attempts")
                               then delete (s_id s) (sessions w0) else sessions w0
              | _ => sessions w0
              end in
  (isUserAuthenticated chat sm w).1 = Ok false →
  isUserBlocked e chat sm w = (Ok bs, w0) →
  blocked bs = false →
  sessions w !! id = None →
  (∀ j q, sessions w !! j = Some q → r_chatId q = chat → r_createdAt q < clock w) →
  text ≠ "" → startsWith text "/" = false →
  0 ≤ d < 15 * 60 * 1000 →
  ∃ w1 left,
    command_login e chat sm w = (Ok (AskPassword left), w1)
    ∧ sessions w1 = <[id := login]> kept
    ∧ kept !! id = None
    ∧ (sessions w0 = sessions w
       ∨ sessions w0 = filter (λ kr, ¬ of_chat_type chat "auth_attempts" kr) (sessions w))
    ∧ (∀ s, (getSession chat None w0).1 = Ok (Some s) → s_type s ≠ "auth_attempts" →
            sessions w1 !! s_id s = None)
    ∧ sent w1 = sent w
    ∧ textDispatch chat text (Some sm) (advance d w1)
      = (Ok (Some (session_of_row id login, Some PasswordInput)), advance d w1).
Proof.
  intros sm id login kept Hauth Hblock Hfree Hfresh Hold Htext Hslash [Hd0 Hd]. subst sm.
  destruct (command_login_open e chat w w0 bs Hauth Hblock Hfree Hfresh)
    as (Hrun & HTid & HT & Hgone).
  fold id login kept in Hrun, HTid, HT, Hgone.
  destruct (isUserBlocked_shape e chat w w0 _ Hblock) as (_ & _ & Htab).
  eexists. eexists. split; [exact Hrun|]. cbn [sessions sent].
  split; [reflexivity|]. split; [exact HTid|]. split; [exact Htab|].
  split; [|split; [reflexivity|]].
  - intros s Hs Hty. rewrite lookup_insert_ne; [apply (Hgone s Hs Hty)|].
    intros Heq. rewrite getSession_run in Hs. cbn [fst] in Hs.
    destruct (newest _) as [[j q]|] eqn:Hn; [|discriminate].
    injection Hs as <-. cbn [s_id session_of_row fst] in Heq. subst j.
    apply newest_elem, elem_of_active in Hn as (Hj & _).
    assert (Hw : sessions w !! id = Some q).
    { destruct Htab as [Htab|Htab]; rewrite Htab in Hj; [exact Hj|].
      apply map_lookup_filter_Some in Hj as [Hj _]. exact Hj. }
    congruence.
  - unfold textDispatch. apply String.eqb_neq in Htext. rewrite Htext, Hslash.
    cbn [orb getSessionData m_getSession initializeSessionManager].
    match goal with |- bind _ _ ?w2 = _ => set (w2' := w2) end.
    assert (Hlook : getSession chat None w2' = (Ok (Some (session_of_row id login)), w2')).
    { apply getSession_strictly_newest.
      - apply lookup_insert_eq.
      - unfold active_for. simpl. split; [reflexivity|]. split; [lia | exact I].
      - intros j q Hj (Hc & _ & _). cbn [sessions advance w2'] in Hj.
        apply lookup_insert_Some in Hj as [[<- _]|[_ Hj]]; [left; reflexivity|].
        right. simpl. apply (Hold j q (HT j q Hj) Hc). }
    rewrite (bind_Ok _ _ w2' w2' _ Hlook). reflexivity.
Qed.

Lemma login_command_opens_password_dialogue_witness :
  let flow := mkRow "42" "add_account" "awaiting_phone" ∅ 904000 4000 in
  let counter := mkRow "42" "auth_attempts" ""
                       {[ "attempts" := JNum 1; "lastAttempt" := JNum 3000 ]}
                       903000 3000 in
  let w := mkWorld {[ "42_add_account_4000" := flow; "42_auth_attempts_3000" := counter ]}
                   9000 [] in
  let login := mkRow "42" "login" "awaiting_password" ∅ 909000 9000 in
  (isUserAuthenticated "42" initializeSessionManager w).1 = Ok false
  ∧ isUserBlocked env0 "42" initializeSessionManager w
    = (Ok (mkBlockStatus false None (Some 2)), w)
  ∧ sessions w !! session_id "42" "login" (clock w) = None
  ∧ "s3cret" ≠ "" ∧ startsWith "s3cret" "/" = false
  ∧ 0 ≤ 1000 < 15 * 60 * 1000
  ∧ (getSession "42" None w).1 = Ok (Some (session_of_row "42_add_account_4000" flow))
  ∧ (∃ w1,
       command_login env0 "42" initializeSessionManager w = (Ok (AskPassword (Some 2)), w1)
       ∧ sessions w1 = {[ "42_login_9000" := login; "42_auth_attempts_3000" := counter ]}
       ∧ (textDispatch "42" "s3cret" (Some initializeSessionManager) (advance 1000 w1)).1
         = Ok (Some (session_of_row "42_login_9000" login, Some PasswordInput)))
  ∧ isUserBlocked env0 "42" initializeSessionManager w_stale
    = (Ok (mkBlockStatus false None None), mkWorld ∅ 70000 [])
  ∧ ∃ w2 left,
      command_login env0 "42" initializeSessionManager w_stale = (Ok (AskPassword left), w2)
      ∧ sessions w2
        = {[ "42_login_70000" := mkRow "42" "login" "awaiting_password" ∅ 970000 70000 ]}.
Proof.
  intros flow counter w login.
  assert (Hauth : (isUserAuthenticated "42" initializeSessionManager w).1 = Ok false)
    by (vm_compute; reflexivity).
  assert (Hblock : isUserBlocked env0 "42" initializeSessionManager w
                   = (Ok (mkBlockStatus false None (Some 2)), w))
    by (vm_compute; reflexivity).
  assert (Hlook : (getSession "42" None w).1
                  = Ok (Some (session_of_row "42_add_account_4000" flow)))
    by (vm_compute; reflexivity).
  assert (Hne : "s3cret" ≠ "") by discriminate.
  assert (Hd : 0 ≤ 1000 < 15 * 60 * 1000) by lia.
  assert (Hold : ∀ j q, sessions w !! j = Some q → r_chatId q = "42" →
                        r_createdAt q < clock w).
  { intros j q Hj _. unfold w in Hj. cbn [sessions] in Hj.
    apply lookup_insert_Some in Hj as [[_ <-]|[_ Hj]]; [simpl; lia|].
    apply lookup_singleton_Some in Hj as [_ <-]. simpl; lia. }
  assert (Hauth' : (isUserAuthenticated "42" initializeSessionManager w_stale).1 = Ok false)
    by (vm_compute; reflexivity).
  assert (Hblock' : isUserBlocked env0 "42" initializeSessionManager w_stale
                    = (Ok (mkBlockStatus false None None), mkWorld ∅ 70000 []))
    by (vm_compute; reflexivity).
  assert (Hold' : ∀ j q, sessions w_stale !! j = Some q → r_chatId q = "42" →
                         r_createdAt q < clock w_stale).
  { intros j q Hj _. unfold w_stale in Hj. cbn [sessions] in Hj.
    apply lookup_singleton_Some in Hj as [_ <-]. simpl; lia. }
  split; [exact Hauth|]. split; [exact Hblock|]. split; [reflexivity|].
  split; [exact Hne|]. split; [reflexivity|]. split; [exact Hd|]. split; [exact Hlook|].
  split; [|split; [exact Hblock'|]].
  - destruct (login_command_opens_password_dialogue env0 "42" "s3cret" w w _ 1000
                Hauth Hblock eq_refl eq_refl Hold Hne eq_refl Hd)
      as (w1 & left & Hrun & Htab & _ & _ & _ & _ & Hnext).
    assert (Hleft : left = Some 2).
    { assert (Hc : command_login env0 "42" initializeSessionManager w
                   = (Ok (AskPassword (Some 2)),
                      (command_login env0 "42" initializeSessionManager w).2))
        by (vm_compute; reflexivity).
      rewrite Hrun in Hc. injection Hc as ->. reflexivity. }
    subst left.
    exists w1. split; [exact Hrun|]. split.
    + rewrite Htab. vm_compute. reflexivity.
    + rewrite Hnext. reflexivity.
  - destruct (login_command_opens_password_dialogue env0 "42" "s3cret" w_stale _ _ 1000
                Hauth' Hblock' eq_refl eq_refl Hold' Hne eq_refl Hd)
      as (w2 & left & Hrun & Htab & _).
    exists w2, left. split; [exact Hrun|]. rewrite Htab. vm_compute. reflexivity.
Defined.

(** X18. The password handler logs the chat in. When the chat is not
    blocked and the text, with the white space around it trimmed, is the
    configured password, the handler answers that it verifies and that the
    login succeeded, deletes the session it was given (the login session),
    leaves the chat without attempt counter and with the new authenticated
    session, and from then on the chat counts as logged in for 24 hours. *)
Theorem handlePasswordInput_logs_in (e : env) (chat text : string) (s : session)
    (w w0 : world) (bs : blockStatus) (d : Z) :
  let sm := initializeSessionManager in
  let id := session_id chat "authenticated" (clock w) in
  BOT_PASSWORD e = Some (trim text) → trim text ≠ "" → text ≠ "" →
  isUserBlocked e chat sm w = (Ok bs, w0) →
  blocked bs = false →
  sessions w !! id = None →
  is_Some (sessions w !! s_id s) →
  ∃ w1,
    handlePasswordInput e chat text s sm w = (Ok tt, w1)
    ∧ sent w1 = sent w ++ [VerifyingPassword; LoginSucceeded]
    ∧ sessions w1 !! s_id s = None
    ∧ sessions w1 !! id
      = Some (mkRow chat "authenticated" ""
                    {[ "authenticated" := JBool true; "loginTime" := JNum (clock w) ]}
                    (clock w + 24 * 60 * 60 * 1000) (clock w))
    ∧ (∀ j q, sessions w1 !! j = Some q → r_chatId q = chat → r_type q ≠ "auth_attempts")
    ∧ (∀ j q, sessions w1 !! j = Some q → j = id ∨ sessions w !! j = Some q)
    ∧ isUserAuthenticated chat sm (advance d w1)
      = (Ok (bool_decide (d < 24 * 60 * 60 * 1000)), advance d w1).
Proof.
  intros sm id Hpw Hne Htext Hblock Hfree Hfresh [l Hl]. subst sm.
  destruct (isUserBlocked_shape e chat w w0 _ Hblock) as (Hclock & Hsent & Htab).
  assert (Hsub : ∀ j q, sessions w0 !! j = Some q → sessions w !! j = Some q).
  { intros j q Hj. destruct Htab as [Htab|Htab]; rewrite Htab in Hj; [exact Hj|].
    apply map_lookup_filter_Some in Hj as [Hj _]. exact Hj. }
  assert (Hsid : s_id s ≠ id) by congruence.
  set (wa := mkWorld (sessions w0) (clock w0) (sent w0 ++ [VerifyingPassword])).
  set (t := filter (λ kr, ¬ of_chat_type chat "authenticated" kr)
              (filter (λ kr, ¬ of_chat_type chat "auth_attempts" kr) (sessions w0))).
  assert (Ht : ∀ j q, t !! j = Some q → sessions w !! j = Some q).
  { intros j q Hj. apply map_lookup_filter_Some in Hj as [Hj _].
    apply map_lookup_filter_Some in Hj as [Hj _]. apply Hsub, Hj. }
  assert (Htid : t !! id = None).
  { destruct (t !! id) as [q|] eqn:Hq; [|reflexivity]. apply Ht in Hq. congruence. }
  pose proof (authenticateUser_correct_password e chat (trim text) wa Hpw Hne) as Hlogin.
  cbn [sessions clock sent wa] in Hlogin. fold t in Hlogin.
  rewrite Hclock in Hlogin. fold id in Hlogin. specialize (Hlogin Htid).
  rewrite Hsent in Hlogin.
  set (auth := mkRow chat "authenticated" ""
                     {[ "authenticated" := JBool true; "loginTime" := JNum (clock w) ]}
                     (clock w + 24 * 60 * 60 * 1000) (clock w)) in *.
  set (w1 := mkWorld (delete (s_id s) (<[id := auth]> t)) (clock w)
                     (sent w ++ [VerifyingPassword; LoginSucceeded])).
  assert (Hshape : sessions w1 = <[id := auth]> (delete (s_id s) t)).
  { cbn [sessions w1]. apply delete_insert_ne. exact Hsid. }
  exists w1. split; [|split; [reflexivity|split; [|split; [|split; [|split]]]]].
  - unfold handlePasswordInput. apply String.eqb_neq in Htext. rewrite Htext.
    rewrite (bind_Ok _ _ w w0 bs Hblock). rewrite Hfree.
    rewrite (bind_Ok (ctx_reply VerifyingPassword) _ w0 wa tt eq_refl). unfold try_catch.
    rewrite (bind_Ok _ _ wa _ _ Hlogin). cbn [success].
    cbn [m_getSession m_deleteSession initializeSessionManager].
    match goal with
    | |- context [bind (ctx_reply LoginSucceeded) ?k ?w2] =>
        rewrite (bind_Ok (ctx_reply LoginSucceeded) k w2 _ tt eq_refl)
    end.
    cbn [sessions clock sent].
    match goal with
    | |- context [bind (deleteSession ?i) ?k ?w2] =>
        rewrite (bind_Ok (deleteSession i) k w2 _ _ (deleteSession_run i w2))
    end.
    cbn [sessions clock sent]. rewrite <- app_assoc. cbn [app]. fold w1.
    rewrite (bind_Ok _ _ w1 w1 _ (getSession_run chat (Some "authenticated") w1)).
    reflexivity.
  - cbn [sessions w1]. apply lookup_delete_eq.
  - rewrite Hshape. apply lookup_insert_eq.
  - intros j q Hj Hc Hty. rewrite Hshape in Hj.
    apply lookup_insert_Some in Hj as [[_ <-]|[_ Hj]]; [discriminate|].
    apply lookup_delete_Some in Hj as [_ Hj].
    apply map_lookup_filter_Some in Hj as [Hj _].
    apply map_lookup_filter_Some in Hj as [_ Hnot]. apply Hnot. split; assumption.
  - intros j q Hj. rewrite Hshape in Hj.
    apply lookup_insert_Some in Hj as [[<- _]|[_ Hj]]; [left; reflexivity|].
    apply lookup_delete_Some in Hj as [_ Hj]. right. apply Ht, Hj.
  - rewrite isUserAuthenticated_run.
    rewrite (getSession_typed_only chat "authenticated" id auth (delete (s_id s) t)
               (advance d w1) ltac:(discriminate) Hshape).
    + simpl.
      destruct (decide (d < 24 * 60 * 60 * 1000)) as [Hd|Hd].
      * rewrite !bool_decide_eq_true_2 by lia. reflexivity.
      * rewrite !bool_decide_eq_false_2 by lia. reflexivity.
    + intros j q Hj Hq. apply lookup_delete_Some in Hj as [_ Hj].
      apply map_lookup_filter_Some in Hj as [_ Hnot]. contradiction.
    + reflexivity.
    + reflexivity.
Qed.

Lemma handlePasswordInput_logs_in_witness :
  let login := mkRow "42" "login" "awaiting_password" ∅ 904000 4000 in
  let w := mkWorld {[ "42_login_4000" := login ]} 9000 [] in
  let s := session_of_row "42_login_4000" login in
  let text := NBSP +:+ " s3cret" +:+ NBSP in
  BOT_PASSWORD env0 = Some (trim text) ∧ trim text ≠ "" ∧ text ≠ ""
  ∧ isUserBlocked env0 "42" initializeSessionManager w
    = (Ok (mkBlockStatus false None None), w)
  ∧ sessions w !! session_id "42" "authenticated" (clock w) = None
  ∧ is_Some (sessions w !! s_id s)
  ∧ ∃ w1,
      handlePasswordInput env0 "42" text s initializeSessionManager w = (Ok tt, w1)
      ∧ sent w1 = [VerifyingPassword; LoginSucceeded]
      ∧ sessions w1 !! "42_login_4000" = None
      ∧ isUserAuthenticated "42" initializeSessionManager (advance 86399999 w1)
        = (Ok true, advance 86399999 w1)
      ∧ isUserAuthenticated "42" initializeSessionManager (advance 86400000 w1)
        = (Ok false, advance 86400000 w1).
Proof.
  intros login w s text.
  assert (Hpw : BOT_PASSWORD env0 = Some (trim text)) by (vm_compute; reflexivity).
  assert (Hne : trim text ≠ "") by (vm_compute; discriminate).
  assert (Htext : text ≠ "") by (vm_compute; discriminate).
  assert (Hblock : isUserBlocked env0 "42" initializeSessionManager w
                   = (Ok (mkBlockStatus false None None), w)) by (vm_compute; reflexivity).
  assert (Hs : is_Some (sessions w !! s_id s)) by (exists login; reflexivity).
  split; [exact Hpw|]. split; [exact Hne|]. split; [exact Htext|]. split; [exact Hblock|].
  split; [reflexivity|]. split; [exact Hs|].
  destruct (handlePasswordInput_logs_in env0 "42" text s w w _ 86399999
              Hpw Hne Htext Hblock eq_refl eq_refl Hs)
    as (w1 & Hrun & Hsent & Hgone & _ & _ & _ & Hin).
  destruct (handlePasswordInput_logs_in env0 "42" text s w w _ 86400000
              Hpw Hne Htext Hblock eq_refl eq_refl Hs)
    as (w2 & Hrun2 & _ & _ & _ & _ & _ & Hout).
  rewrite Hrun in Hrun2. injection Hrun2 as <-.
  exists w1. split; [exact Hrun|]. split; [exact Hsent|]. split; [exact Hgone|].
  split; [exact Hin | exact Hout].
Defined.

(** * The commands of a chat that has logged in *)

(** X19. For a chat that has logged in, the authenticated session is the
    flow the commands find. When the rows of the chat were all created
    before the login, then for the 24 hours the login lasts /add answers
    that a process is in progress and starts nothing, and /cancel deletes
    the authenticated session: it logs the chat out. *)
Theorem commands_after_login (e : env) (chat password : string) (w w' : world)
    (res : authResult) (d : Z) :
  let sm := initializeSessionManager in
  let id := session_id chat "authenticated" (clock w) in
  authenticateUser e chat password sm w = (Ok res, w') →
  success res = true →
  (∀ j q, sessions w !! j = Some q → r_chatId q = chat → r_createdAt q < clock w) →
  0 ≤ d < 24 * 60 * 60 * 1000 →
  command_add chat sm (advance d w')
  = (Ok tt, mkWorld (sessions w') (clock w + d) (sent w ++ [ProcessInProgress]))
  ∧ ∃ w2,
      command_cancel chat sm (advance d w') = (Ok tt, w2)
      ∧ sent w2 = sent w ++ [Cancelled]
      ∧ sessions w2 = delete id (sessions w')
      ∧ isUserAuthenticated chat sm w2 = (Ok false, w2).
Proof.
  intros sm id Hrun Hok Hold [Hd0 Hd]. subst sm.
  destruct (authenticateUser_success e chat password w w' res Hrun Hok) as (_ & Hid & Hw').
  cbv zeta in Hid, Hw'. fold id in Hid, Hw'.
  set (t := filter (λ kr, ¬ of_chat_type chat "authenticated" kr)
              (filter (λ kr, ¬ of_chat_type chat "auth_attempts" kr) (sessions w))) in *.
  set (auth := mkRow chat "authenticated" ""
                     {[ "authenticated" := JBool true; "loginTime" := JNum (clock w) ]}
                     (clock w + 24 * 60 * 60 * 1000) (clock w)) in *.
  assert (Ht : ∀ j q, t !! j = Some q → sessions w !! j = Some q).
  { intros j q Hj. apply map_lookup_filter_Some in Hj as [Hj _].
    apply map_lookup_filter_Some in Hj as [Hj _]. exact Hj. }
  assert (Hnone : ∀ j q, t !! j = Some q → ¬ of_chat_type chat "authenticated" (j, q)).
  { intros j q Hj Hq. apply map_lookup_filter_Some in Hj as [_ Hnot]. contradiction. }
  set (wd := advance d w').
  assert (Htab : sessions wd = <[id := auth]> t) by (unfold wd; rewrite Hw'; reflexivity).
  assert (Hclock : clock wd = clock w + d) by (unfold wd; rewrite Hw'; reflexivity).
  assert (Hsent : sent wd = sent w) by (unfold wd; rewrite Hw'; reflexivity).
  assert (Hauth : isUserAuthenticated chat initializeSessionManager wd = (Ok true, wd)).
  { rewrite isUserAuthenticated_run.
    rewrite (getSession_typed_only chat "authenticated" id auth t wd
               ltac:(discriminate) Htab Hnone eq_refl eq_refl).
    rewrite bool_decide_eq_true_2 by (rewrite Hclock; simpl; lia). reflexivity. }
  assert (Hlook : getSession chat None wd = (Ok (Some (session_of_row id auth)), wd)).
  { apply getSession_strictly_newest.
    - rewrite Htab. apply lookup_insert_eq.
    - unfold active_for, type_filter. cbn [snd]. split; [reflexivity|].
      split; [|exact I]. rewrite Hclock. simpl. lia.
    - intros j q Hj (Hc & _ & _). rewrite Htab in Hj.
      apply lookup_insert_Some in Hj as [[<- _]|[_ Hj]]; [left; reflexivity|].
      right. simpl. apply (Hold j q (Ht j q Hj) Hc). }
  split.
  - unfold command_add. rewrite (bind_Ok _ _ wd wd true Hauth). cbn [negb].
    unfold handleAddCommand, try_catch.
    cbn [getSessionData m_getSession initializeSessionManager].
    rewrite (bind_Ok _ _ wd wd _ Hlook). unfold ctx_reply.
    rewrite Hclock, Hsent. unfold wd. reflexivity.
  - set (w2 := mkWorld (delete id (sessions wd)) (clock wd) (sent wd ++ [Cancelled])).
    exists w2. split; [|split; [|split]].
    + unfold command_cancel. rewrite (bind_Ok _ _ wd wd true Hauth). cbn [negb].
      cbn [getSessionData deleteSessionData m_getSession m_deleteSession
           initializeSessionManager].
      rewrite (bind_Ok _ _ wd wd _ Hlook). cbn [s_id session_of_row].
      rewrite (bind_Ok _ _ _ _ _ (deleteSession_run id wd)). reflexivity.
    + cbn [sent w2]. rewrite Hsent. reflexivity.
    + reflexivity.
    + rewrite isUserAuthenticated_run.
      assert (Hnull : (getSession chat (Some "authenticated") w2).1 = Ok None).
      { apply getSession_null_iff. intros j q Hj (Hc & _ & Hty).
        cbn [sessions w2] in Hj. rewrite Htab, delete_insert_eq in Hj.
        apply lookup_delete_Some in Hj as [_ Hj].
        apply (Hnone j q Hj). split; assumption. }
      rewrite Hnull. reflexivity.
Qed.

Lemma commands_after_login_witness :
  authenticateUser env0 "42" "s3cret" initializeSessionManager w_relogin
  = (Ok (mkAuthResult true "Autentikasi berhasil"), w_relogged)
  ∧ success (mkAuthResult true "Autentikasi berhasil") = true
  ∧ (∀ j q, sessions w_relogin !! j = Some q → r_chatId q = "42" →
            r_createdAt q < clock w_relogin)
  ∧ 0 ≤ 60000 < 24 * 60 * 60 * 1000
  ∧ sent (after (command_add "42" initializeSessionManager) (advance 60000 w_relogged))
    = sent w_relogin ++ [ProcessInProgress]
  ∧ ∃ w2,
      command_cancel "42" initializeSessionManager (advance 60000 w_relogged) = (Ok tt, w2)
      ∧ isUserAuthenticated "42" initializeSessionManager w2 = (Ok false, w2).
Proof.
  assert (Hrun : authenticateUser env0 "42" "s3cret" initializeSessionManager w_relogin
                 = (Ok (mkAuthResult true "Autentikasi berhasil"), w_relogged))
    by (vm_compute; reflexivity).
  assert (Hold : ∀ j q, sessions w_relogin !! j = Some q → r_chatId q = "42" →
                        r_createdAt q < clock w_relogin).
  { intros j q Hj _. unfold w_relogin in Hj. cbn [sessions] in Hj.
    apply lookup_insert_Some in Hj as [[_ <-]|[_ Hj]]; [simpl; lia|].
    apply lookup_insert_Some in Hj as [[_ <-]|[_ Hj]]; [simpl; lia|].
    apply lookup_singleton_Some in Hj as [_ <-]. simpl; lia. }
  assert (Hd : 0 ≤ 60000 < 24 * 60 * 60 * 1000) by lia.
  destruct (commands_after_login env0 "42" "s3cret" w_relogin w_relogged _ 60000
              Hrun eq_refl Hold Hd) as (Hadd & w2 & Hcancel & _ & _ & Hout).
  split; [exact Hrun|]. split; [reflexivity|]. split; [exact Hold|]. split; [exact Hd|].
  split.
  - unfold after. rewrite Hadd. reflexivity.
  - exists w2. split; [exact Hcancel | exact Hout].
Defined.

(** * Input checks of the step handlers *)

Lemma after_prefix_Some (p s r : string) :
  after_prefix p s = Some r ↔ s = p +:+ r.
Proof.
  revert s. induction p as [|a p IH]; intros s.
  - simpl. split; [intros [= ->]; reflexivity | intros ->; reflexivity].
  - destruct s as [|b s]; simpl.
    + split; discriminate.
    + destruct (Ascii.eqb_spec a b) as [->|Hne].
      * rewrite IH. split; [intros ->; reflexivity | intros [= ->]; reflexivity].
      * split; [discriminate | intros [= Hb _]; congruence].
Qed.

Lemma updateSessionData_run (s : session) (u : updates) (w : world) :
  ∃ o, updateSessionData s (Some initializeSessionManager) u w
       = (Ok o, mkWorld (alter (updated_row u) (s_id s) (sessions w)) (clock w) (sent w)).
Proof.
  cbn [updateSessionData m_updateSession initializeSessionManager].
  destruct (sessions w !! s_id s) as [r|] eqn:Hid.
  - destruct (updateSession_found w (s_id s) r u Hid)
      as (s' & Hrun & _ & _ & _ & Hst & Hdata & _).
    exists (Some s'). rewrite Hrun. f_equal. f_equal.
    apply map_eq. intros j. rewrite lookup_alter.
    destruct (decide (s_id s = j)) as [<-|Hne].
    + rewrite lookup_insert_eq, Hid. cbn [fmap option_fmap option_map].
      unfold updated_row. rewrite Hst, Hdata.
      destruct (u_data u); [reflexivity|]. rewrite JSON_stringify_parse. reflexivity.
    + rewrite lookup_insert_ne by exact Hne. reflexivity.
  - exists None. rewrite (updateSession_missing w (s_id s) u Hid).
    destruct w as [t c l]. cbn [sessions clock sent] in *. f_equal. f_equal.
    apply map_eq. intros j. rewrite lookup_alter.
    destruct (decide (s_id s = j)) as [<-|Hne]; [rewrite Hid|]; reflexivity.
Qed.

(** Storing one defined property in the data of a row. *)
Lemma stringify_spread_singleton (d : document) (k : string) (v : json) :
  JSON_stringify (spread (JSON_parse d) {[ k := JVal v ]}) = <[k := v]> d.
Proof.
  apply map_eq. intros j. rewrite lookup_JSON_stringify, lookup_spread.
  destruct (decide (k = j)) as [<-|Hne].
  - rewrite lookup_singleton_eq, lookup_insert_eq. reflexivity.
  - rewrite lookup_singleton_ne, lookup_insert_ne by exact Hne.
    rewrite lookup_JSON_parse. destruct (d !! j); reflexivity.
Qed.

(** What the validation lets through, formatted. *)
Lemma valid_phone_shape (s : string) :
  isValidPhoneNumber s = true →
  digits_test 9 12 (formatPhoneNumber s) = true
  ∧ startsWith (formatPhoneNumber s) "8" = true.
Proof.
  unfold isValidPhoneNumber. cbn [existsb]. rewrite orb_false_r.
  assert (Hnormal : ∀ rest, digits_test 8 11 rest = true →
            digits_test 9 12 (String "8" rest) = true).
  { intros rest. unfold digits_test. cbn [all_digits String.length].
    rewrite !andb_true_iff, !Nat.leb_le. intros [[Hd Hlo] Hhi].
    repeat split; first [reflexivity | assumption | (simpl in *; lia)]. }
  intros Hvalid. apply orb_true_iff in Hvalid as [Hvalid|Hvalid];
    [|apply orb_true_iff in Hvalid as [Hvalid|Hvalid]].
  - destruct (after_prefix "08" s) as [rest|] eqn:Hpre; [|discriminate].
    apply after_prefix_Some in Hpre. subst s.
    change ("08" +:+ rest) with (String "0" (String "8" rest)).
    unfold formatPhoneNumber, startsWith. simpl.
    split; [apply Hnormal, Hvalid | destruct rest; reflexivity].
  - destruct (after_prefix "628" s) as [rest|] eqn:Hpre; [|discriminate].
    apply after_prefix_Some in Hpre. subst s.
    change ("628" +:+ rest) with (String "6" (String "2" (String "8" rest))).
    unfold formatPhoneNumber, startsWith. simpl.
    split; [apply Hnormal, Hvalid | destruct rest; reflexivity].
  - destruct (after_prefix "+628" s) as [rest|] eqn:Hpre; [|discriminate].
    apply after_prefix_Some in Hpre. subst s.
    change ("+628" +:+ rest) with (String "+" (String "6" (String "2" (String "8" rest)))).
    unfold formatPhoneNumber, startsWith. simpl.
    split; [apply Hnormal, Hvalid | destruct rest; reflexivity].
Qed.

(** X20. A phone number the validation accepts has a normal form: what
    formatPhoneNumber makes of it is an 8 followed by 8 to 11 digits, the
    number was that with 0, 62 or +62 in front, formatting the normal form
    again changes nothing, and the normal form itself is not accepted by
    the validation. *)
Theorem valid_phone_normal_form (s : string) :
  isValidPhoneNumber s = true →
  let p := formatPhoneNumber s in
  digits_test 9 12 p = true
  ∧ startsWith p "8" = true
  ∧ (s = "0" +:+ p ∨ s = "62" +:+ p ∨ s = "+62" +:+ p)
  ∧ formatPhoneNumber p = p
  ∧ isValidPhoneNumber p = false.
Proof.
  unfold isValidPhoneNumber. cbn [existsb]. rewrite orb_false_r.
  assert (Hnormal : ∀ rest, digits_test 8 11 rest = true →
            digits_test 9 12 (String "8" rest) = true).
  { intros rest. unfold digits_test. cbn [all_digits String.length].
    rewrite !andb_true_iff, !Nat.leb_le. intros [[Hd Hlo] Hhi].
    repeat split; first [reflexivity | assumption | (simpl in *; lia)]. }
  intros Hvalid. apply orb_true_iff in Hvalid as [Hvalid|Hvalid];
    [|apply orb_true_iff in Hvalid as [Hvalid|Hvalid]].
  - destruct (after_prefix "08" s) as [rest|] eqn:Hpre; [|discriminate].
    apply after_prefix_Some in Hpre. subst s.
    change ("08" +:+ rest) with (String "0" (String "8" rest)).
    unfold formatPhoneNumber, startsWith, isValidPhoneNumber. simpl.
    split; [apply Hnormal, Hvalid|]. split; [destruct rest; reflexivity|].
    split; [auto|]. split; reflexivity.
  - destruct (after_prefix "628" s) as [rest|] eqn:Hpre; [|discriminate].
    apply after_prefix_Some in Hpre. subst s.
    change ("628" +:+ rest) with (String "6" (String "2" (String "8" rest))).
    unfold formatPhoneNumber, startsWith, isValidPhoneNumber. simpl.
    split; [apply Hnormal, Hvalid|]. split; [destruct rest; reflexivity|].
    split; [auto|]. split; reflexivity.
  - destruct (after_prefix "+628" s) as [rest|] eqn:Hpre; [|discriminate].
    apply after_prefix_Some in Hpre. subst s.
    change ("+628" +:+ rest) with (String "+" (String "6" (String "2" (String "8" rest)))).
    unfold formatPhoneNumber, startsWith, isValidPhoneNumber. simpl.
    split; [apply Hnormal, Hvalid|]. split; [destruct rest; reflexivity|].
    split; [auto|]. split; reflexivity.
Qed.

Lemma valid_phone_normal_form_witness :
  isValidPhoneNumber "+6281234567890" = true
  ∧ formatPhoneNumber "+6281234567890" = "81234567890"
  ∧ digits_test 9 12 "81234567890" = true
  ∧ isValidPhoneNumber "81234567890" = false.
Proof.
  destruct (valid_phone_normal_form "+6281234567890" eq_refl) as (Hd & _ & _ & _ & Hv).
  split; [reflexivity|]. split; [reflexivity|]. split; [exact Hd | exact Hv].
Defined.

(** X21. The three spellings of a number are the same number: for an 8
    followed by 8 to 11 digits, putting 0, 62 or +62 in front gives a phone
    number that the validation accepts and that formatPhoneNumber brings
    back to the digits without the prefix. *)
Theorem phone_spellings_agree (p : string) :
  digits_test 9 12 p = true → startsWith p "8" = true →
  Forall (λ c, isValidPhoneNumber (c +:+ p) = true ∧ formatPhoneNumber (c +:+ p) = p)
         ["0"; "62"; "+62"]%string.
Proof.
  intros Hd H8. destruct p as [|a rest]; [discriminate|].
  unfold startsWith in H8. cbn [String.prefix] in H8.
  destruct (ascii_dec "8" a) as [<-|Hne]; [|discriminate].
  assert (Hrest : digits_test 8 11 rest = true).
  { revert Hd. unfold digits_test. cbn [all_digits String.length].
    rewrite !andb_true_iff, !Nat.leb_le. intros [[Hd Hlo] Hhi].
    repeat split; first [tauto | (simpl in *; lia)]. }
  unfold isValidPhoneNumber, formatPhoneNumber.
  apply Forall_cons; split;
    [|apply Forall_cons; split; [|apply Forall_cons; split; [|apply Forall_nil]]];
    cbv [String.append]; simpl; rewrite ?Hrest; split; reflexivity.
Qed.

Lemma phone_spellings_agree_witness :
  digits_test 9 12 "81234567890" = true
  ∧ startsWith "81234567890" "8" = true
  ∧ formatPhoneNumber "081234567890" = "81234567890"
  ∧ formatPhoneNumber "6281234567890" = "81234567890"
  ∧ formatPhoneNumber "+6281234567890" = "81234567890".
Proof.
  pose proof (phone_spellings_agree "81234567890" eq_refl eq_refl) as H.
  apply Forall_cons in H as [[_ H0] H]. apply Forall_cons in H as [[_ H62] H].
  apply Forall_cons in H as [[_ Hp62] _].
  split; [reflexivity|]. split; [reflexivity|]. split; [exact H0|].
  split; [exact H62 | exact Hp62].
Defined.

(** X22. handlePhoneInput stores nothing but normal forms. A text that the
    validation does not accept, once trimmed, changes nothing. An accepted
    one is answered with the normal form of the number, an 8 followed by 8
    to 11 digits, and the session the handler was given, if its row is
    still in the table, goes to state awaiting_pin with [phoneNumber] set to
    the normal form, the rest of its data, its expiry and every other row
    as before. *)
Theorem handlePhoneInput_saves_normal_form (text : string) (s : session) (w : world) :
  let sm := Some initializeSessionManager in
  let p := formatPhoneNumber (trim text) in
  (isValidPhoneNumber (trim text) = false →
   handlePhoneInput text s sm w
   = (Ok (if String.eqb text "" then InvalidInput else FormatRejected), w))
  ∧ (isValidPhoneNumber (trim text) = true →
     digits_test 9 12 p = true ∧ startsWith p "8" = true
     ∧ handlePhoneInput text s sm w
       = (Ok (PhoneSaved p),
          mkWorld (alter (λ r, mkRow (r_chatId r) (r_type r) "awaiting_pin"
                                     (<["phoneNumber" := JStr p]> (r_data r))
                                     (r_expires r) (r_createdAt r))
                         (s_id s) (sessions w))
                  (clock w) (sent w))).
Proof.
  intros sm p. unfold handlePhoneInput. split.
  - intros Hbad. destruct (String.eqb text ""); [reflexivity|]. rewrite Hbad. reflexivity.
  - intros Hvalid.
    destruct (valid_phone_shape (trim text) Hvalid) as (Hd & H8).
    split; [exact Hd|]. split; [exact H8|].
    destruct (String.eqb_spec text "") as [->|_]; [discriminate|].
    rewrite Hvalid. cbn [negb]. fold p.
    destruct (updateSessionData_run s
                (mkUpdates (Some "awaiting_pin") (Some {[ "phoneNumber" := JVal (JStr p) ]}))
                w) as [o Hrun].
    rewrite (bind_Ok _ _ _ _ _ Hrun). unfold ret. f_equal. f_equal.
    apply map_eq. intros j. rewrite !lookup_alter.
    destruct (decide (s_id s = j)) as [_|_]; [|reflexivity].
    destruct (sessions w !! s_id s) as [r|]; [|reflexivity].
    cbn [fmap option_fmap option_map]. unfold updated_row. cbn [u_state u_data default].
    rewrite stringify_spread_singleton. reflexivity.
Qed.

Lemma handlePhoneInput_saves_normal_form_witness :
  let s := session_of_row "42_add_wallet_1000" row_flow in
  let sm := Some initializeSessionManager in
  isValidPhoneNumber (trim " +6281234567890 ") = true
  ∧ isValidPhoneNumber (trim "81234567890") = false
  ∧ (handlePhoneInput " +6281234567890 " s sm w_flow).1 = Ok (PhoneSaved "81234567890")
  ∧ r_data <$> sessions (after (handlePhoneInput " +6281234567890 " s sm) w_flow)
                 !! "42_add_wallet_1000"
    = Some {[ "phoneNumber" := JStr "81234567890"; "walletCode" := JStr "DANA" ]}
  ∧ handlePhoneInput "81234567890" s sm w_flow = (Ok FormatRejected, w_flow)
  ∧ isValidPhoneNumber (trim (NBSP +:+ "081234567890")) = true
  ∧ (handlePhoneInput (NBSP +:+ "081234567890") s sm w_flow).1
    = Ok (PhoneSaved "81234567890").
Proof.
  intros s sm.
  destruct (handlePhoneInput_saves_normal_form " +6281234567890 " s w_flow) as [_ Hgood].
  destruct (handlePhoneInput_saves_normal_form "81234567890" s w_flow) as [Hbad _].
  destruct (handlePhoneInput_saves_normal_form (NBSP +:+ "081234567890") s w_flow)
    as [_ Hnbsp].
  assert (Hvalid : isValidPhoneNumber (trim (NBSP +:+ "081234567890")) = true)
    by (vm_compute; reflexivity).
  destruct (Hgood ltac:(vm_compute; reflexivity)) as (_ & _ & Hrun).
  destruct (Hnbsp Hvalid) as (_ & _ & Hrun').
  split; [vm_compute; reflexivity|]. split; [vm_compute; reflexivity|].
  unfold after, sm. rewrite Hrun, Hrun'.
  split; [vm_compute; reflexivity|]. split; [vm_compute; reflexivity|].
  split; [exact (Hbad ltac:(vm_compute; reflexivity))|].
  split; [exact Hvalid | vm_compute; reflexivity].
Defined.

(** X23. handlePinInput takes a text that is, once trimmed, exactly six
    digits, and nothing else. It stores the PIN in the data of the session
    and leaves the state of the session as it is, so that the next text of
    the dialogue is read as a PIN again: of two PINs typed one after the
    other the second one replaces the first. *)
Theorem handlePinInput_keeps_state (text text' : string) (s : session) (w : world) (d : Z) :
  let sm := Some initializeSessionManager in
  let store pin r := mkRow (r_chatId r) (r_type r) (r_state r)
                           (<["pin" := JStr pin]> (r_data r))
                           (r_expires r) (r_createdAt r) in
  (digits_test 6 6 (trim text) = false →
   handlePinInput text s sm w
   = (Ok (if String.eqb text "" then InvalidInput else FormatRejected), w))
  ∧ (digits_test 6 6 (trim text) = true →
     handlePinInput text s sm w
     = (Ok ChooseVerification,
        mkWorld (alter (store (trim text)) (s_id s) (sessions w)) (clock w) (sent w))
     ∧ (digits_test 6 6 (trim text') = true →
        after (handlePinInput text' s sm) (advance d (after (handlePinInput text s sm) w))
        = after (handlePinInput text' s sm) (advance d w))).
Proof.
  intros sm store.
  assert (Hrun : ∀ t v, digits_test 6 6 (trim t) = true →
            handlePinInput t s sm v
            = (Ok ChooseVerification,
               mkWorld (alter (store (trim t)) (s_id s) (sessions v)) (clock v) (sent v))).
  { intros t v Hpin. unfold handlePinInput.
    destruct (String.eqb_spec t "") as [->|_]; [discriminate|].
    rewrite Hpin. cbn [negb].
    destruct (updateSessionData_run s
                (mkUpdates None (Some {[ "pin" := JVal (JStr (trim t)) ]})) v) as [o Ho].
    unfold sm. rewrite (bind_Ok _ _ _ _ _ Ho). unfold ret. f_equal. f_equal.
    apply map_eq. intros j. rewrite !lookup_alter.
    destruct (decide (s_id s = j)) as [_|_]; [|reflexivity].
    destruct (sessions v !! s_id s) as [r|]; [|reflexivity].
    cbn [fmap option_fmap option_map]. unfold updated_row, store.
    cbn [u_state u_data default]. rewrite stringify_spread_singleton. reflexivity. }
  split.
  - intros Hbad. unfold handlePinInput.
    destruct (String.eqb text ""); [reflexivity|]. rewrite Hbad. reflexivity.
  - intros Hpin. split; [apply Hrun, Hpin|].
    intros Hpin'. unfold after. rewrite (Hrun text w Hpin), !(Hrun text' _ Hpin').
    cbn [snd advance sessions clock sent]. f_equal.
    apply map_eq. intros j. rewrite !lookup_alter.
    destruct (decide (s_id s = j)) as [_|_]; [|reflexivity].
    rewrite ?decide_True by reflexivity.
    destruct (sessions w !! s_id s) as [r|]; [|reflexivity].
    cbn [fmap option_fmap option_map]. unfold store.
    cbn [r_chatId r_type r_state r_data r_expires r_createdAt].
    rewrite insert_insert_eq. reflexivity.
Qed.

Lemma handlePinInput_keeps_state_witness :
  let s := session_of_row "42_add_wallet_1000" row_flow in
  let sm := Some initializeSessionManager in
  digits_test 6 6 (trim "123456") = true
  ∧ digits_test 6 6 (trim " 654321") = true
  ∧ digits_test 6 6 (trim "12345a") = false
  ∧ handlePinInput "12345a" s sm w_flow = (Ok FormatRejected, w_flow)
  ∧ (handlePinInput "123456" s sm w_flow).1 = Ok ChooseVerification
  ∧ after (handlePinInput " 654321" s sm)
          (advance 1000 (after (handlePinInput "123456" s sm) w_flow))
    = after (handlePinInput " 654321" s sm) (advance 1000 w_flow)
  ∧ digits_test 6 6 (trim (NBSP +:+ "123456")) = true
  ∧ (handlePinInput (NBSP +:+ "123456") s sm w_flow).1 = Ok ChooseVerification.
Proof.
  intros s sm.
  destruct (handlePinInput_keeps_state "123456" " 654321" s w_flow 1000) as [_ Hgood].
  destruct (handlePinInput_keeps_state "12345a" "" s w_flow 0) as [Hbad _].
  destruct (handlePinInput_keeps_state (NBSP +:+ "123456") "" s w_flow 0) as [_ Hnbsp].
  assert (Hpin : digits_test 6 6 (trim (NBSP +:+ "123456")) = true)
    by (vm_compute; reflexivity).
  destruct (Hgood ltac:(vm_compute; reflexivity)) as (Hrun & Hlast).
  destruct (Hnbsp Hpin) as (Hrun' & _).
  split; [vm_compute; reflexivity|]. split; [vm_compute; reflexivity|].
  split; [vm_compute; reflexivity|].
  split; [exact (Hbad ltac:(vm_compute; reflexivity))|]. unfold sm. rewrite Hrun, Hrun'.
  split; [reflexivity|].
  split; [exact (Hlast ltac:(vm_compute; reflexivity))|].
  split; [exact Hpin | reflexivity].
Defined.

(** * Reading numbers *)

(** ** White space, byte by byte *)

Lemma is_whitespace2_bytes (a b : ascii) :
  is_whitespace2 a b = true →
  starts_whitespace a = true ∧ is_whitespace a = false
  ∧ is_continuation b = true ∧ 128 ≤ char_code a.
Proof.
  unfold is_whitespace2, starts_whitespace, is_continuation, is_whitespace, char_code.
  intros H. apply andb_true_iff in H as [Ha Hb].
  apply Z.eqb_eq in Ha, Hb. rewrite Ha, Hb.
  assert (Hn : nat_of_ascii a = 194%nat) by lia. rewrite Hn.
  repeat split; try reflexivity. lia.
Qed.

Lemma is_whitespace3_bytes (a b c : ascii) :
  is_whitespace3 a b c = true →
  starts_whitespace a = true ∧ is_whitespace a = false
  ∧ is_continuation b = true ∧ is_continuation c = true ∧ 128 ≤ char_code a.
Proof.
  unfold is_whitespace3, starts_whitespace, is_continuation, is_whitespace, char_code.
  set (x := Z.of_nat (nat_of_ascii a)). set (y := Z.of_nat (nat_of_ascii b)).
  set (z := Z.of_nat (nat_of_ascii c)). cbv zeta. intros H.
  assert (Hx : (x = 225 ∨ x = 226 ∨ x = 227 ∨ x = 239)
               ∧ 128 ≤ y < 192 ∧ 128 ≤ z < 192).
  { rewrite !orb_true_iff, !andb_true_iff, !orb_true_iff, !andb_true_iff,
      !Z.eqb_eq, !Z.leb_le in H. lia. }
  destruct Hx as (Hx & Hy & Hz).
  assert (Hn : (nat_of_ascii a = 225 ∨ nat_of_ascii a = 226 ∨ nat_of_ascii a = 227
                ∨ nat_of_ascii a = 239)%nat) by (subst x; lia).
  split; [|split; [|split; [|split]]].
  - destruct Hx as [->|[->|[->| ->]]]; rewrite ?orb_true_r; reflexivity.
  - destruct Hn as [->|[->|[->| ->]]]; reflexivity.
  - apply andb_true_iff. split; [apply Z.leb_le | apply Z.ltb_lt]; lia.
  - apply andb_true_iff. split; [apply Z.leb_le | apply Z.ltb_lt]; lia.
  - lia.
Qed.

(** A byte that starts white space continues no character, is no digit of
    any radix, no separator, no sign and no prefix of a radix. *)
Lemma starts_whitespace_char (c : ascii) :
  starts_whitespace c = true →
  is_continuation c = false
  ∧ (∀ R, digit_value R c = None)
  ∧ c ≠ "+"%char ∧ c ≠ "-"%char ∧ c ≠ "0"%char.
Proof.
  destruct c as [[] [] [] [] [] [] [] []]; vm_compute; intros H;
    try discriminate H; repeat split; discriminate.
Qed.

(** A byte of white space is no separator. *)
Lemma not_separator (c : ascii) :
  is_whitespace c = true ∨ 128 ≤ char_code c →
  Ascii.eqb c "." || Ascii.eqb c "," = false.
Proof.
  intros H.
  assert (Hb : is_whitespace c || (128 <=? char_code c) = true).
  { destruct H as [->|H]; [reflexivity|].
    apply Z.leb_le in H. rewrite H. apply orb_true_r. }
  revert Hb. clear.
  destruct c as [[] [] [] [] [] [] [] []]; vm_compute; intros H;
    try discriminate H; reflexivity.
Qed.

Lemma continuation_high (c : ascii) : is_continuation c = true → 128 ≤ char_code c.
Proof.
  unfold is_continuation. intros H. apply andb_true_iff in H as [H _].
  apply Z.leb_le, H.
Qed.

Lemma is_whitespace_starts (c : ascii) :
  is_whitespace c = true → starts_whitespace c = true.
Proof. unfold starts_whitespace. intros ->. reflexivity. Qed.

(** ** Trimming *)

Lemma trimStart_eq (s : string) :
  trimStart s = match after_whitespace s with
                | Some r => trimStart r
                | None => s
                end.
Proof.
  destruct s as [|a [|b [|c s]]]; cbn [trimStart after_whitespace]; try reflexivity.
  - destruct (is_whitespace a); reflexivity.
  - destruct (is_whitespace a); [reflexivity|]. destruct (is_whitespace2 a b); reflexivity.
  - destruct (is_whitespace a); [reflexivity|].
    destruct (is_whitespace2 a b); [reflexivity|].
    destruct (is_whitespace3 a b c); reflexivity.
Qed.

(** The white space character at the start of a string: its bytes [p] are
    no separators, and they are read as white space before any string. *)
Lemma after_whitespace_split (s r : string) :
  after_whitespace s = Some r →
  ∃ p, s = p +:+ r
       ∧ (String.length r < String.length s)%nat
       ∧ remove_separators p = p
       ∧ (∀ x, after_whitespace (p +:+ x) = Some x)
       ∧ ∃ a p', p = String a p' ∧ starts_whitespace a = true.
Proof.
  destruct s as [|a s]; [discriminate|]. cbn [after_whitespace].
  destruct (is_whitespace a) eqn:Ha.
  { intros [= <-]. exists (String a ""). split; [reflexivity|].
    split; [cbn [String.length]; lia|]. split.
    - cbn [remove_separators]. rewrite (not_separator a (or_introl Ha)). reflexivity.
    - split; [|exists a, ""; split; [reflexivity | apply is_whitespace_starts, Ha]].
      intros x. change (String a "" +:+ x) with (String a x).
      cbn [after_whitespace]. rewrite Ha. reflexivity. }
  destruct s as [|b s]; [discriminate|].
  destruct (is_whitespace2 a b) eqn:Hab.
  { intros [= <-]. destruct (is_whitespace2_bytes a b Hab) as (Hsa & _ & Hcb & Hhigh).
    exists (String a (String b "")). split; [reflexivity|].
    split; [cbn [String.length]; lia|]. split.
    - cbn [remove_separators].
      rewrite (not_separator a (or_intror Hhigh)),
        (not_separator b (or_intror (continuation_high b Hcb))). reflexivity.
    - split; [|exists a, (String b ""); split; [reflexivity | exact Hsa]].
      intros x. change (String a (String b "") +:+ x) with (String a (String b x)).
      cbn [after_whitespace]. rewrite Ha, Hab. reflexivity. }
  destruct s as [|c s]; [discriminate|].
  destruct (is_whitespace3 a b c) eqn:Habc; [|discriminate].
  intros [= <-].
  destruct (is_whitespace3_bytes a b c Habc) as (Hsa & _ & Hcb & Hcc & Hhigh).
  exists (String a (String b (String c ""))). split; [reflexivity|].
  split; [cbn [String.length]; lia|]. split.
  - cbn [remove_separators].
    rewrite (not_separator a (or_intror Hhigh)),
      (not_separator b (or_intror (continuation_high b Hcb))),
      (not_separator c (or_intror (continuation_high c Hcc))). reflexivity.
  - split; [|exists a, (String b (String c "")); split; [reflexivity | exact Hsa]].
    intros x.
    change (String a (String b (String c "")) +:+ x) with (String a (String b (String c x))).
    cbn [after_whitespace]. rewrite Ha, Hab, Habc. reflexivity.
Qed.

(** A string of white space is empty or starts with a byte that starts
    white space. *)
Lemma whitespace_head (b : ascii) (ws : string) :
  trimStart (String b ws) = "" → starts_whitespace b = true.
Proof.
  rewrite trimStart_eq.
  destruct (after_whitespace (String b ws)) as [r|] eqn:Hr; [|discriminate].
  intros _. destruct (after_whitespace_split _ _ Hr) as (p & Hp & _ & _ & _ & a & p' & -> & Ha).
  rewrite string_app_cons in Hp. injection Hp as -> _. exact Ha.
Qed.

(** A byte that does not start white space starts no white space. *)
Lemma trimStart_other (c : ascii) (r : string) :
  starts_whitespace c = false → trimStart (String c r) = String c r.
Proof.
  intros Hc. rewrite trimStart_eq.
  destruct (after_whitespace (String c r)) as [r'|] eqn:Hr; [|reflexivity].
  destruct (after_whitespace_split _ _ Hr) as (p & Hp & _ & _ & _ & a & p' & -> & Ha).
  rewrite string_app_cons in Hp. injection Hp as -> _. congruence.
Qed.

Lemma is_digit_char (c : ascii) :
  is_digit c = true →
  starts_whitespace c = false
  ∧ (∃ d, digit_value 10 c = Some d)
  ∧ c ≠ "+"%char ∧ c ≠ "-"%char ∧ c ≠ "x"%char ∧ c ≠ "X"%char.
Proof.
  destruct c as [[] [] [] [] [] [] [] []]; vm_compute; intros H;
    try discriminate H; (split; [reflexivity|]); (split; [eexists; reflexivity|]);
    repeat split; discriminate.
Qed.

Lemma digit_value_pretty (d : N) :
  (d < 10)%N →
  is_digit (pretty_N_char d) = true
  ∧ digit_value 10 (pretty_N_char d) = Some (Z.of_N d).
Proof.
  intros Hd.
  assert (Hcases : (d = 0 ∨ d = 1 ∨ d = 2 ∨ d = 3 ∨ d = 4 ∨ d = 5 ∨ d = 6 ∨ d = 7
                    ∨ d = 8 ∨ d = 9)%N) by lia.
  repeat (destruct Hcases as [->|Hcases]; [split; reflexivity|]).
  subst d. split; reflexivity.
Qed.

(** The decimal digits [pretty] writes in front of [s] read back as the
    number. *)
Lemma read_pretty_N_go (x : N) (s : string) :
  fold_left (λ acc d, 10 * acc + d) (digit_prefix 10 (pretty_N_go x s)) 0
  = fold_left (λ acc d, 10 * acc + d) (digit_prefix 10 s) (Z.of_N x).
Proof.
  revert s. induction (N.lt_wf_0 x) as [x _ IH]. intros s.
  destruct (N.eq_dec x 0%N) as [->|Hx].
  - rewrite pretty_N_go_0. reflexivity.
  - rewrite pretty_N_go_step by lia.
    rewrite IH by (apply N.div_lt; lia).
    destruct (digit_value_pretty (x `mod` 10)%N) as [_ Hv];
      [apply N.mod_lt; discriminate|].
    cbn [digit_prefix]. rewrite Hv. cbn [fold_left]. f_equal.
    pose proof (N.div_mod x 10 ltac:(discriminate)) as Hdm. lia.
Qed.

Lemma all_digits_pretty_N_go (x : N) (s : string) :
  all_digits s = true → all_digits (pretty_N_go x s) = true.
Proof.
  revert s. induction (N.lt_wf_0 x) as [x _ IH]. intros s Hs.
  destruct (N.eq_dec x 0%N) as [->|Hx].
  - rewrite pretty_N_go_0. exact Hs.
  - rewrite pretty_N_go_step by lia. apply IH; [apply N.div_lt; lia|].
    destruct (digit_value_pretty (x `mod` 10)%N) as [Hd _];
      [apply N.mod_lt; discriminate|].
    cbn [all_digits]. rewrite Hd, Hs. reflexivity.
Qed.

Lemma pretty_N_go_nonempty (x : N) (s : string) :
  s ≠ "" → pretty_N_go x s ≠ "".
Proof.
  revert s. induction (N.lt_wf_0 x) as [x _ IH]. intros s Hs.
  destruct (N.eq_dec x 0%N) as [->|Hx].
  - rewrite pretty_N_go_0. exact Hs.
  - rewrite pretty_N_go_step by lia. apply IH; [apply N.div_lt; lia | discriminate].
Qed.

Lemma remove_separators_app (x y : string) :
  remove_separators (x +:+ y) = remove_separators x +:+ remove_separators y.
Proof.
  induction x as [|c x IH]; [reflexivity|].
  rewrite string_app_cons. cbn [remove_separators].
  destruct (Ascii.eqb c "." || Ascii.eqb c ","); [exact IH|].
  rewrite string_app_cons, IH. reflexivity.
Qed.

Lemma string_length_ind (P : string → Prop) :
  (∀ s, (∀ r, (String.length r < String.length s)%nat → P r) → P s) → ∀ s, P s.
Proof.
  intros Hstep s.
  assert (H : ∀ n r, (String.length r < n)%nat → P r).
  { induction n as [|n IH]; intros r Hr; [lia|].
    apply Hstep. intros r' Hr'. apply IH. lia. }
  apply (H (S (String.length s))). lia.
Qed.

Lemma remove_separators_whitespace (ws : string) :
  trimStart ws = "" → remove_separators ws = ws.
Proof.
  induction ws as [ws IH] using string_length_ind.
  rewrite trimStart_eq.
  destruct (after_whitespace ws) as [r|] eqn:Hr; [|intros ->; reflexivity].
  destruct (after_whitespace_split _ _ Hr) as (p & -> & Hlen & Hp & _).
  intros Hws. rewrite remove_separators_app, Hp, (IH r Hlen Hws). reflexivity.
Qed.

(** What trimEnd cuts off is white space. *)
Lemma trimEnd_split (u : string) :
  ∃ ws, u = trimEnd u +:+ ws ∧ trimStart ws = "".
Proof.
  induction u as [|c u (ws & Hu & Hws)]; [exists ""; split; reflexivity|].
  cbn [trimEnd]. destruct (String.eqb_spec (trimStart (String c u)) "") as [Hall|_].
  - exists (String c u). split; [reflexivity | exact Hall].
  - exists ws. split; [|exact Hws]. rewrite string_app_cons, <- Hu. reflexivity.
Qed.

(** White space after the text does not change whether the text starts
    with a prefix of one or two characters that start no white space. *)
Lemma after_prefix1_whitespace (a : ascii) (t ws : string) :
  starts_whitespace a = false → trimStart ws = "" →
  after_prefix (String a "") (t +:+ ws)
  = (λ r, r +:+ ws) <$> after_prefix (String a "") t.
Proof.
  intros Ha Hws. destruct t as [|b t].
  - change ("" +:+ ws) with ws. destruct ws as [|b ws]; [reflexivity|].
    apply whitespace_head in Hws. cbn [after_prefix].
    destruct (Ascii.eqb_spec a b) as [->|_]; [congruence | reflexivity].
  - rewrite string_app_cons. cbn [after_prefix].
    destruct (Ascii.eqb a b); reflexivity.
Qed.

Lemma after_prefix2_whitespace (a a' : ascii) (t ws : string) :
  starts_whitespace a = false → starts_whitespace a' = false → trimStart ws = "" →
  after_prefix (String a (String a' "")) (t +:+ ws)
  = (λ r, r +:+ ws) <$> after_prefix (String a (String a' "")) t.
Proof.
  intros Ha Ha' Hws. destruct t as [|b t].
  - change ("" +:+ ws) with ws. destruct ws as [|b ws]; [reflexivity|].
    apply whitespace_head in Hws. cbn [after_prefix].
    destruct (Ascii.eqb_spec a b) as [->|_]; [congruence | reflexivity].
  - rewrite string_app_cons.
    change (after_prefix (String a (String a' "")) (String b (t +:+ ws)))
      with (if Ascii.eqb a b then after_prefix (String a' "") (t +:+ ws) else None).
    change (after_prefix (String a (String a' "")) (String b t))
      with (if Ascii.eqb a b then after_prefix (String a' "") t else None).
    destruct (Ascii.eqb a b); [|reflexivity].
    apply after_prefix1_whitespace; assumption.
Qed.

Lemma startsWith_after_prefix (s p : string) :
  startsWith s p = match after_prefix p s with Some _ => true | None => false end.
Proof.
  unfold startsWith. revert s. induction p as [|a p IH]; intros s.
  - destruct s; reflexivity.
  - destruct s as [|b s]; [reflexivity|]. cbn [String.prefix after_prefix].
    destruct (ascii_dec a b) as [->|Hne].
    + rewrite Ascii.eqb_refl. apply IH.
    + apply Ascii.eqb_neq in Hne. rewrite Hne. reflexivity.
Qed.

Lemma digit_prefix_whitespace (R : Z) (t ws : string) :
  trimStart ws = "" → digit_prefix R (t +:+ ws) = digit_prefix R t.
Proof.
  intros Hws. induction t as [|c t IH].
  - change ("" +:+ ws) with ws. destruct ws as [|b ws]; [reflexivity|].
    apply whitespace_head in Hws. cbn [digit_prefix].
    destruct (starts_whitespace_char b Hws) as (_ & -> & _). reflexivity.
  - rewrite string_app_cons. cbn [digit_prefix]. rewrite IH. reflexivity.
Qed.

Lemma string_app_assoc (x y z : string) : (x +:+ y) +:+ z = x +:+ (y +:+ z).
Proof.
  induction x as [|c x IH]; [reflexivity|]. rewrite !string_app_cons, IH. reflexivity.
Qed.

(** White space that follows a text is not read as the end of a character
    of the text. *)
Lemma after_whitespace_app (t ws : string) :
  trimStart ws = "" → t ≠ "" →
  after_whitespace (t +:+ ws) = (λ r, r +:+ ws) <$> after_whitespace t.
Proof.
  intros Hws Ht.
  destruct (after_whitespace t) as [r|] eqn:Hr.
  - destruct (after_whitespace_split _ _ Hr) as (p & -> & _ & _ & Hp & _).
    cbn [fmap option_fmap option_map]. rewrite string_app_assoc. apply Hp.
  - cbn [fmap option_fmap option_map].
    assert (Hcont : ∀ b ws', ws = String b ws' → is_continuation b = false).
    { intros b ws' ->. apply whitespace_head in Hws.
      apply (starts_whitespace_char b Hws). }
    assert (H2 : ∀ a b ws', ws = String b ws' → is_whitespace2 a b = false).
    { intros a b ws' Hb. destruct (is_whitespace2 a b) eqn:Hab; [|reflexivity].
      destruct (is_whitespace2_bytes a b Hab) as (_ & _ & Hc & _).
      rewrite (Hcont b ws' Hb) in Hc. discriminate. }
    assert (H3 : ∀ a b c ws', ws = String b ws' → is_whitespace3 a b c = false).
    { intros a b c ws' Hb. destruct (is_whitespace3 a b c) eqn:Habc; [|reflexivity].
      destruct (is_whitespace3_bytes a b c Habc) as (_ & _ & Hc & _).
      rewrite (Hcont b ws' Hb) in Hc. discriminate. }
    assert (H3' : ∀ a b c ws', ws = String c ws' → is_whitespace3 a b c = false).
    { intros a b c ws' Hb. destruct (is_whitespace3 a b c) eqn:Habc; [|reflexivity].
      destruct (is_whitespace3_bytes a b c Habc) as (_ & _ & _ & Hc & _).
      rewrite (Hcont c ws' Hb) in Hc. discriminate. }
    destruct t as [|a t]; [contradiction|]. rewrite string_app_cons.
    cbn [after_whitespace] in Hr |- *.
    destruct (is_whitespace a); [discriminate|].
    destruct t as [|b t].
    { change ("" +:+ ws) with ws. destruct ws as [|b ws']; [reflexivity|].
      rewrite (H2 a b ws' eq_refl). destruct ws' as [|c ws'']; [reflexivity|].
      rewrite (H3 a b c _ eq_refl). reflexivity. }
    rewrite string_app_cons. destruct (is_whitespace2 a b); [discriminate|].
    destruct t as [|c t].
    { change ("" +:+ ws) with ws. destruct ws as [|c ws']; [reflexivity|].
      rewrite (H3' a b c ws' eq_refl). reflexivity. }
    rewrite string_app_cons. destruct (is_whitespace3 a b c); [discriminate|].
    reflexivity.
Qed.

Lemma trimStart_whitespace (t ws : string) :
  trimStart ws = "" →
  trimStart (t +:+ ws) = match trimStart t with
                         | EmptyString => EmptyString
                         | u => u +:+ ws
                         end.
Proof.
  intros Hws. induction t as [t IH] using string_length_ind.
  destruct (String.eqb_spec t "") as [->|Ht]; [exact Hws|].
  rewrite (trimStart_eq (t +:+ ws)), (trimStart_eq t), (after_whitespace_app t ws Hws Ht).
  destruct (after_whitespace t) as [r|] eqn:Hr; cbn [fmap option_fmap option_map].
  - destruct (after_whitespace_split _ _ Hr) as (_ & _ & Hlen & _). apply IH, Hlen.
  - destruct t; [contradiction | reflexivity].
Qed.

(** parseInt of a string of decimal digits. *)
Lemma parseInt_digits (s : string) :
  all_digits s = true → s ≠ "" →
  parseInt s = to_number 1 (number_of 10 (digit_prefix 10 s))
  ∧ parseInt (String "-" s) = to_number (-1) (number_of 10 (digit_prefix 10 s)).
Proof.
  intros Hs Hne. destruct s as [|c r]; [contradiction|].
  cbn [all_digits] in Hs. apply andb_true_iff in Hs as [Hc Hr].
  destruct (is_digit_char c Hc) as (Hws & [d Hd] & Hplus & Hminus & _ & _).
  assert (Hprefix : ∀ a b, after_prefix (String a (String b "")) (String c r) = None
                           ∨ (a = c ∧ (∃ r', r = String b r'))).
  { intros a b. cbn [after_prefix].
    destruct (Ascii.eqb_spec a c) as [->|_]; [|left; reflexivity].
    destruct r as [|b' r']; [left; reflexivity|].
    destruct (Ascii.eqb_spec b b') as [->|_]; [|left; reflexivity].
    right. split; [reflexivity | eexists; reflexivity]. }
  assert (Hx : ∀ b, (b = "x" ∨ b = "X")%char →
                    after_prefix (String "0" (String b "")) (String c r) = None).
  { intros b Hb. destruct (Hprefix "0"%char b) as [Hn|[_ [r' ->]]]; [exact Hn|].
    cbn [all_digits] in Hr. apply andb_true_iff in Hr as [Hb' _].
    destruct (is_digit_char b Hb') as (_ & _ & _ & _ & Hx1 & Hx2).
    destruct Hb; contradiction. }
  assert (Hds : digit_prefix 10 (String c r) ≠ []).
  { cbn [digit_prefix]. rewrite Hd. discriminate. }
  assert (Hplus' : after_prefix "+" (String c r) = None).
  { cbn [after_prefix]. destruct (Ascii.eqb_spec "+" c) as [<-|_]; [contradiction|].
    reflexivity. }
  assert (Hminus' : after_prefix "-" (String c r) = None).
  { cbn [after_prefix]. destruct (Ascii.eqb_spec "-" c) as [<-|_]; [contradiction|].
    reflexivity. }
  assert (Hstart : startsWith (String c r) "-" = false).
  { unfold startsWith. cbn [String.prefix].
    destruct (ascii_dec "-" c) as [<-|_]; [contradiction | reflexivity]. }
  assert (H0x : after_prefix "0x" (String c r) = None) by (apply Hx; auto).
  assert (H0X : after_prefix "0X" (String c r) = None) by (apply Hx; auto).
  split.
  - unfold parseInt. rewrite (trimStart_other c r Hws). cbv zeta.
    rewrite Hstart, Hplus', Hminus'. cbv iota. rewrite H0x, H0X.
    destruct (digit_prefix 10 (String c r)) as [|d0 ds] eqn:Hp; [contradiction|].
    reflexivity.
  - unfold parseInt. rewrite (trimStart_other "-" (String c r) eq_refl). cbv zeta.
    change (startsWith (String "-" (String c r)) "-") with true.
    change (after_prefix "+" (String "-" (String c r))) with (@None string).
    change (after_prefix "-" (String "-" (String c r))) with (Some (String c r)).
    cbv iota. rewrite H0x, H0X.
    destruct (digit_prefix 10 (String c r)) as [|d0 ds] eqn:Hp; [contradiction|].
    reflexivity.
Qed.

(** Numbers written out are read back: parseInt of the decimal
    representation of an integer is the double nearest to that integer. *)
Lemma parseInt_pretty (n : Z) :
  parseInt (pretty n) = to_number (if n <? 0 then -1 else 1) (Z.abs n).
Proof.
  assert (Hpos : ∀ p : positive,
            all_digits (pretty_N_go (N.pos p) "") = true
            ∧ pretty_N_go (N.pos p) "" ≠ ""
            ∧ number_of 10 (digit_prefix 10 (pretty_N_go (N.pos p) "")) = Z.pos p).
  { intros p. split; [apply all_digits_pretty_N_go; reflexivity|]. split.
    - rewrite pretty_N_go_step by reflexivity. apply pretty_N_go_nonempty. discriminate.
    - unfold number_of. rewrite read_pretty_N_go. reflexivity. }
  destruct n as [|p|p].
  - vm_compute. reflexivity.
  - destruct (Hpos p) as (Hd & Hne & Hv).
    change (pretty (Z.pos p)) with (pretty_N_go (N.pos p) "").
    rewrite (proj1 (parseInt_digits _ Hd Hne)), Hv. reflexivity.
  - destruct (Hpos p) as (Hd & Hne & Hv).
    change (pretty (Z.neg p)) with (String "-" (pretty_N_go (N.pos p) "")).
    rewrite (proj2 (parseInt_digits _ Hd Hne)), Hv. reflexivity.
Qed.

(** ** Amounts as they are typed *)

(** White space after the digits does not change what parseInt reads. *)
Lemma parseInt_whitespace (t ws : string) :
  trimStart ws = "" → parseInt (t +:+ ws) = parseInt t.
Proof.
  intros Hws. unfold parseInt. rewrite (trimStart_whitespace t ws Hws).
  destruct (trimStart t) as [|c u] eqn:Ht; [reflexivity|].
  set (v := String c u). cbv zeta.
  rewrite !startsWith_after_prefix.
  change (after_prefix "-" (v +:+ ws)) with (after_prefix (String "-" "") (v +:+ ws)).
  change (after_prefix "+" (v +:+ ws)) with (after_prefix (String "+" "") (v +:+ ws)).
  rewrite !after_prefix1_whitespace by (reflexivity || exact Hws).
  change (after_prefix (String "-" "") v) with (after_prefix "-" v).
  change (after_prefix (String "+" "") v) with (after_prefix "+" v).
  set (unsigned := match after_prefix "+" v with
                   | Some r => r
                   | None => match after_prefix "-" v with
                             | Some r => r
                             | None => v
                             end
                   end).
  assert (Hunsigned : match (λ r, r +:+ ws) <$> after_prefix "+" v with
                      | Some r => r
                      | None => match (λ r, r +:+ ws) <$> after_prefix "-" v with
                                | Some r => r
                                | None => v +:+ ws
                                end
                      end = unsigned +:+ ws).
  { unfold unsigned. destruct (after_prefix "+" v); [reflexivity|].
    destruct (after_prefix "-" v); reflexivity. }
  rewrite Hunsigned.
  assert (Hsign : match (λ r, r +:+ ws) <$> after_prefix "-" v with
                  | Some _ => true
                  | None => false
                  end = match after_prefix "-" v with Some _ => true | None => false end).
  { destruct (after_prefix "-" v); reflexivity. }
  rewrite Hsign.
  change (after_prefix "0x" (unsigned +:+ ws))
    with (after_prefix (String "0" (String "x" "")) (unsigned +:+ ws)).
  change (after_prefix "0X" (unsigned +:+ ws))
    with (after_prefix (String "0" (String "X" "")) (unsigned +:+ ws)).
  rewrite !after_prefix2_whitespace by (reflexivity || exact Hws).
  change (after_prefix (String "0" (String "x" "")) unsigned)
    with (after_prefix "0x" unsigned).
  change (after_prefix (String "0" (String "X" "")) unsigned)
    with (after_prefix "0X" unsigned).
  destruct (after_prefix "0x" unsigned) as [r|];
    [cbn [fmap option_fmap option_map]; rewrite digit_prefix_whitespace by exact Hws;
     reflexivity|].
  destruct (after_prefix "0X" unsigned) as [r|];
    cbn [fmap option_fmap option_map]; rewrite digit_prefix_whitespace by exact Hws;
    reflexivity.
Qed.

Lemma parseInt_trimStart (s : string) :
  parseInt (remove_separators (trimStart s)) = parseInt (remove_separators s).
Proof.
  induction s as [s IH] using string_length_ind.
  rewrite (trimStart_eq s).
  destruct (after_whitespace s) as [r|] eqn:Hr; [|reflexivity].
  destruct (after_whitespace_split _ _ Hr) as (p & -> & Hlen & Hp & Hread & _).
  rewrite (IH r Hlen), remove_separators_app, Hp.
  unfold parseInt. rewrite (trimStart_eq (p +:+ remove_separators r)), Hread.
  reflexivity.
Qed.

(** Trimming the text before the separators are removed changes nothing
    for parseInt. *)
Lemma parseInt_trim (s : string) :
  parseInt (remove_separators (trim s)) = parseInt (remove_separators s).
Proof.
  unfold trim. destruct (trimEnd_split (trimStart s)) as (ws & Hsplit & Hws).
  rewrite <- (parseInt_trimStart s). rewrite Hsplit at 2.
  rewrite remove_separators_app, (remove_separators_whitespace ws Hws).
  rewrite (parseInt_whitespace _ ws Hws). reflexivity.
Qed.

(** X24. The amount handlers ignore the separators . and , wherever they
    are typed: a text with a separator put in at any place is handled as the
    text without it (as long as that text is not empty), so what is typed as
    a decimal fraction is read as part of the integer. *)
Theorem amount_separators_ignored (t1 t2 : string) (c : ascii) (s : session)
    (sdk : banks_outcome) (sm : option manager) :
  (c = "." ∨ c = ",")%char →
  t1 +:+ t2 ≠ "" →
  handleQRISAmountInput (t1 +:+ String c t2) s sm = handleQRISAmountInput (t1 +:+ t2) s sm
  ∧ handleBankAmountInput (t1 +:+ String c t2) s sdk sm
    = handleBankAmountInput (t1 +:+ t2) s sdk sm.
Proof.
  intros Hc Hne.
  assert (Hne' : t1 +:+ String c t2 ≠ "") by (destruct t1; discriminate).
  assert (Hparse : parseInt (remove_separators (trim (t1 +:+ String c t2)))
                   = parseInt (remove_separators (trim (t1 +:+ t2)))).
  { rewrite !parseInt_trim, !remove_separators_app. cbn [remove_separators].
    destruct Hc as [->| ->]; reflexivity. }
  apply String.eqb_neq in Hne, Hne'.
  unfold handleQRISAmountInput, handleBankAmountInput.
  rewrite Hne, Hne', Hparse. split; reflexivity.
Qed.

Lemma amount_separators_ignored_witness :
  ("." = "." ∨ "." = ",")%char
  ∧ "10" +:+ "000" ≠ ""
  ∧ parseInt (remove_separators (trim "10000")) = Num 10000
  ∧ handleQRISAmountInput "10.000" session_login None
    = handleQRISAmountInput "10000" session_login None.
Proof.
  assert (Hc : ("." = "." ∨ "." = ",")%char) by (left; reflexivity).
  assert (Hne : "10" +:+ "000" ≠ "") by discriminate.
  split; [exact Hc|]. split; [exact Hne|]. split; [reflexivity|].
  exact (proj1 (amount_separators_ignored "10" "000" "." session_login BanksThrow None
                  Hc Hne)).
Defined.

(** Storing defined properties in the data of a row. *)
Lemma stringify_spread_defined (d m : document) :
  JSON_stringify (spread (JSON_parse d) (JVal <$> m)) = m ∪ d.
Proof.
  apply map_eq. intros j.
  rewrite lookup_JSON_stringify, lookup_spread, lookup_fmap, lookup_union, lookup_JSON_parse.
  destruct (m !! j), (d !! j); reflexivity.
Qed.

(** X25. The amount handlers never throw and accept an amount only at or
    above their minimum, 1000 for a QRIS payment and 10000 for a transfer
    to a bank. An accepted amount is the Number parseInt reads in the text
    without its separators: a double that is at least the minimum, or
    Infinity when the digits denote more than a double holds. The session
    goes to the next state with the amount in its data, where Infinity is
    stored as null (for a transfer only when the API has answered with
    success and a list of banks that is not empty, which is stored with
    it). Every other answer leaves the table as it is. *)
Theorem amount_handlers_enforce_minimum (text : string) (s : session)
    (sdk : banks_outcome) (w : world) :
  let sm := Some initializeSessionManager in
  let store state (fields : document) r :=
    mkRow (r_chatId r) (r_type r) state (fields ∪ r_data r) (r_expires r) (r_createdAt r) in
  let at_least (minimum : Z) (amount : number) :=
    match amount with
    | Num n => minimum ≤ n
    | PosInfinity => True
    | NaN | NegInfinity => False
    end in
  (∃ a w1,
     handleQRISAmountInput text s sm w = (Ok a, w1)
     ∧ match a with
       | AskQrisPhoto amount =>
           at_least 1000 amount
           ∧ parseInt (remove_separators text) = amount
           ∧ w1 = mkWorld (alter (store "awaiting_qris_photo"
                                        {[ "amount" := json_of_number amount ]})
                                 (s_id s) (sessions w))
                          (clock w) (sent w)
       | _ => w1 = w
       end)
  ∧ (∃ a w1,
       handleBankAmountInput text s sdk sm w = (Ok a, w1)
       ∧ match a with
         | ChooseBankMethod amount n =>
             at_least 10000 amount
             ∧ parseInt (remove_separators text) = amount
             ∧ (∃ success banks,
                  sdk = BanksResponse success (JVal (JArr banks))
                  ∧ truthy success = true ∧ n = length banks ∧ (0 < n)%nat
                  ∧ w1 = mkWorld
                           (alter (store "selecting_bank_method"
                                         {[ "amount" := json_of_number amount;
                                            "availableBanks" := JArr banks ]})
                                  (s_id s) (sessions w))
                           (clock w) (sent w))
         | _ => w1 = w
         end).
Proof.
  intros sm store at_least. subst sm.
  assert (Hstore : ∀ state (fields : document) v,
            ∃ o, updateSessionData s (Some initializeSessionManager) (mkUpdates (Some state) (Some (JVal <$> fields))) v
                 = (Ok o, mkWorld (alter (store state fields) (s_id s) (sessions v))
                                  (clock v) (sent v))).
  { intros state fields v.
    destruct (updateSessionData_run s (mkUpdates (Some state) (Some (JVal <$> fields))) v)
      as [o Ho].
    exists o. rewrite Ho. f_equal. f_equal. apply map_eq. intros j. rewrite !lookup_alter.
    destruct (decide (s_id s = j)) as [_|_]; [|reflexivity].
    destruct (sessions v !! s_id s) as [r|]; [|reflexivity].
    cbn [fmap option_fmap option_map]. unfold updated_row, store.
    cbn [u_state u_data default]. rewrite stringify_spread_defined. reflexivity. }
  assert (Hleast : ∀ minimum amount,
            isNaN amount || number_lt amount minimum = false → at_least minimum amount).
  { intros minimum [| |n|]; cbn [isNaN number_lt orb at_least]; try discriminate; [|auto].
    intros Hn. apply Z.ltb_ge, Hn. }
  split.
  - unfold handleQRISAmountInput.
    destruct (String.eqb text ""); [exists InvalidInput, w; split; reflexivity|].
    cbv zeta. rewrite parseInt_trim.
    set (amount := parseInt (remove_separators text)).
    destruct (isNaN amount || number_lt amount 1000) eqn:Hmin;
      [exists FormatRejected, w; split; reflexivity|].
    destruct (Hstore "awaiting_qris_photo" {[ "amount" := json_of_number amount ]} w)
      as [o Ho].
    rewrite map_fmap_singleton in Ho.
    eexists _, _. rewrite (bind_Ok _ _ _ _ _ Ho). split; [reflexivity|].
    split; [exact (Hleast _ _ Hmin)|]. split; reflexivity.
  - unfold handleBankAmountInput.
    destruct (String.eqb text ""); [exists InvalidInput, w; split; reflexivity|].
    cbv zeta. rewrite parseInt_trim.
    set (amount := parseInt (remove_separators text)).
    destruct (isNaN amount || number_lt amount 10000) eqn:Hmin;
      [exists FormatRejected, w; split; reflexivity|].
    unfold try_catch.
    destruct sdk as [|success data]; [exists AmountFailed, w; split; reflexivity|].
    destruct data as [|[| | | |banks|]];
      try (exists BanksUnavailable, w; split; reflexivity).
    destruct (truthy success) eqn:Hsuccess;
      [|exists BanksUnavailable, w; split; reflexivity].
    destruct banks as [|bank banks]; [exists BanksUnavailable, w; split; reflexivity|].
    cbn [negb orb length Nat.eqb].
    destruct (Hstore "selecting_bank_method"
                {[ "amount" := json_of_number amount;
                   "availableBanks" := JArr (bank :: banks) ]} w)
      as [o Ho].
    rewrite fmap_insert, map_fmap_singleton in Ho.
    eexists _, _. rewrite (bind_Ok _ _ _ _ _ Ho). split; [reflexivity|].
    split; [exact (Hleast _ _ Hmin)|]. split; [reflexivity|].
    exists success, (bank :: banks). split; [reflexivity|]. split; [exact Hsuccess|].
    split; [reflexivity|]. split; [simpl; lia | reflexivity].
Qed.

(** A number written out has no separators and no white space around
    it. *)
Lemma pretty_plain (n : Z) :
  pretty n ≠ "" ∧ remove_separators (pretty n) = pretty n.
Proof.
  assert (Hdigits : ∀ x, all_digits x = true → remove_separators x = x).
  { induction x as [|c x IH]; [reflexivity|]. cbn [all_digits remove_separators].
    intros Hx. apply andb_true_iff in Hx as [Hc Hx].
    assert (Hsep : Ascii.eqb c "." || Ascii.eqb c "," = false).
    { revert Hc. clear. destruct c as [[] [] [] [] [] [] [] []]; vm_compute;
        intros H; try discriminate H; reflexivity. }
    rewrite Hsep, (IH Hx). reflexivity. }
  assert (Hpos : ∀ p : positive, pretty_N_go (N.pos p) "" ≠ ""
                                 ∧ all_digits (pretty_N_go (N.pos p) "") = true).
  { intros p. split; [|apply all_digits_pretty_N_go; reflexivity].
    rewrite pretty_N_go_step by reflexivity. apply pretty_N_go_nonempty. discriminate. }
  destruct n as [|p|p].
  - split; [discriminate | reflexivity].
  - destruct (Hpos p) as [Hne Hd].
    change (pretty (Z.pos p)) with (pretty_N_go (N.pos p) "").
    split; [exact Hne | apply Hdigits, Hd].
  - destruct (Hpos p) as [Hne Hd].
    change (pretty (Z.neg p)) with (String "-" (pretty_N_go (N.pos p) "")).
    split; [discriminate|]. cbn [remove_separators].
    change (Ascii.eqb "-" "." || Ascii.eqb "-" ",") with false. cbv iota.
    rewrite (Hdigits _ Hd). reflexivity.
Qed.

(** ** Doubles *)

(** A natural number up to 2^53 is a double. *)
Lemma nearest_double_exact (m : Z) : m ≤ 2 ^ 53 → nearest_double m = Some m.
Proof.
  intros Hm. destruct (Z.eq_dec m (2 ^ 53)) as [->|Hne]; [vm_compute; reflexivity|].
  unfold nearest_double. destruct (Z.ltb_spec m (2 ^ 53)) as [_|Hge]; [reflexivity | lia].
Qed.

(** The double nearest to a number from 2^53 on is at least 2^53. *)
Lemma nearest_double_large (m : Z) :
  2 ^ 53 ≤ m →
  match nearest_double m with
  | Some v => 2 ^ 53 ≤ v
  | None => True
  end.
Proof.
  intros Hm. unfold nearest_double.
  destruct (Z.ltb_spec m (2 ^ 53)) as [Hlt|_]; [lia|]. cbv zeta.
  set (e := Z.log2 m - 52). set (q := m / 2 ^ e).
  match goal with |- context [?sig * 2 ^ e <? _] => set (significand := sig) end.
  destruct (significand * 2 ^ e <? 2 ^ 1024); [|exact I].
  assert (Hlog : 53 ≤ Z.log2 m).
  { rewrite <- (Z.log2_pow2 53) by lia. apply Z.log2_le_mono, Hm. }
  assert (He : 1 ≤ e) by (unfold e; lia).
  assert (Hpe : 2 ≤ 2 ^ e).
  { change 2 with (2 ^ 1) at 1. apply Z.pow_le_mono_r; lia. }
  assert (Hq : 2 ^ 52 ≤ q).
  { unfold q. apply Z.div_le_lower_bound; [lia|].
    rewrite <- Z.pow_add_r by lia. replace (e + 52) with (Z.log2 m) by (unfold e; lia).
    apply Z.log2_spec. lia. }
  assert (Hsig : q ≤ significand).
  { unfold significand. destruct (_ <? _); [lia|]. destruct (_ <? _); [lia|].
    destruct (Z.even q); lia. }
  clearbody significand q. clear -Hpe Hq Hsig.
  change (2 ^ 52) with 4503599627370496 in Hq. change (2 ^ 53) with 9007199254740992.
  nia.
Qed.

(** What is typed as the integer [n] is rejected exactly when [n] is below
    the minimum. *)
Lemma typed_amount_rejected (n minimum : Z) :
  0 < minimum ≤ 2 ^ 53 →
  let amount := to_number (if n <? 0 then -1 else 1) (Z.abs n) in
  isNaN amount || number_lt amount minimum = (n <? minimum).
Proof.
  intros Hmin amount. subst amount. unfold to_number.
  destruct (Z.ltb_spec n 0) as [Hneg|Hpos].
  - assert (Hn : (n <? minimum) = true) by (apply Z.ltb_lt; lia). rewrite Hn.
    destruct (Z.le_gt_cases (Z.abs n) (2 ^ 53)) as [Hs|Hl].
    + rewrite (nearest_double_exact _ Hs). cbn [isNaN number_lt orb].
      apply Z.ltb_lt. lia.
    + pose proof (nearest_double_large (Z.abs n) ltac:(lia)) as Hv.
      destruct (nearest_double (Z.abs n)) as [v|]; [|reflexivity].
      cbn [isNaN number_lt orb]. apply Z.ltb_lt. lia.
  - rewrite Z.abs_eq by lia.
    destruct (Z.le_gt_cases n (2 ^ 53)) as [Hs|Hl].
    + rewrite (nearest_double_exact _ Hs). cbn [isNaN number_lt orb].
      rewrite Z.mul_1_l. reflexivity.
    + pose proof (nearest_double_large n ltac:(lia)) as Hv.
      assert (Hn : (n <? minimum) = false) by (apply Z.ltb_ge; lia). rewrite Hn.
      destruct (nearest_double n) as [v|]; [|reflexivity].
      cbn [isNaN number_lt orb]. apply Z.ltb_ge. lia.
Qed.

(** X26. An amount typed as a plain decimal number is read as the double
    nearest to that number, which is the number itself up to 2^53: for
    every integer [n], written out without separators, the QRIS handler
    stores the amount it read and asks for the photo exactly when [n] is at
    least 1000, and the handler of bank amounts goes on to the list of
    banks (which it gets, or fails to get) with that amount exactly when
    [n] is at least 10000; a smaller or negative number is rejected and
    changes nothing. *)
Theorem typed_amount_is_read (n : Z) (s : session) (sdk : banks_outcome) (w : world) :
  let sm := Some initializeSessionManager in
  let amount := to_number (if n <? 0 then -1 else 1) (Z.abs n) in
  parseInt (pretty n) = amount
  ∧ (Z.abs n ≤ 2 ^ 53 → amount = Num n)
  ∧ handleQRISAmountInput (pretty n) s sm w
    = (if n <? 1000 then (Ok FormatRejected, w)
       else (Ok (AskQrisPhoto amount),
             mkWorld (alter (λ r, mkRow (r_chatId r) (r_type r) "awaiting_qris_photo"
                                        (<["amount" := json_of_number amount]> (r_data r))
                                        (r_expires r) (r_createdAt r))
                            (s_id s) (sessions w))
                     (clock w) (sent w)))
  ∧ (if n <? 10000
     then handleBankAmountInput (pretty n) s sdk sm w = (Ok FormatRejected, w)
     else ∃ a w1,
            handleBankAmountInput (pretty n) s sdk sm w = (Ok a, w1)
            ∧ (a = AmountFailed ∨ a = BanksUnavailable
               ∨ ∃ k, a = ChooseBankMethod amount k)).
Proof.
  intros sm amount. subst sm. destruct (pretty_plain n) as [Hne Hplain].
  apply String.eqb_neq in Hne.
  split; [apply parseInt_pretty|]. split.
  { intros Hn. unfold amount, to_number. rewrite (nearest_double_exact _ Hn).
    f_equal. destruct (Z.ltb_spec n 0); lia. }
  unfold handleQRISAmountInput, handleBankAmountInput.
  rewrite Hne. cbv zeta. rewrite parseInt_trim, Hplain, parseInt_pretty. fold amount.
  pose proof (typed_amount_rejected n 1000 ltac:(lia)) as Hqris.
  pose proof (typed_amount_rejected n 10000 ltac:(lia)) as Hbank.
  cbv zeta in Hqris, Hbank. fold amount in Hqris, Hbank. rewrite Hqris, Hbank.
  split.
  - destruct (n <? 1000); [reflexivity|].
    destruct (updateSessionData_run s
                (mkUpdates (Some "awaiting_qris_photo")
                           (Some {[ "amount" := JVal (json_of_number amount) ]})) w)
      as [o Ho].
    rewrite (bind_Ok _ _ _ _ _ Ho). unfold ret. f_equal. f_equal.
    apply map_eq. intros j. rewrite !lookup_alter.
    destruct (decide (s_id s = j)) as [_|_]; [|reflexivity].
    destruct (sessions w !! s_id s) as [r|]; [|reflexivity].
    cbn [fmap option_fmap option_map]. unfold updated_row.
    cbn [u_state u_data default]. rewrite stringify_spread_singleton. reflexivity.
  - destruct (n <? 10000); [reflexivity|]. unfold try_catch.
    destruct sdk as [|success data]; [eexists _, _; split; [reflexivity | auto]|].
    destruct data as [|[| | | |banks|]];
      try (eexists _, _; split; [reflexivity | auto]).
    destruct (negb (truthy success) || (length banks =? 0)%nat);
      [eexists _, _; split; [reflexivity | auto]|].
    match goal with
    | |- context [updateSessionData s _ ?u] =>
        destruct (updateSessionData_run s u w) as [o Ho]
    end.
    rewrite (bind_Ok _ _ _ _ _ Ho). eexists _, _. split; [reflexivity|].
    right. right. eexists. reflexivity.
Qed.

(** What is typed beyond 2^53 is rounded, and what is typed with more
    digits than a double holds is read as Infinity, accepted, and stored as
    null. *)
Lemma typed_amount_rounded :
  parseInt "9007199254740993" = Num 9007199254740992
  ∧ parseInt (pretty (10 ^ 309)) = PosInfinity
  ∧ (handleQRISAmountInput (pretty (10 ^ 309)) session_login
       (Some initializeSessionManager) w_flow).1
    = Ok (AskQrisPhoto PosInfinity)
  ∧ json_of_number PosInfinity = JNull
  ∧ parseInt " 0x1F" = Num 31 ∧ parseInt "12abc" = Num 12 ∧ parseInt "abc" = NaN
  ∧ parseInt (NBSP +:+ "-7") = Num (-7).
Proof. repeat split; vm_compute; reflexivity. Qed.

(** * The commands that start a flow *)

(** A chat that counts as logged in has a session the lookup without a
    type returns. *)
Lemma authenticated_has_session (chat : string) (w : world) :
  isUserAuthenticated chat initializeSessionManager w = (Ok true, w) →
  ∃ s, getSession chat None w = (Ok (Some s), w).
Proof.
  rewrite isUserAuthenticated_run. intros Hauth.
  destruct ((getSession chat (Some "authenticated") w).1) as [[s0|]|err] eqn:Hlook;
    try discriminate.
  rewrite getSession_run in Hlook. cbn [fst] in Hlook.
  destruct (newest _) as [[id r]|] eqn:Hn; [|discriminate].
  apply newest_elem, elem_of_active in Hn as (Hid & Hc & Hexp & _).
  destruct ((getSession chat None w).1) as [[s|]|err] eqn:Hany.
  - exists s. rewrite getSession_world, Hany. reflexivity.
  - exfalso. apply (proj1 (getSession_null_iff chat None w) Hany id r Hid).
    split; [exact Hc|]. split; [exact Hexp | exact I].
  - rewrite getSession_run in Hany. discriminate.
Qed.

(** X27. Neither /add nor /transfer ever starts a flow. A chat that is not
    logged in is refused; for a chat that is logged in the lookup of the
    session in progress, made at the same reading of the clock as the check
    of the login, finds at least the authenticated session, so both
    commands answer that a process is in progress, change nothing, and
    /transfer does so whatever the accounts API would have answered. For
    the same reason /cancel of a chat that is logged in always finds a
    session to delete and never answers that there is nothing to cancel. *)
Theorem commands_never_start_a_flow (chat : string) (sdk : accounts_outcome) (w : world) :
  let sm := initializeSessionManager in
  ∃ b,
    isUserAuthenticated chat sm w = (Ok b, w)
    ∧ command_add chat sm w
      = (Ok tt, mkWorld (sessions w) (clock w)
                        (sent w ++ [if b then ProcessInProgress else AccessRestricted]))
    ∧ command_transfer chat sdk sm w = (Ok (if b then InProgress else Restricted), w)
    ∧ ∃ w1,
        command_cancel chat sm w = (Ok tt, w1)
        ∧ if b then
            ∃ s, getSessionData chat (Some sm) w = (Ok (Some s), w)
                 ∧ w1 = mkWorld (delete (s_id s) (sessions w)) (clock w)
                                (sent w ++ [Cancelled])
          else w1 = mkWorld (sessions w) (clock w) (sent w ++ [AccessRestricted]).
Proof.
  intros sm. subst sm.
  assert (Hb : ∃ b, isUserAuthenticated chat initializeSessionManager w = (Ok b, w))
    by (rewrite isUserAuthenticated_run; eexists; reflexivity).
  destruct Hb as [b Hb]. exists b. split; [exact Hb|].
  unfold command_add, command_transfer, command_cancel.
  rewrite !(bind_Ok _ _ w w b Hb).
  destruct b; cbn [negb].
  - destruct (authenticated_has_session chat w Hb) as [s Hs].
    unfold handleAddCommand, handleTransferCommand, try_catch.
    cbn [getSessionData deleteSessionData m_getSession m_deleteSession
         initializeSessionManager].
    rewrite !(bind_Ok _ _ w w _ Hs).
    split; [reflexivity|]. split; [reflexivity|].
    eexists. split.
    + rewrite (bind_Ok _ _ _ _ _ (deleteSession_run (s_id s) w)). reflexivity.
    + exists s. split; [exact Hs | reflexivity].
  - split; [reflexivity|]. split; [reflexivity|].
    eexists. split; reflexivity.
Qed.

(** * The last steps of adding an account *)



(** * The accounts a transfer can start from *)

Lemma is_string_true (v : jsval) (s : string) :
  is_string v s = true ↔ v = JVal (JStr s).
Proof.
  destruct v as [|[]]; simpl; try (split; discriminate).
  rewrite String.eqb_eq. split; [intros ->; reflexivity | intros [= ->]; reflexivity].
Qed.

Lemma js_prop_world (j : json) (k : string) (w w' : world) (r : result jsval) :
  js_prop j k w = (r, w') → w' = w ∧ ∀ v, js_prop j k v = (r, v).
Proof.
  destruct j; intros [= <- <-]; split; reflexivity.
Qed.

(** The filter of the accounts reads its argument only. *)
Lemma isActiveDANA_world (account : json) (w : world) :
  ∃ r, (∀ v, isActiveDANA account v = (r, v))
       ∧ (r = Ok true →
          ∃ fields provider,
            account = JObj fields
            ∧ property fields "type" = JVal (JStr "ewallet")
            ∧ property fields "isActive" = JVal (JBool true)
            ∧ property fields "provider" = JVal provider
            ∧ ∀ v, js_prop provider "code" v = (Ok (JVal (JStr "DANA")), v)).
Proof.
  unfold isActiveDANA.
  destruct account as [|b|n|x|l|fields];
    try (eexists; split; [intros v; reflexivity | discriminate]).
  cbn [js_prop]. unfold bind at 1, ret at 1.
  destruct (is_string (property fields "type") "ewallet") eqn:Hty; cbn [negb];
    [|eexists; split; [intros v; reflexivity | discriminate]].
  apply is_string_true in Hty.
  unfold bind at 1, ret at 1.
  destruct (property fields "isActive") as [|[|[]| | | |]] eqn:Hact;
    try (eexists; split; [intros v; reflexivity | discriminate]).
  unfold bind at 1, ret at 1.
  destruct (property fields "provider") as [|p] eqn:Hp;
    [eexists; split; [intros v; reflexivity | discriminate]|].
  destruct p as [|b|n|x|l|pfields];
    try (eexists; split; [intros v; reflexivity | discriminate]).
  cbn [js_prop]. unfold bind at 1, ret at 1.
  destruct (is_string (property pfields "code") "DANA") eqn:Hcode.
  - apply is_string_true in Hcode. eexists. split; [intros v; reflexivity|].
    intros _. exists fields, (JObj pfields).
    split; [reflexivity|]. split; [exact Hty|]. split; [exact Hact|].
    split; [exact Hp|]. intros v. cbn [js_prop]. rewrite Hcode. reflexivity.
  - eexists. split; [intros v; reflexivity | discriminate].
Qed.

Lemma filterM_isActiveDANA (accounts : list json) (w : world) :
  ∃ r, filterM isActiveDANA accounts w = (r, w)
       ∧ ∀ l, r = Ok l →
           sublist l accounts
           ∧ Forall (λ x, ∀ v, isActiveDANA x v = (Ok true, v)) l.
Proof.
  induction accounts as [|x accounts (r & Hrun & Hr)].
  - exists (Ok []). split; [reflexivity|]. intros l [= <-]. split; constructor.
  - cbn [filterM]. destruct (isActiveDANA_world x w) as (rx & Hx & _).
    destruct rx as [keep|err].
    + rewrite (bind_Ok _ _ w w keep (Hx w)).
      destruct r as [rest|err].
      * rewrite (bind_Ok _ _ w w rest Hrun). eexists. split; [reflexivity|].
        intros l [= <-]. destruct (Hr rest eq_refl) as [Hsub Hall].
        destruct keep.
        -- split; [apply sublist_skip, Hsub | constructor; [exact Hx | exact Hall]].
        -- split; [apply sublist_cons, Hsub | exact Hall].
      * rewrite (bind_Throw _ _ w w err Hrun). eexists. split; [reflexivity|].
        discriminate.
    + rewrite (bind_Throw _ _ w w err (Hx w)). eexists. split; [reflexivity|].
      discriminate.
Qed.

(** X29. handleTransferCommand never throws and never changes anything,
    whatever the accounts API answers or throws, and its outer catch is
    never entered. While the chat has a session it answers that a process
    is in progress. Without one it offers accounts to choose from only when
    the API answered with status success and an array: the accounts offered
    are, in the order of the array, objects of type ewallet with isActive
    true and provider code DANA, and there is at least one. *)
Theorem handleTransferCommand_total (chat : string) (sdk : accounts_outcome) (w : world) :
  let sm := Some initializeSessionManager in
  ∃ a,
    handleTransferCommand chat sdk sm w = (Ok a, w)
    ∧ match a with
      | InProgress => (getSession chat None w).1 ≠ Ok None
      | ChooseAccount offered =>
          (getSession chat None w).1 = Ok None
          ∧ offered ≠ []
          ∧ ∃ accounts,
              sdk = AccountsResponse (JVal (JStr "success")) (JVal (JArr accounts))
              ∧ sublist offered accounts
              ∧ Forall (λ x, ∃ fields provider,
                          x = JObj fields
                          ∧ property fields "type" = JVal (JStr "ewallet")
                          ∧ property fields "isActive" = JVal (JBool true)
                          ∧ property fields "provider" = JVal provider
                          ∧ js_prop provider "code" w = (Ok (JVal (JStr "DANA")), w))
                       offered
      | NoActiveAccount | AccountsUnavailable | LoadFailed =>
          (getSession chat None w).1 = Ok None
      | _ => False
      end.
Proof.
  intros sm. subst sm. unfold handleTransferCommand, try_catch.
  cbn [getSessionData m_getSession initializeSessionManager].
  assert (Hlook : ∃ o, getSession chat None w = (Ok o, w))
    by (rewrite getSession_run; eexists; reflexivity).
  destruct Hlook as [o Hlook]. rewrite (bind_Ok _ _ w w o Hlook).
  assert (Ho : (getSession chat None w).1 = Ok o) by (rewrite Hlook; reflexivity).
  rewrite Ho. destruct o as [s|].
  - exists InProgress. split; [reflexivity | discriminate].
  - destruct sdk as [|status data]; [exists LoadFailed; split; reflexivity|].
    destruct (is_string status "success") eqn:Hstatus; cbn [negb orb];
      [|exists AccountsUnavailable; split; reflexivity].
    apply is_string_true in Hstatus. subst status.
    destruct (truthy data) eqn:Hdata; cbn [negb];
      [|exists AccountsUnavailable; split; reflexivity].
    destruct data as [|[| | | |accounts|]];
      try (exists LoadFailed; split; reflexivity).
    destruct (filterM_isActiveDANA accounts w) as (r & Hrun & Hr).
    destruct r as [offered|err].
    + rewrite (bind_Ok _ _ w w offered Hrun).
      destruct (Hr offered eq_refl) as [Hsub Hall].
      destruct offered as [|x offered]; [exists NoActiveAccount; split; reflexivity|].
      exists (ChooseAccount (x :: offered)). split; [reflexivity|].
      split; [reflexivity|]. split; [discriminate|].
      exists accounts. split; [reflexivity|]. split; [exact Hsub|].
      eapply Forall_impl; [exact Hall|]. intros y Hy. cbv beta in Hy.
      destruct (isActiveDANA_world y w) as (ry & Hry & Hshape).
      specialize (Hry w). rewrite (Hy w) in Hry. injection Hry as <-.
      destruct (Hshape eq_refl) as (fields & provider & -> & Hty & Hact & Hp & Hcode).
      exists fields, provider. repeat split; try assumption. apply Hcode.
    + rewrite (bind_Throw _ _ w w err Hrun). exists LoadFailed. split; reflexivity.
Qed.

(** * Pages of banks *)

Lemma slice_page {B} (l : list B) (p : nat) :
  slice l (p * 15) (Nat.min (p * 15 + 15) (length l)) = take 15 (drop (p * 15) l).
Proof.
  unfold slice. destruct (le_lt_dec (p * 15 + 15) (length l)) as [Hle|Hlt].
  - rewrite Nat.min_l by exact Hle. f_equal. lia.
  - rewrite Nat.min_r by lia.
    rewrite !take_ge; [reflexivity | |]; rewrite length_drop; lia.
Qed.

(** Cutting a list into pieces of 15 and putting them together again. *)
Lemma pages_concat {B} (n : nat) (l : list B) :
  (length l <= 15 * n)%nat →
  concat (map (λ p, take 15 (drop (p * 15) l)) (seq 0 n)) = l.
Proof.
  revert l. induction n as [|n IH]; intros l Hlen.
  - destruct l; [reflexivity | simpl in Hlen; lia].
  - cbn [seq map concat]. rewrite <- seq_shift, map_map.
    change (drop (0 * 15) l) with l.
    transitivity (take 15 l ++ drop 15 l); [|apply take_drop]. f_equal.
    etransitivity; [|apply (IH (drop 15 l)); rewrite length_drop; lia].
    f_equal. apply map_ext. intros p. rewrite drop_drop. f_equal; f_equal; lia.
Qed.

Lemma indexOf_from_found {B} `{EqDecision B} (l : list B) (b : B) (k : Z) :
  (b ∈ l → ∃ i : nat, l !! i = Some b ∧ indexOf_from l b k = k + Z.of_nat i)
  ∧ (b ∉ l → indexOf_from l b k = -1).
Proof.
  revert k. induction l as [|y l IH]; intros k.
  - split; [intros Hin; inversion Hin | reflexivity].
  - cbn [indexOf_from]. destruct (decide (y = b)) as [->|Hne].
    + split; [|intros Hnot; exfalso; apply Hnot; left].
      intros _. exists 0%nat. split; [reflexivity | lia].
    + destruct (IH (k + 1)) as [Hin Hout]. split.
      * intros Hb. apply elem_of_cons in Hb as [->|Hb]; [contradiction|].
        destruct (Hin Hb) as (i & Hi & Hidx). exists (S i). split; [exact Hi | lia].
      * intros Hnot. apply Hout. intros Hb. apply Hnot. right. exact Hb.
Qed.

(** X30. The pages of showBankPage cut the list of banks into consecutive
    pieces of 15: put together in order, the pages 0 to [totalPages - 1] are
    the list, every page before the last is full, a page from [totalPages]
    on is empty, the button to the next page is there exactly when a later
    page has banks, and the button to the previous page exactly from page 1
    on. The index a bank button selects is the place of that bank in the
    session's list of banks; it is -1 when the bank is not one of the
    objects of that list. *)
Theorem showBankPage_pages {B} `{EqDecision B} (availableBanks banks : list B)
    (page : nat) :
  let view := showBankPage availableBanks banks in
  let shown p := map fst (bankButtons (view p)) in
  let pages := totalPages (view page) in
  concat (map shown (seq 0 pages)) = banks
  ∧ (∀ p, totalPages (view p) = pages)
  ∧ ((page + 1 < pages)%nat → length (shown page) = 15%nat)
  ∧ ((page < pages)%nat → shown page ≠ [])
  ∧ ((pages <= page)%nat → shown page = [])
  ∧ nextPage (view page) = (if decide (page + 1 < pages)%nat then Some (page + 1)%nat else None)
  ∧ previousPage (view page) = (if decide (0 < page)%nat then Some (page - 1)%nat else None)
  ∧ (∀ b i, (b, i) ∈ bankButtons (view page) →
       (b ∈ availableBanks → 0 ≤ i ∧ availableBanks !! Z.to_nat i = Some b)
       ∧ (b ∉ availableBanks → i = -1)).
Proof.
  intros view shown pages.
  assert (Hshown : ∀ p, shown p = take 15 (drop (p * 15) banks)).
  { intros p. unfold shown, view, showBankPage. cbn [bankButtons].
    rewrite map_map. cbn [fst]. rewrite map_id. apply slice_page. }
  assert (Hceil : (length banks <= 15 * pages)%nat
                  ∧ (0 < pages → 15 * (pages - 1) < length banks)%nat).
  { unfold pages, view, showBankPage. cbn [totalPages].
    pose proof (Math_ceil_div_is_ceiling (Z.of_nat (length banks)) (Z.of_nat 15)
                  ltac:(lia)) as Hceil.
    unfold is_ceiling in *. change (Z.of_nat 15) with 15 in *.
    set (m := Math_ceil_div _ _) in *. clearbody m. destruct Hceil as [Hup Hlow].
    split; [lia|]. intros Hpos. lia. }
  destruct Hceil as [Hup Hlow].
  split; [|split; [|split; [|split; [|split; [|split; [|split]]]]]].
  - rewrite (map_ext shown _ Hshown). apply pages_concat, Hup.
  - intros p. reflexivity.
  - intros Hp. rewrite Hshown, length_take, length_drop.
    specialize (Hlow ltac:(lia)). lia.
  - intros Hp. rewrite Hshown. intros Hnil. apply (f_equal length) in Hnil.
    rewrite length_take, length_drop in Hnil. cbn [length] in Hnil.
    specialize (Hlow ltac:(lia)). lia.
  - intros Hp. rewrite Hshown. rewrite drop_ge by lia. reflexivity.
  - unfold view, showBankPage. cbn [nextPage].
    destruct (decide (page + 1 < pages)%nat) as [Hp|Hp].
    + destruct (Nat.ltb_spec (Nat.min (page * 15 + 15) (length banks)) (length banks))
        as [_|Hge]; [reflexivity | lia].
    + destruct (Nat.ltb_spec (Nat.min (page * 15 + 15) (length banks)) (length banks))
        as [Hlt|_]; [lia | reflexivity].
  - unfold view, showBankPage. cbn [previousPage].
    destruct (decide (0 < page)%nat) as [Hp|Hp];
      destruct (Nat.ltb_spec 0 page) as [Hlt|Hge]; try reflexivity; lia.
  - intros b i Hin. unfold view, showBankPage in Hin. cbn [bankButtons] in Hin.
    apply list_elem_of_fmap in Hin as (b' & [= -> ->] & _).
    destruct (indexOf_from_found availableBanks b' 0) as [Hfound Hnot].
    split; [|exact Hnot].
    intros Hb. destruct (Hfound Hb) as (k & Hk & Hidx). unfold indexOf.
    rewrite Hidx. split; [lia|]. rewrite Z.add_0_l, Nat2Z.id. exact Hk.
Qed.

Lemma showBankPage_pages_witness :
  let banks := seq 100 40 in
  let view := showBankPage banks (rev banks) in
  totalPages (view 0%nat) = 3%nat
  ∧ map fst (bankButtons (view 2%nat)) = rev (seq 100 10)
  ∧ concat (map (λ p, map fst (bankButtons (view p))) [0; 1; 2]%nat) = rev banks
  ∧ nextPage (view 1%nat) = Some 2%nat
  ∧ nextPage (view 2%nat) = None
  ∧ previousPage (view 0%nat) = None
  ∧ bankButtons (view 2%nat) !! 9%nat = Some (100%nat, 0)
  ∧ bankButtons (showBankPage [] (rev banks) 0) !! 0%nat = Some (139%nat, -1).
Proof.
  intros banks view.
  destruct (showBankPage_pages banks (rev banks) 1)
    as (Hall & _ & _ & _ & _ & Hnext & _ & _).
  change (totalPages (showBankPage banks (rev banks) 1)) with 3%nat in Hall, Hnext.
  split; [reflexivity|]. split; [vm_compute; reflexivity|].
  split; [exact Hall|]. split; [exact Hnext|].
  repeat split; vm_compute; reflexivity.
Defined.
